(** * Block ingestion pipeline of [substrate_script.py] over the schema of
      [myapp/models.py]

    A shallow embedding of the decode / normalise / persist pipeline:
    timestamp extraction, per-extrinsic event correlation, call-type
    deduplication and position-identifier construction, together with the
    part of the object-relational layer the script relies on (the three
    tables and their column constraints).

    Python values are dynamically shaped, so they are embedded as one
    inductive type and every access that Python can refuse returns in an
    error type carrying the exception class.  Database writes are immediate
    (no transaction is opened by the script), so a computation returns the
    database it leaves behind together with its outcome, also when the
    outcome is an exception. *)

From Stdlib Require Import List String Ascii ZArith Bool Lia Arith.
From Stdlib Require DecimalString DecimalNat DecimalFacts.
Import ListNotations.

Set Warnings "-register-all".

Local Open Scope string_scope.
Local Open Scope Z_scope.

(* ================================================================= *)
(** ** Python values *)

(** The decoded chain data is JSON-like.  [VObj] is a decoded chain object
    (an extrinsic or an event): the only attribute the script reads from it
    is [value], which may be missing.  Such an object is truthy and offers
    nothing else: no items, no [get], no iteration.  Floating-point numbers
    do not occur in decoded chain data and are left out. *)
Inductive pyval : Type :=
| VNone
| VBool (b : bool)
| VInt (z : Z)
| VStr (s : string)
| VList (l : list pyval)
| VDict (d : list (string * pyval))
| VObj (value : option pyval).

(** Exception classes the pipeline can raise.  [RangeError] stands for what
    the timestamp conversion raises for an instant outside the years 1 to
    9999: [ValueError], [OverflowError] or [OSError], by magnitude and
    platform.  [OutOfModel] is no exception: it marks what is left open,
    the conversion of a decoded chain object handed to a column (its
    [str()] and [int()] are the object's own) and attribute values that
    the string forms of the models never reach. *)
Inductive exn : Type :=
| KeyError
| IndexError
| TypeError
| AttributeError
| ValueError
| OverflowError
| RangeError
| IntegrityError
| DoesNotExist
| MultipleObjectsReturned
| OutOfModel.

Inductive result (A : Type) : Type :=
| Ok (a : A)
| Raise (e : exn).
Arguments Ok {A} a.
Arguments Raise {A} e.

Definition rbind {A B} (r : result A) (k : A -> result B) : result B :=
  match r with
  | Ok a => k a
  | Raise e => Raise e
  end.

Declare Scope py_scope.
Delimit Scope py_scope with py.
Notation "x <- r ;; k" := (rbind r (fun x => k))
  (at level 61, r at next level, right associativity) : py_scope.
Notation "' p <- r ;; k" := (rbind r (fun p => k))
  (at level 61, p pattern, r at next level, right associativity) : py_scope.

(** [bool(v)]. *)
Definition truthy (v : pyval) : bool :=
  match v with
  | VNone => false
  | VBool b => b
  | VInt z => negb (z =? 0)
  | VStr s => negb (s =? EmptyString)%string
  | VList l => match l with [] => false | _ => true end
  | VDict d => match d with [] => false | _ => true end
  | VObj _ => true
  end.

(** [getattr(o, 'value', None)]: none of the built-in types has an attribute
    of that name. *)
Definition getattr_value (o : pyval) : pyval :=
  match o with
  | VObj (Some v) => v
  | _ => VNone
  end.

(** [v == s] for a string [s]: only a string compares equal to a string. *)
Definition py_eq_str (v : pyval) (s : string) : bool :=
  match v with
  | VStr t => (t =? s)%string
  | _ => false
  end.

(** [v == n] for an integer [n]: booleans are the integers 0 and 1. *)
Definition py_eq_int (v : pyval) (n : Z) : bool :=
  match v with
  | VInt z => z =? n
  | VBool b => Z.b2z b =? n
  | _ => false
  end.

(** Dictionaries keep their items in insertion order; a key is looked up by
    its first occurrence. *)
Fixpoint dict_lookup (k : string) (d : list (string * pyval)) : option pyval :=
  match d with
  | [] => None
  | (k', v) :: d' => if (k' =? k)%string then Some v else dict_lookup k d'
  end.

(** [v.get(k, default)]: only dictionaries have the method. *)
Definition py_get (v : pyval) (k : string) (default : pyval) : result pyval :=
  match v with
  | VDict d => Ok (match dict_lookup k d with Some x => x | None => default end)
  | _ => Raise AttributeError
  end.

(** [v[k]] for a string key. *)
Definition py_item (v : pyval) (k : string) : result pyval :=
  match v with
  | VDict d => match dict_lookup k d with Some x => Ok x | None => Raise KeyError end
  | _ => Raise TypeError
  end.

(** [v[0]]. *)
Definition py_item0 (v : pyval) : result pyval :=
  match v with
  | VList l => match l with x :: _ => Ok x | [] => Raise IndexError end
  | VStr s => match s with
              | String c _ => Ok (VStr (String c EmptyString))
              | EmptyString => Raise IndexError
              end
  | VDict _ => Raise KeyError
  | _ => Raise TypeError
  end.

Definition is_substring (s t : string) : bool :=
  match String.index 0 s t with Some _ => true | None => false end.

(** [k in v] for a string [k]. *)
Definition py_contains (k : string) (v : pyval) : result bool :=
  match v with
  | VDict d => Ok (match dict_lookup k d with Some _ => true | None => false end)
  | VList l => Ok (existsb (fun x => py_eq_str x k) l)
  | VStr s => Ok (is_substring k s)
  | _ => Raise TypeError
  end.

Fixpoint chars (s : string) : list pyval :=
  match s with
  | EmptyString => []
  | String c s' => VStr (String c EmptyString) :: chars s'
  end.

(** The items a [for] loop or a generator draws from [v]. *)
Definition py_iter (v : pyval) : result (list pyval) :=
  match v with
  | VList l => Ok l
  | VDict d => Ok (map (fun kv => VStr (fst kv)) d)
  | VStr s => Ok (chars s)
  | _ => Raise TypeError
  end.

(** [str(n)] for an integer. *)
Definition str_of_Z (z : Z) : string := DecimalString.NilZero.string_of_int (Z.to_int z).

Definition str_of_nat (n : nat) : string := DecimalString.NilZero.string_of_uint (Nat.to_uint n).

Fixpoint zeros (n : nat) : string :=
  match n with
  | O => EmptyString
  | S n' => String "0" (zeros n')
  end.

(** [f"{n:04}"] for a position: decimal digits, zero-filled on the left up
    to four characters. *)
Definition pad04 (n : nat) : string :=
  let s := str_of_nat n in
  zeros (4 - String.length s) ++ s.

(** [f"{block_number}-{idx:04}"]. *)
Definition position_id (block_number : Z) (idx : nat) : string :=
  str_of_Z block_number ++ "-" ++ pad04 idx.

(* ================================================================= *)
(** ** Timestamps *)

(** A timezone-aware [datetime] in UTC, as microseconds since the Unix
    epoch (the resolution of the Python type). *)
Record datetime : Type := UTC { epoch_micros : Z }.

Definition epoch_second (t : datetime) : Z := epoch_micros t / 1000000.

(** First and last millisecond of the years 1 to 9999, the range of
    [datetime]. *)
Definition datetime_min_millis : Z := -62135596800000.
Definition datetime_max_millis : Z := 253402300799999.

(** 2^33 seconds, in milliseconds: about the year 2242. *)
Definition exact_millis_bound : Z := 8589934592000.

(** The dividend of [v / 1000]: integers and booleans divide, nothing else
    in the value universe does. *)
Definition py_millis (v : pyval) : result Z :=
  match v with
  | VInt z => Ok z
  | VBool b => Ok (Z.b2z b)
  | _ => Raise TypeError
  end.

(** First and last microsecond of that range. *)
Definition datetime_min_micros : Z := datetime_min_millis * 1000.
Definition datetime_max_micros : Z := datetime_max_millis * 1000 + 999.

(** The integer nearest to [p / q], ties to the even one. *)
Definition rhe_div (p q : Z) : Z :=
  let d := p / q in
  let r := p mod q in
  if 2 * r <? q then d
  else if q <? 2 * r then d + 1
  else if Z.even d then d else d + 1.

(** The exponent of [a / b]: the [k] with [2^k <= a / b < 2^(k+1)]. *)
Definition floor_log2_ratio (a b : Z) : Z :=
  let k := Z.log2 a - Z.log2 b in
  if (if 0 <=? k then b * 2 ^ k <=? a else b <=? a * 2 ^ (- k)) then k else k - 1.

(** The binary64 number nearest to [a / b] for [0 <= a] and [0 < b]: 53
    significant bits, ties to even.  The result [(n, s)] stands for
    [n / 2^s].  The exponent is left unbounded: the quotients met here are
    far above the subnormal range, and one beyond the largest binary64
    number is far outside the range of [datetime]. *)
Definition binary64_round (a b : Z) : Z * Z :=
  if a =? 0 then (0, 0)
  else
    let e := floor_log2_ratio a b - 52 in
    if 0 <=? e then (rhe_div a (b * 2 ^ e) * 2 ^ e, 0)
    else (rhe_div (a * 2 ^ (- e)) b, - e).

(** The microseconds [datetime.fromtimestamp] makes of [ms / 1000] for
    [0 <= ms]: the quotient in binary64, split into whole seconds and
    fraction, the fraction times [1e6] in binary64 again, that rounded to
    an integer half to even. *)
Definition timestamp_micros_nonneg (ms : Z) : Z :=
  let '(n, s) := binary64_round ms 1000 in
  let whole := n / 2 ^ s in
  let frac := n - whole * 2 ^ s in
  let '(n', s') := binary64_round (frac * 10 ^ 6) (2 ^ s) in
  whole * 10 ^ 6 + rhe_div n' (2 ^ s').

(** Division and both roundings are symmetric about zero. *)
Definition timestamp_micros (ms : Z) : Z :=
  if 0 <=? ms then timestamp_micros_nonneg ms else - timestamp_micros_nonneg (- ms).

(** [datetime.fromtimestamp(ms / 1000, tz=pytz.UTC)]. *)
Definition fromtimestamp_millis (ms : Z) : result datetime :=
  let t := timestamp_micros ms in
  if (datetime_min_micros <=? t) && (t <=? datetime_max_micros) then Ok (UTC t)
  else Raise RangeError.

Local Open Scope py_scope.

Fixpoint extract_block_timestamp (extrinsics : list pyval) : result (option datetime) :=
  match extrinsics with
  | [] => Ok None
  | extrinsic :: rest =>
      let extrinsic_value := getattr_value extrinsic in
      if truthy extrinsic_value then
        has_call <- py_contains "call" extrinsic_value ;;
        if (has_call : bool) then
          call <- py_item extrinsic_value "call" ;;
          call_function <- py_item call "call_function" ;;
          if py_eq_str call_function "set" then
            call_module <- py_item call "call_module" ;;
            if py_eq_str call_module "Timestamp" then
              call_args <- py_item call "call_args" ;;
              arg0 <- py_item0 call_args ;;
              v <- py_item arg0 "value" ;;
              ms <- py_millis v ;;
              t <- fromtimestamp_millis ms ;;
              Ok (Some t)
            else extract_block_timestamp rest
          else extract_block_timestamp rest
        else extract_block_timestamp rest
      else extract_block_timestamp rest
  end.

(* ================================================================= *)
(** ** Event correlation and call details *)

(** The loop of [extract_extrinsic_events], with its two accumulators. *)
Fixpoint extract_events_loop (events : list pyval) (idx : Z)
    (extrinsic_events : list pyval) (extrinsic_success : bool)
  : result (list pyval * bool) :=
  match events with
  | [] => Ok (extrinsic_events, extrinsic_success)
  | event :: rest =>
      let event_value := getattr_value event in
      if truthy event_value then
        pos <- py_get event_value "extrinsic_idx" VNone ;;
        if py_eq_int pos idx then
          event_id <- py_item event_value "event_id" ;;
          extract_events_loop rest idx (extrinsic_events ++ [event_value])
            (if py_eq_str event_id "ExtrinsicSuccess" then true else extrinsic_success)
        else extract_events_loop rest idx extrinsic_events extrinsic_success
      else extract_events_loop rest idx extrinsic_events extrinsic_success
  end.

Definition extract_extrinsic_events (events : list pyval) (idx : Z)
  : result (list pyval * bool) :=
  extract_events_loop events idx [] false.

(** [next((arg['value'] for arg in call_args if arg['name'] == 'netuid'), None)]:
    the generator is drawn from until its first item. *)
Fixpoint next_netuid (call_args : list pyval) : result pyval :=
  match call_args with
  | [] => Ok VNone
  | arg :: rest =>
      name <- py_item arg "name" ;;
      if py_eq_str name "netuid" then py_item arg "value" else next_netuid rest
  end.

(** The three-element list [extrinsic_type] is a triple:
    identifier, function, module. *)
Definition extract_extrinsic_details (extrinsic_value : pyval)
  : result ((pyval * pyval * pyval) * pyval) :=
  call <- py_get extrinsic_value "call" (VDict []) ;;
  call_args <- py_get call "call_args" (VList []) ;;
  args <- py_iter call_args ;;
  extrinsic_netuid <- next_netuid args ;;
  call_index <- py_get call "call_index" VNone ;;
  call_function <- py_get call "call_function" VNone ;;
  call_module <- py_get call "call_module" VNone ;;
  Ok ((call_index, call_function, call_module), extrinsic_netuid).

(* ================================================================= *)
(** ** The schema of [myapp/models.py] *)

(** Rows carry the columns of the three models.  A column declared without
    [null=True] holds a value; a nullable column holds an option.  The
    surrogate primary key plays no part in the script (both foreign keys
    use [to_field]) and is left out.  The settings module is not part of
    the sources; the database is taken to be the one a Django project
    starts with (SQLite): [max_length] is not enforced ([create] does not
    validate either), integers are 64-bit, foreign keys are checked. *)
Module Block.
Record t : Type := mk {
  block_id : Z;                     (* IntegerField(unique=True) *)
  block_hash : string;              (* CharField(unique=True) *)
  parentHash : string;
  stateRoot : string;
  extrinsicsRoot : string;
  timestamp : option datetime       (* DateTimeField(null=True) *)
}.
End Block.

Module Call.
Record t : Type := mk {
  call_index : string;              (* CharField(unique=True) *)
  call_function : option string;    (* CharField(null=True) *)
  call_module : option string       (* CharField(null=True) *)
}.
End Call.

Module Extrinsic.
Record t : Type := mk {
  netuid : option Z;                (* IntegerField(null=True) *)
  hash : string;                    (* CharField(unique=True) *)
  address : option string;
  block : Z;                        (* ForeignKey(Block, to_field='block_id') *)
  idx : option string;
  signature : pyval;                (* JSONField(null=True) *)
  tip : option Z;
  nonce : option Z;
  era : option string;
  call_index : string;              (* ForeignKey(Call, to_field='call_index') *)
  call_args : pyval;
  result : option string;
  events : pyval
}.
End Extrinsic.

Record DB : Type := mkDB {
  blocks : list Block.t;
  calls : list Call.t;
  extrinsics : list Extrinsic.t
}.

Definition empty_db : DB := mkDB [] [] [].

(** A Python string is taken as its sequence of code points, all below
    256. *)
Definition code (c : ascii) : Z := Z.of_nat (nat_of_ascii c).

Definition quote1 : ascii := ascii_of_nat 39.
Definition quote2 : ascii := ascii_of_nat 34.
Definition backslash : ascii := ascii_of_nat 92.

Definition hex_digit (n : Z) : ascii :=
  nth (Z.to_nat n) (list_ascii_of_string "0123456789abcdef") "0"%char.

(** [str.isprintable] of a code point below 256. *)
Definition printable (n : Z) : bool :=
  ((32 <=? n) && (n <? 127)) || ((161 <=? n) && negb (n =? 173)).

Definition repr_char (quote c : ascii) : string :=
  let n := code c in
  if (c =? quote)%char || (c =? backslash)%char then String backslash (String c EmptyString)
  else if n =? 9 then String backslash "t"
  else if n =? 10 then String backslash "n"
  else if n =? 13 then String backslash "r"
  else if printable n then String c EmptyString
  else String backslash (String "x" (String (hex_digit (n / 16))
                                       (String (hex_digit (n mod 16)) EmptyString))).

Definition has_char (c : ascii) (s : string) : bool :=
  existsb (Ascii.eqb c) (list_ascii_of_string s).

(** [repr(s)] of a string: single quotes, unless the string holds a single
    quote and no double quote. *)
Definition repr_str (s : string) : string :=
  let quote := if has_char quote1 s && negb (has_char quote2 s) then quote2 else quote1 in
  String quote
    (String.concat EmptyString (map (repr_char quote) (list_ascii_of_string s))
       ++ String quote EmptyString).

Definition all_some {A} (l : list (option A)) : option (list A) :=
  fold_right (fun o acc => match o, acc with
                           | Some a, Some r => Some (a :: r)
                           | _, _ => None
                           end) (Some []) l.

(** [repr(v)]; a chain object has a form of its own. *)
Fixpoint py_repr (v : pyval) : option string :=
  match v with
  | VNone => Some "None"
  | VBool b => Some (if b then "True" else "False")
  | VInt z => Some (str_of_Z z)
  | VStr s => Some (repr_str s)
  | VList l =>
      option_map (fun items => "[" ++ String.concat ", " items ++ "]")
        (all_some (map py_repr l))
  | VDict d =>
      option_map (fun items => "{" ++ String.concat ", " items ++ "}")
        (all_some (map (fun kv => option_map (fun r => repr_str (fst kv) ++ ": " ++ r)
                                    (py_repr (snd kv))) d))
  | VObj _ => None
  end.

(** What a [CharField] stores for a Python value: [None] and strings as
    they are, anything else through [str()], which for a container is its
    [repr]. *)
Definition to_char (v : pyval) : result (option string) :=
  match v with
  | VNone => Ok None
  | VStr s => Ok (Some s)
  | VInt z => Ok (Some (str_of_Z z))
  | VBool b => Ok (Some (if b then "True" else "False"))
  | VList _ | VDict _ =>
      match py_repr v with
      | Some s => Ok (Some s)
      | None => Raise OutOfModel
      end
  | VObj _ => Raise OutOfModel
  end.

(** The integers the database stores (64-bit, signed). *)
Definition db_integer (z : Z) : result Z :=
  if (- 2 ^ 63 <=? z) && (z <? 2 ^ 63) then Ok z else Raise OverflowError.

Definition db_integer_opt (o : option Z) : result (option Z) :=
  match o with
  | None => Ok None
  | Some z => z' <- db_integer z ;; Ok (Some z')
  end.

(** The blanks [int()] strips from both ends of a string. *)
Definition is_int_space (c : ascii) : bool :=
  let n := code c in
  ((9 <=? n) && (n <=? 13)) || (n =? 32) || (n =? 133) || (n =? 160).

Fixpoint lstrip (s : string) : string :=
  match s with
  | EmptyString => EmptyString
  | String c s' => if is_int_space c then lstrip s' else s
  end.

Fixpoint rstrip (s : string) : string :=
  match s with
  | EmptyString => EmptyString
  | String c s' =>
      let r := rstrip s' in
      if is_int_space c && (r =? EmptyString)%string then EmptyString else String c r
  end.

(** Decimal digits, single underscores allowed between two of them. *)
Fixpoint digits_int (s : string) (acc : Z) (after_digit : bool) : option Z :=
  match s with
  | EmptyString => if after_digit then Some acc else None
  | String c s' =>
      let n := code c in
      if (48 <=? n) && (n <=? 57) then digits_int s' (acc * 10 + (n - 48)) true
      else if (n =? 95) && after_digit then digits_int s' acc false
      else None
  end.

(** [int(s)] of a string, [None] where Python raises [ValueError].  (An
    interpreter that limits the length of a numeral refuses more than 4300
    digits; such a number is far beyond what the database stores.) *)
Definition int_of_string (s : string) : option Z :=
  match rstrip (lstrip s) with
  | String "+" r => digits_int r 0 false
  | String "-" r => option_map Z.opp (digits_int r 0 false)
  | t => digits_int t 0 false
  end.

(** What an [IntegerField] makes of a value: [int()] of it. *)
Definition to_integer (v : pyval) : result (option Z) :=
  match v with
  | VNone => Ok None
  | VInt z => Ok (Some z)
  | VBool b => Ok (Some (Z.b2z b))
  | VStr s => match int_of_string s with
              | Some z => Ok (Some z)
              | None => Raise ValueError
              end
  | VList _ | VDict _ => Raise TypeError
  | VObj _ => Raise OutOfModel
  end.

Fixpoint json_serializable (v : pyval) : bool :=
  match v with
  | VObj _ => false
  | VList l => forallb json_serializable l
  | VDict d => forallb (fun kv => json_serializable (snd kv)) d
  | _ => true
  end.

(** What a [JSONField] stores: the value itself, if [json.dumps] takes it. *)
Definition to_json (v : pyval) : result pyval :=
  if json_serializable v then Ok v else Raise TypeError.

(** A column without [null=True] refuses [None]. *)
Definition not_null {A} (o : option A) : result A :=
  match o with
  | Some a => Ok a
  | None => Raise IntegrityError
  end.

Definition unique_check (taken : bool) : result unit :=
  if taken then Raise IntegrityError else Ok tt.

(** A foreign key must point at a row that exists. *)
Definition references_check (present : bool) : result unit :=
  if present then Ok tt else Raise IntegrityError.

Definition has_block_id (db : DB) (n : Z) : bool :=
  existsb (fun b => Block.block_id b =? n) (blocks db).

Definition has_block_hash (db : DB) (h : string) : bool :=
  existsb (fun b => (Block.block_hash b =? h)%string) (blocks db).

Definition has_call_index (db : DB) (s : string) : bool :=
  existsb (fun c => (Call.call_index c =? s)%string) (calls db).

Definition has_extrinsic_hash (db : DB) (h : string) : bool :=
  existsb (fun e => (Extrinsic.hash e =? h)%string) (extrinsics db).

(** ** Database computations

    Every write is committed when it is made, so the database is threaded
    through exceptions too. *)
Definition M (A : Type) : Type := DB -> DB * result A.

Definition ret {A} (a : A) : M A := fun db => (db, Ok a).

Definition mbind {A B} (m : M A) (k : A -> M B) : M B :=
  fun db =>
    match m db with
    | (db', Ok a) => k a db'
    | (db', Raise e) => (db', Raise e)
    end.

Definition lift {A} (r : result A) : M A := fun db => (db, r).

Notation "x <~ m ;; k" := (mbind m (fun x => k))
  (at level 61, m at next level, right associativity) : py_scope.
Notation "' p <~ m ;; k" := (mbind m (fun p => k))
  (at level 61, p pattern, m at next level, right associativity) : py_scope.

(** The row [Block.objects.create] would insert, or the error it raises:
    the columns are converted in the order of the model, then the integers
    are bound to the statement, then the table checks its constraints. *)
Definition Block_row (db : DB) (block_id : Z)
    (block_hash parentHash stateRoot extrinsicsRoot : pyval)
    (timestamp : option datetime) : result Block.t :=
  bh <- to_char block_hash ;;
  ph <- to_char parentHash ;;
  sr <- to_char stateRoot ;;
  er <- to_char extrinsicsRoot ;;
  block_id <- db_integer block_id ;;
  bh <- not_null bh ;;
  ph <- not_null ph ;;
  sr <- not_null sr ;;
  er <- not_null er ;;
  _ <- unique_check (has_block_id db block_id) ;;
  _ <- unique_check (has_block_hash db bh) ;;
  Ok (Block.mk block_id bh ph sr er timestamp).

Definition Block_objects_create (block_id : Z)
    (block_hash parentHash stateRoot extrinsicsRoot : pyval)
    (timestamp : option datetime) : M Block.t :=
  fun db =>
    match Block_row db block_id block_hash parentHash stateRoot extrinsicsRoot timestamp with
    | Ok row => (mkDB (blocks db ++ [row]) (calls db) (extrinsics db), Ok row)
    | Raise e => (db, Raise e)
    end.

Definition Call_row (db : DB) (call_index call_function call_module : pyval)
  : result Call.t :=
  ci <- to_char call_index ;;
  cf <- to_char call_function ;;
  cm <- to_char call_module ;;
  ci <- not_null ci ;;
  _ <- unique_check (has_call_index db ci) ;;
  Ok (Call.mk ci cf cm).

Definition Call_objects_create (call_index call_function call_module : pyval)
  : M Call.t :=
  fun db =>
    match Call_row db call_index call_function call_module with
    | Ok row => (mkDB (blocks db) (calls db ++ [row]) (extrinsics db), Ok row)
    | Raise e => (db, Raise e)
    end.

(** [list(Call.objects.values_list('call_index', flat=True))]. *)
Definition Call_objects_values_list (db : DB) : list string :=
  map Call.call_index (calls db).

(** [Call.objects.get(call_index=v)]. *)
Definition Call_objects_get (call_index : pyval) : M Call.t :=
  fun db =>
    match to_char call_index with
    | Raise e => (db, Raise e)
    | Ok None => (db, Raise DoesNotExist)
    | Ok (Some s) =>
        match filter (fun c => (Call.call_index c =? s)%string) (calls db) with
        | [] => (db, Raise DoesNotExist)
        | [c] => (db, Ok c)
        | _ => (db, Raise MultipleObjectsReturned)
        end
    end.

(** The row [Extrinsic.objects.create] would insert, or the error it
    raises, in the same three stages.  Both foreign keys store the
    referenced row's [to_field]. *)
Definition Extrinsic_row (db : DB)
    (hash netuid address : pyval) (block : Block.t) (idx : string)
    (signature tip nonce era : pyval) (call_index : option Call.t)
    (call_args : pyval) (outcome : string) (events : pyval)
  : result Extrinsic.t :=
  nu <- to_integer netuid ;;
  h <- to_char hash ;;
  ad <- to_char address ;;
  sg <- to_json signature ;;
  tp <- to_integer tip ;;
  nc <- to_integer nonce ;;
  er <- to_char era ;;
  ca <- to_json call_args ;;
  ev <- to_json events ;;
  nu <- db_integer_opt nu ;;
  tp <- db_integer_opt tp ;;
  nc <- db_integer_opt nc ;;
  h <- not_null h ;;
  ci <- not_null (option_map Call.call_index call_index) ;;
  _ <- unique_check (has_extrinsic_hash db h) ;;
  _ <- references_check (has_block_id db (Block.block_id block)) ;;
  _ <- references_check (has_call_index db ci) ;;
  Ok (Extrinsic.mk nu h ad (Block.block_id block) (Some idx) sg tp nc er ci ca
        (Some outcome) ev).

Definition Extrinsic_objects_create
    (hash netuid address : pyval) (block : Block.t) (idx : string)
    (signature tip nonce era : pyval) (call_index : option Call.t)
    (call_args : pyval) (outcome : string) (events : pyval) : M Extrinsic.t :=
  fun db =>
    match Extrinsic_row db hash netuid address block idx signature tip nonce era
            call_index call_args outcome events with
    | Ok row => (mkDB (blocks db) (calls db) (extrinsics db ++ [row]), Ok row)
    | Raise e => (db, Raise e)
    end.

(* ================================================================= *)
(** ** The script *)

Definition create_block_record (block_number : Z) (block block_hash : pyval)
    (block_timestamp : option datetime) : M Block.t :=
  header <~ lift (py_item block "header") ;;
  parentHash <~ lift (py_item header "parentHash") ;;
  header <~ lift (py_item block "header") ;;
  stateRoot <~ lift (py_item header "stateRoot") ;;
  header <~ lift (py_item block "header") ;;
  extrinsicsRoot <~ lift (py_item header "extrinsicsRoot") ;;
  Block_objects_create block_number block_hash parentHash stateRoot extrinsicsRoot
    block_timestamp.

Definition values_list : M (list string) :=
  fun db => (db, Ok (Call_objects_values_list db)).

(** Lines 102-112: the Call row an extrinsic refers to, created on first
    sight of its identifier. *)
Definition call_index_instance_for (extrinsic_type : pyval * pyval * pyval)
  : M (option Call.t) :=
  let '(call_index, call_function, call_module) := extrinsic_type in
  if truthy call_index then
    call_type <~ values_list ;;
    _ <~ (if negb (existsb (fun s => py_eq_str call_index s) call_type)
          then _ <~ Call_objects_create call_index call_function call_module ;; ret tt
          else ret tt) ;;
    c <~ Call_objects_get call_index ;;
    ret (Some c)
  else ret None.

(** The body of the loop of [process_extrinsics] below its guard. *)
Definition process_extrinsic (idx : nat) (extrinsic_value : pyval)
    (events : list pyval) (block_instance : Block.t) (block_number : Z) : M unit :=
  '(extrinsic_events, extrinsic_success) <~
     lift (extract_extrinsic_events events (Z.of_nat idx)) ;;
  let extrinsic_result := if (extrinsic_success : bool) then "success" else "failed" in
  '(extrinsic_type, extrinsic_netuid) <~ lift (extract_extrinsic_details extrinsic_value) ;;
  call_index_instance <~ call_index_instance_for extrinsic_type ;;
  hash <~ lift (py_get extrinsic_value "extrinsic_hash" VNone) ;;
  address <~ lift (py_get extrinsic_value "address" VNone) ;;
  signature <~ lift (py_get extrinsic_value "signature" VNone) ;;
  tip <~ lift (py_get extrinsic_value "tip" VNone) ;;
  nonce <~ lift (py_get extrinsic_value "nonce" VNone) ;;
  era <~ lift (py_get extrinsic_value "era" VNone) ;;
  call <~ lift (py_get extrinsic_value "call" (VDict [])) ;;
  call_args <~ lift (py_get call "call_args" VNone) ;;
  _ <~ Extrinsic_objects_create hash extrinsic_netuid address block_instance
         (position_id block_number idx) signature tip nonce era call_index_instance
         call_args extrinsic_result (VList extrinsic_events) ;;
  ret tt.

(** [for idx, extrinsic in enumerate(extrinsics)], entered at position [idx]. *)
Fixpoint process_extrinsics_from (idx : nat) (extrinsics events : list pyval)
    (block_instance : Block.t) (block_number : Z) : M unit :=
  match extrinsics with
  | [] => ret tt
  | extrinsic :: rest =>
      let extrinsic_value := getattr_value extrinsic in
      if negb (truthy extrinsic_value) then
        process_extrinsics_from (S idx) rest events block_instance block_number
      else
        _ <~ process_extrinsic idx extrinsic_value events block_instance block_number ;;
        process_extrinsics_from (S idx) rest events block_instance block_number
  end.

Definition process_extrinsics (extrinsics events : list pyval)
    (block_instance : Block.t) (block_number : Z) : M unit :=
  process_extrinsics_from 0 extrinsics events block_instance block_number.

(** [main] from the point where the chain client has answered: [block],
    [events] and [block_hash] are what [get_block_data] returned. *)
Definition ingest (block_number : Z) (block : pyval) (events : list pyval)
    (block_hash : pyval) : M unit :=
  extrinsics <~ lift (py_item block "extrinsics") ;;
  extrinsics <~ lift (py_iter extrinsics) ;;
  block_timestamp <~ lift (extract_block_timestamp extrinsics) ;;
  block_instance <~ create_block_record block_number block block_hash block_timestamp ;;
  process_extrinsics extrinsics events block_instance block_number.

Definition main (block : pyval) (events : list pyval) (block_hash : pyval) : M unit :=
  ingest 3593992 block events block_hash.

(* ================================================================= *)
(** ** Reference notions the properties are stated against *)

(** The entry of a dictionary under a key, [VNone] when the key is missing
    or the value is no dictionary: what [v.get(k)] yields on a dictionary. *)
Definition dict_field (v : pyval) (k : string) : pyval :=
  match v with
  | VDict d => match dict_lookup k d with Some x => x | None => VNone end
  | _ => VNone
  end.

(** The extrinsic-position field embedded in an event value. *)
Definition event_position (event_value : pyval) : pyval :=
  dict_field event_value "extrinsic_idx".

(** The identifier of an event value. *)
Definition event_identifier (event_value : pyval) : pyval :=
  dict_field event_value "event_id".

(** The events of a block that belong to position [idx], in arrival order. *)
Definition correlated (events : list pyval) (idx : Z) : list pyval :=
  filter (fun v => truthy v && py_eq_int (event_position v) idx)
         (map getattr_value events).

Definition contains_success (event_values : list pyval) : bool :=
  existsb (fun v => py_eq_str (event_identifier v) "ExtrinsicSuccess") event_values.

(** An event as the chain client exposes it: no decoded value, or a
    dictionary with an identifier. *)
Definition event_shaped (event : pyval) : bool :=
  match getattr_value event with
  | VDict d => match d with
               | [] => true
               | _ => match dict_lookup "event_id" d with Some _ => true | None => false end
               end
  | v => negb (truthy v)
  end.

(** A named argument [{name, value}]. *)
Definition argument_shaped (arg : pyval) : bool :=
  match arg with
  | VDict d =>
      match dict_lookup "name" d, dict_lookup "value" d with
      | Some _, Some _ => true
      | _, _ => false
      end
  | _ => false
  end.

Definition argument_name (arg : pyval) : pyval := dict_field arg "name".

Definition argument_value (arg : pyval) : pyval := dict_field arg "value".

(** The value of the first argument named "netuid", [VNone] without one. *)
Definition netuid_of (call_args : list pyval) : pyval :=
  match find (fun a => py_eq_str (argument_name a) "netuid") call_args with
  | Some a => argument_value a
  | None => VNone
  end.

(** The call object of an extrinsic value, the empty dictionary when it
    has none: what [extrinsic_value.get('call', {})] yields on a dictionary. *)
Definition call_object (extrinsic_value : pyval) : pyval :=
  match extrinsic_value with
  | VDict d => match dict_lookup "call" d with Some c => c | None => VDict [] end
  | _ => VDict []
  end.

(** The named arguments of an extrinsic value's call; none when the call
    or its argument list is missing. *)
Definition call_arguments (extrinsic_value : pyval) : list pyval :=
  match dict_field (call_object extrinsic_value) "call_args" with
  | VList args => args
  | _ => []
  end.

(** An extrinsic value whose call, if any, is a dictionary whose argument
    list, if any, is a list of named arguments. *)
Definition call_shaped (extrinsic_value : pyval) : bool :=
  match extrinsic_value with
  | VDict d =>
      match dict_lookup "call" d with
      | None => true
      | Some (VDict c) =>
          match dict_lookup "call_args" c with
          | None => true
          | Some (VList args) => forallb argument_shaped args
          | Some _ => false
          end
      | Some _ => false
      end
  | _ => false
  end.

(** The call of an extrinsic as the timestamp scan reads it. *)
Definition call_of (extrinsic : pyval) : option (list (string * pyval)) :=
  match getattr_value extrinsic with
  | VDict d => match dict_lookup "call" d with
               | Some (VDict c) => Some c
               | _ => None
               end
  | _ => None
  end.

(** Module "Timestamp", function "set". *)
Definition is_timestamp_set (extrinsic : pyval) : bool :=
  match call_of extrinsic with
  | Some c =>
      match dict_lookup "call_function" c, dict_lookup "call_module" c with
      | Some f, Some m => py_eq_str f "set" && py_eq_str m "Timestamp"
      | _, _ => false
      end
  | None => false
  end.

(** The value of the first positional argument of an extrinsic's call. *)
Definition first_argument (extrinsic : pyval) : option pyval :=
  match call_of extrinsic with
  | Some c =>
      match dict_lookup "call_args" c with
      | Some (VList (VDict a :: _)) => dict_lookup "value" a
      | _ => None
      end
  | None => None
  end.

(** An extrinsic as the chain client exposes it to the timestamp scan: no
    decoded value, or a dictionary whose call, if any, names its function
    and module. *)
Definition extrinsic_shaped (extrinsic : pyval) : bool :=
  match getattr_value extrinsic with
  | VDict d =>
      match dict_lookup "call" d with
      | None => true
      | Some (VDict c) =>
          match dict_lookup "call_function" c, dict_lookup "call_module" c with
          | Some _, Some _ => true
          | _, _ => false
          end
      | Some _ => false
      end
  | v => negb (truthy v)
  end.

(** The call descriptor of an extrinsic value: identifier, function and
    module of its call, each [VNone] when missing. *)
Definition call_descriptor (extrinsic_value : pyval) : pyval * pyval * pyval :=
  let call := call_object extrinsic_value in
  (dict_field call "call_index", dict_field call "call_function",
   dict_field call "call_module").

(** The call identifier an extrinsic object carries. *)
Definition call_identifier (extrinsic : pyval) : pyval :=
  dict_field (call_object (getattr_value extrinsic)) "call_index".

(** The positions of a sequence, counted from [k], whose extrinsic has a
    decoded value: those that pass the guard of the loop. *)
Fixpoint persisted_positions_from (k : nat) (extrinsics : list pyval) : list nat :=
  match extrinsics with
  | [] => []
  | extrinsic :: rest =>
      if truthy (getattr_value extrinsic)
      then k :: persisted_positions_from (S k) rest
      else persisted_positions_from (S k) rest
  end.

Definition persisted_positions (extrinsics : list pyval) : list nat :=
  persisted_positions_from 0 extrinsics.

(** The number of Call rows with a given identifier. *)
Definition count_call (s : string) (db : DB) : nat :=
  List.length (filter (fun c => (Call.call_index c =? s)%string) (calls db)).

(** The Extrinsic row the loop writes for position [i] of a block: its
    position identifier, its block, its event list and its result. *)
Definition row_of_position (events : list pyval) (block_instance : Block.t)
    (block_number : Z) (i : nat) (r : Extrinsic.t) : Prop :=
  Extrinsic.idx r = Some (position_id block_number i)
  /\ Extrinsic.block r = Block.block_id block_instance
  /\ Extrinsic.events r = VList (correlated events (Z.of_nat i))
  /\ Extrinsic.result r
     = Some (if contains_success (correlated events (Z.of_nat i))
             then "success" else "failed").

(* ================================================================= *)
(** ** Bookkeeping for the proofs *)

(** The row [process_extrinsic] asks the Extrinsic table to insert, once
    the events and the call of the extrinsic are decoded. *)
Definition row_for (db : DB) (extrinsic_value tag : pyval) (block_instance : Block.t)
    (block_number : Z) (idx : nat) (call_index_instance : option Call.t)
    (success : bool) (event_values : list pyval) : result Extrinsic.t :=
  Extrinsic_row db (dict_field extrinsic_value "extrinsic_hash") tag
    (dict_field extrinsic_value "address") block_instance
    (position_id block_number idx)
    (dict_field extrinsic_value "signature") (dict_field extrinsic_value "tip")
    (dict_field extrinsic_value "nonce") (dict_field extrinsic_value "era")
    call_index_instance
    (dict_field (call_object extrinsic_value) "call_args")
    (if success then "success" else "failed") (VList event_values).

Definition add_extrinsic (db : DB) (r : Extrinsic.t) : DB :=
  mkDB (blocks db) (calls db) (extrinsics db ++ [r]).

Definition add_call (db : DB) (c : Call.t) : DB :=
  mkDB (blocks db) (calls db ++ [c]) (extrinsics db).


(** A database that came out of another by the pipeline: rows are only
    appended, and an identifier that has exactly one Call row keeps it. *)
Definition grows (db db' : DB) : Prop :=
  (exists nb, blocks db' = (blocks db ++ nb)%list)
  /\ (exists ne, extrinsics db' = (extrinsics db ++ ne)%list)
  /\ (forall s, count_call s db = 1%nat -> count_call s db' = 1%nat).

(** The number a string of decimal digits denotes. *)
Definition digits_value (s : string) : option nat :=
  option_map Nat.of_uint (DecimalString.NilEmpty.uint_of_string s).

(* ================================================================= *)
(** ** Histories of ingestions *)

(** What one invocation of the script works on: the block number and what
    the chain client returned for it. *)
Record ingestion : Type := mkIngestion {
  number : Z;
  fetched_block : pyval;
  fetched_events : list pyval;
  fetched_hash : pyval
}.

Definition run (a : ingestion) : M unit :=
  ingest (number a) (fetched_block a) (fetched_events a) (fetched_hash a).

(** One invocation after the other, each on the database the previous one
    left, whether it returned or raised. *)
Definition run_all (l : list ingestion) (db : DB) : DB :=
  fold_left (fun d a => fst (run a d)) l db.

(** The extrinsic at position [i] of a fetched block. *)
Definition extrinsic_at (block : pyval) (i : nat) : option pyval :=
  match py_item block "extrinsics" with
  | Ok xv => match py_iter xv with
             | Ok exts => nth_error exts i
             | Raise _ => None
             end
  | Raise _ => None
  end.

(** The Extrinsic row of position [i] of block [n] is in the database and
    references the Call row with identifier [s]. *)
Definition references (db : DB) (n : Z) (i : nat) (s : string) : Prop :=
  exists r, In r (extrinsics db)
            /\ Extrinsic.block r = n
            /\ Extrinsic.idx r = Some (position_id n i)
            /\ Extrinsic.call_index r = s.

(* ================================================================= *)
(** ** Sample chain data *)

Definition sample_event (position : Z) (identifier : string) : pyval :=
  VObj (Some (VDict [("extrinsic_idx", VInt position); ("event_id", VStr identifier)])).

Definition sample_events : list pyval :=
  [sample_event 1 "Transfer"; sample_event 0 "Deposit"; VObj None;
   sample_event 1 "ExtrinsicSuccess"; sample_event 2 "ExtrinsicFailed"].

Definition sample_call (identifier : pyval) (args : list pyval) : pyval :=
  VDict [("call_index", identifier); ("call_function", VStr "add_stake");
         ("call_module", VStr "SubtensorModule"); ("call_args", VList args)].

Definition sample_args : list pyval :=
  [VDict [("name", VStr "amount"); ("value", VInt 5)];
   VDict [("name", VStr "netuid"); ("value", VInt 12)]].

Definition sample_extrinsic (hash : string) (identifier : pyval) : pyval :=
  VObj (Some (VDict [("extrinsic_hash", VStr hash); ("address", VStr "5FHneW46");
                     ("nonce", VInt 4); ("tip", VInt 0);
                     ("call", sample_call identifier sample_args)])).

Definition sample_timestamp_set (hash : string) (millis : Z) : pyval :=
  VObj (Some (VDict [("extrinsic_hash", VStr hash);
                     ("call",
                      VDict [("call_index", VStr "0x0200");
                             ("call_function", VStr "set");
                             ("call_module", VStr "Timestamp");
                             ("call_args",
                              VList [VDict [("name", VStr "now");
                                            ("value", VInt millis)]])])])).

Definition sample_block (extrinsics : list pyval) : pyval :=
  VDict [("header",
          VDict [("parentHash", VStr "0x51"); ("stateRoot", VStr "0x7a");
                 ("extrinsicsRoot", VStr "0x3c")]);
         ("extrinsics", VList extrinsics)].

Definition sample_block_row : Block.t := Block.mk 7 "0xb7" "0x51" "0x7a" "0x3c" None.

(** The database after block 7 has got its Block row. *)
Definition sample_db : DB := mkDB [sample_block_row] [] [].

Definition sample_extrinsics : list pyval :=
  [sample_extrinsic "0xa0" (VStr "0x0702");
   sample_extrinsic "0xa1" (VStr "0x0702");
   sample_extrinsic "0xa2" (VStr "0x0600")].

Definition sample_ingestion (n : Z) (hash : string) (extrinsics : list pyval)
  : ingestion :=
  mkIngestion n (sample_block extrinsics) sample_events (VStr hash).

Definition sample_ingested : DB :=
  fst (run (sample_ingestion 7 "0xb7" sample_extrinsics) empty_db).

(** An extrinsic whose call carries no identifier. *)
Definition sample_no_identifier : pyval :=
  VObj (Some (VDict [("extrinsic_hash", VStr "0xd0"); ("address", VStr "5FHneW46");
                     ("call",
                      VDict [("call_function", VStr "remark");
                             ("call_module", VStr "System");
                             ("call_args", VList [])])])).




From Stdlib Require DecimalZ.

(* ================================================================= *)
(** ** The rest of the script and of the models *)

(** The chain client as the script uses it: three read-only calls, any of
    which can fail.  The client itself is outside the repository. *)
Record SubstrateInterface : Type := mkSubstrate {
  get_block_hash : Z -> result pyval;
  get_block : pyval -> result pyval;
  get_events : pyval -> result (list pyval)
}.

Definition get_block_data (substrate : SubstrateInterface) (block_number : Z)
  : result (pyval * list pyval * pyval) :=
  block_hash <- get_block_hash substrate block_number ;;
  block <- get_block substrate block_hash ;;
  events <- get_events substrate block_hash ;;
  Ok (block, events, block_hash).

(** [main], the chain client being a parameter. *)
Definition main_with (substrate : SubstrateInterface) : M unit :=
  let block_number := 3593992 in
  '(block, events, block_hash) <~ lift (get_block_data substrate block_number) ;;
  extrinsics <~ lift (py_item block "extrinsics") ;;
  extrinsics <~ lift (py_iter extrinsics) ;;
  block_timestamp <~ lift (extract_block_timestamp extrinsics) ;;
  block_instance <~ create_block_record block_number block block_hash block_timestamp ;;
  process_extrinsics extrinsics events block_instance block_number.

(** Attribute access on a model instance, for the names the models
    declare.  What [django.db.models.Model] adds ([pk], [save], ...) is not
    listed; no other name is an attribute. *)
Definition option_str (o : option string) : pyval :=
  match o with Some s => VStr s | None => VNone end.

Definition option_int (o : option Z) : pyval :=
  match o with Some z => VInt z | None => VNone end.

Definition Block_getattr (self : Block.t) (name : string) : result pyval :=
  if (name =? "block_id")%string then Ok (VInt (Block.block_id self))
  else if (name =? "block_hash")%string then Ok (VStr (Block.block_hash self))
  else if (name =? "parentHash")%string then Ok (VStr (Block.parentHash self))
  else if (name =? "stateRoot")%string then Ok (VStr (Block.stateRoot self))
  else if (name =? "extrinsicsRoot")%string then Ok (VStr (Block.extrinsicsRoot self))
  else if (name =? "timestamp")%string
       then match Block.timestamp self with
            | Some _ => Raise OutOfModel
            | None => Ok VNone
            end
  else Raise AttributeError.

(** [str(v)] inside an f-string, for the values attribute access yields. *)
Definition py_format (v : pyval) : result string :=
  match v with
  | VNone => Ok "None"
  | VStr s => Ok s
  | VInt z => Ok (str_of_Z z)
  | VBool b => Ok (if b then "True" else "False")
  | _ => Raise OutOfModel
  end.

(** [Block.__str__]: [f"Block {self.block_number} - {self.block_hash}"]. *)
Definition Block_str (self : Block.t) : result string :=
  block_number <- Block_getattr self "block_number" ;;
  block_number <- py_format block_number ;;
  block_hash <- Block_getattr self "block_hash" ;;
  block_hash <- py_format block_hash ;;
  Ok ("Block " ++ block_number ++ " - " ++ block_hash).

(** The scalar attributes of an Extrinsic instance; a foreign key [f] also
    gives the attribute [f_id], the stored key. *)
Definition Extrinsic_getattr (self : Extrinsic.t) (name : string) : result pyval :=
  if (name =? "netuid")%string then Ok (option_int (Extrinsic.netuid self))
  else if (name =? "hash")%string then Ok (VStr (Extrinsic.hash self))
  else if (name =? "address")%string then Ok (option_str (Extrinsic.address self))
  else if (name =? "block_id")%string then Ok (VInt (Extrinsic.block self))
  else if (name =? "idx")%string then Ok (option_str (Extrinsic.idx self))
  else if (name =? "signature")%string then Ok (Extrinsic.signature self)
  else if (name =? "tip")%string then Ok (option_int (Extrinsic.tip self))
  else if (name =? "nonce")%string then Ok (option_int (Extrinsic.nonce self))
  else if (name =? "era")%string then Ok (option_str (Extrinsic.era self))
  else if (name =? "call_index_id")%string then Ok (VStr (Extrinsic.call_index self))
  else if (name =? "call_args")%string then Ok (Extrinsic.call_args self)
  else if (name =? "result")%string then Ok (option_str (Extrinsic.result self))
  else if (name =? "events")%string then Ok (Extrinsic.events self)
  else if (name =? "block")%string then Raise OutOfModel
  else if (name =? "call_index")%string then Raise OutOfModel
  else Raise AttributeError.

(** [Extrinsic.__str__]: [f'Extrinsic {self.hash} at block {self.block_number}']. *)
Definition Extrinsic_str (self : Extrinsic.t) : result string :=
  hash <- Extrinsic_getattr self "hash" ;;
  hash <- py_format hash ;;
  block_number <- Extrinsic_getattr self "block_number" ;;
  block_number <- py_format block_number ;;
  Ok ("Extrinsic " ++ hash ++ " at block " ++ block_number).

(* ================================================================= *)
(** ** Further reference notions *)

(** An event the correlation for position [idx] gets past: no decoded
    value, or a dictionary that has its identifier if it is of that
    position. *)
Definition event_decodable (idx : Z) (event : pyval) : bool :=
  let v := getattr_value event in
  if truthy v then
    match v with
    | VDict d =>
        if py_eq_int (event_position v) idx
        then match dict_lookup "event_id" d with Some _ => true | None => false end
        else true
    | _ => false
    end
  else true.

(** A named argument whose name is not "netuid". *)
Definition other_argument (arg : pyval) : bool :=
  match arg with
  | VDict d => match dict_lookup "name" d with
               | Some name => negb (py_eq_str name "netuid")
               | None => false
               end
  | _ => false
  end.

(** The constraints of the three tables: the unique columns hold no value
    twice, and every Extrinsic row references a Block row and a Call row
    that exist. *)
Definition wf_db (db : DB) : Prop :=
  NoDup (map Block.block_id (blocks db))
  /\ NoDup (map Block.block_hash (blocks db))
  /\ NoDup (map Call.call_index (calls db))
  /\ NoDup (map Extrinsic.hash (extrinsics db))
  /\ (forall r, In r (extrinsics db) ->
                has_block_id db (Extrinsic.block r) = true
                /\ has_call_index db (Extrinsic.call_index r) = true).

(** The number of Block rows with a given number. *)
Definition count_block (n : Z) (db : DB) : nat :=
  List.length (filter (fun b => Block.block_id b =? n) (blocks db)).

Definition add_block (db : DB) (b : Block.t) : DB :=
  mkDB (blocks db ++ [b])%list (calls db) (extrinsics db).

(** The integer a string in decimal notation denotes. *)
Definition decimal_value (s : string) : option Z :=
  option_map Z.of_int (DecimalString.NilZero.int_of_string s).

(** No character of the string is a hyphen. *)
Fixpoint hyphen_free (s : string) : bool :=
  match s with
  | EmptyString => true
  | String c s' => negb (Ascii.eqb c "-") && hyphen_free s'
  end.

(** ** Further sample data *)

Definition sample_client : SubstrateInterface :=
  mkSubstrate (fun _ => Ok (VStr "0xb7"))
              (fun _ => Ok (sample_block sample_extrinsics))
              (fun _ => Ok sample_events).

Definition failing_client : SubstrateInterface :=
  mkSubstrate (fun _ => Ok (VStr "0xb7"))
              (fun _ => Ok (sample_block sample_extrinsics))
              (fun _ => Raise ValueError).

(** An extrinsic without hash whose call has an identifier of its own. *)
Definition sample_unsigned : pyval :=
  VObj (Some (VDict [("extrinsic_hash", VNone);
                     ("call", sample_call (VStr "0x0900") [])])).

(** The extrinsics of a fetched block, as the loops of the script draw
    them. *)
Definition extrinsic_list (block : pyval) : result (list pyval) :=
  xv <- py_item block "extrinsics" ;; py_iter xv.

(** Block 8, ingested after block 7. *)
Definition sample_later : list ingestion :=
  [sample_ingestion 8 "0xb8" [sample_extrinsic "0xe0" (VStr "0x0702")]].


(** A signed extrinsic with a mortal era, its tip given as a numeral. *)
Definition sample_mortal : pyval :=
  VDict [("extrinsic_hash", VStr "0xd5"); ("address", VStr "5FHneW46");
         ("signature", VDict [("Sr25519", VStr "0x9e")]);
         ("nonce", VInt 4); ("tip", VStr "0"); ("era", VList [VInt 64; VInt 5]);
         ("call", sample_call (VStr "0x0702") sample_args)].


(* ================================================================= *)
(** * Properties *)

Local Open Scope list_scope.

(** ** Values *)

Lemma py_eq_str_true v s : py_eq_str v s = true <-> v = VStr s.
Proof.
  destruct v; simpl; split; intro H; try discriminate.
  - apply String.eqb_eq in H. now subst.
  - injection H as ->. apply String.eqb_refl.
Qed.

(** ** Event correlation *)

Section Correlation.

Variable idx : Z.

(** Whatever the loop returns is its accumulators extended by the
    correlated events. *)
Lemma extract_events_loop_sound events :
  forall acc succ evs ok,
    extract_events_loop events idx acc succ = Ok (evs, ok) ->
    evs = acc ++ correlated events idx
    /\ ok = succ || contains_success (correlated events idx).
Proof.
  induction events as [|event rest IH]; intros acc succ evs ok H; simpl in H.
  - injection H as <- <-. unfold correlated; simpl.
    now rewrite List.app_nil_r, orb_false_r.
  - unfold correlated in *. simpl map. simpl filter.
    destruct (truthy (getattr_value event)) eqn:T; cbv beta iota;
      [|now apply IH in H].
    destruct (getattr_value event) as [| | | | |d|] eqn:V; try discriminate H.
    change (py_get (VDict d) "extrinsic_idx" VNone)
      with (Ok (event_position (VDict d))) in H.
    unfold rbind at 1 in H. rewrite andb_true_l.
    destruct (py_eq_int (event_position (VDict d)) idx) eqn:P;
      [|now apply IH in H].
    unfold py_item in H.
    destruct (dict_lookup "event_id" d) as [eid|] eqn:L; [|discriminate H].
    assert (E : event_identifier (VDict d) = eid)
      by (unfold event_identifier, dict_field; now rewrite L).
    unfold rbind in H. apply IH in H. destruct H as [-> ->].
    rewrite <- List.app_assoc. split; [reflexivity|].
    unfold contains_success. cbn [existsb]. rewrite E.
    destruct (py_eq_str eid "ExtrinsicSuccess"); simpl;
      [now rewrite orb_true_r | reflexivity].
Qed.

(** On events of the expected shape the loop does return. *)
Lemma extract_events_loop_total events :
  forallb event_shaped events = true ->
  forall acc succ,
    extract_events_loop events idx acc succ
    = Ok (acc ++ correlated events idx,
          succ || contains_success (correlated events idx)).
Proof.
  induction events as [|event rest IH]; intros S acc succ.
  - unfold correlated; simpl. now rewrite app_nil_r, orb_false_r.
  - simpl in S. apply andb_true_iff in S. destruct S as [S1 S2].
    specialize (IH S2).
    assert (R : exists evs ok,
               extract_events_loop (event :: rest) idx acc succ = Ok (evs, ok)).
    { simpl. unfold event_shaped in S1.
      destruct (truthy (getattr_value event)) eqn:T; [|rewrite IH; eauto].
      destruct (getattr_value event) as [| | | | |d|] eqn:V;
        cbv beta iota in S1; try (rewrite T in S1; discriminate).
      destruct d as [|kv d']; [discriminate|].
      simpl py_get. cbv beta iota. unfold rbind at 1.
      destruct (py_eq_int _ idx); [|rewrite IH; eauto].
      unfold py_item.
      destruct (dict_lookup "event_id" (kv :: d')) eqn:E; [|discriminate].
      unfold rbind. rewrite IH. eauto. }
    destruct R as (evs & ok & R). rewrite R.
    apply extract_events_loop_sound in R. destruct R as [-> ->]. reflexivity.
Qed.

End Correlation.

(** C6.  Event correlation returns exactly the events whose embedded
    extrinsic-position field equals the given position, in the order in
    which they appear in the block's event list: on events of the shape the
    chain client exposes it returns [correlated events idx], the
    order-preserving selection of those events, and whenever it returns at
    all its list is that selection. *)
Theorem extract_extrinsic_events_correlated (events : list pyval) (idx : Z) :
  (forallb event_shaped events = true ->
   extract_extrinsic_events events idx
   = Ok (correlated events idx, contains_success (correlated events idx)))
  /\ (forall evs ok,
        extract_extrinsic_events events idx = Ok (evs, ok) ->
        evs = correlated events idx).
Proof.
  unfold extract_extrinsic_events. split.
  - intro S. now rewrite (extract_events_loop_total idx events S [] false).
  - intros evs ok H. now apply extract_events_loop_sound in H.
Qed.

Lemma extract_extrinsic_events_correlated_witness :
  forallb event_shaped sample_events = true
  /\ extract_extrinsic_events sample_events 1
     = Ok ([VDict [("extrinsic_idx", VInt 1); ("event_id", VStr "Transfer")];
            VDict [("extrinsic_idx", VInt 1); ("event_id", VStr "ExtrinsicSuccess")]],
           true).
Proof.
  split; [reflexivity|].
  exact (proj1 (extract_extrinsic_events_correlated sample_events 1) eq_refl).
Defined.

(** Membership in the selection, spelled out. *)
Lemma correlated_In events idx v :
  In v (correlated events idx) <->
  In v (map getattr_value events) /\ truthy v = true
  /\ py_eq_int (event_position v) idx = true.
Proof.
  unfold correlated. rewrite filter_In, andb_true_iff. tauto.
Qed.

(** ** Call details *)

Lemma next_netuid_shaped args :
  forallb argument_shaped args = true ->
  next_netuid args = Ok (netuid_of args).
Proof.
  unfold netuid_of. induction args as [|arg rest IH]; intro S; [reflexivity|].
  simpl in S. apply andb_true_iff in S. destruct S as [S1 S2].
  destruct arg as [| | | | |d|]; try discriminate.
  unfold argument_shaped in S1.
  destruct (dict_lookup "name" d) as [name|] eqn:N; [|discriminate].
  destruct (dict_lookup "value" d) as [value|] eqn:V; [|discriminate].
  assert (An : argument_name (VDict d) = name)
    by (unfold argument_name, dict_field; now rewrite N).
  assert (Av : argument_value (VDict d) = value)
    by (unfold argument_value, dict_field; now rewrite V).
  cbn [next_netuid find]. unfold py_item. rewrite N, An.
  unfold rbind at 1.
  destruct (py_eq_str name "netuid"); [|auto].
  rewrite V. cbv beta iota. now rewrite Av.
Qed.

Lemma extract_extrinsic_details_shaped v :
  call_shaped v = true ->
  extract_extrinsic_details v
  = Ok (call_descriptor v, netuid_of (call_arguments v)).
Proof.
  intro S. destruct v as [| | | | |d|]; try discriminate.
  unfold extract_extrinsic_details, call_descriptor, call_arguments,
    call_object, dict_field.
  unfold call_shaped in S. cbn [py_get].
  destruct (dict_lookup "call" d) as [call|]; cbn [rbind].
  - destruct call as [| | | | |c|]; try discriminate. cbn [py_get].
    destruct (dict_lookup "call_args" c) as [args|]; cbn [rbind].
    + destruct args as [| | | |args| |]; try discriminate. cbn [py_iter rbind].
      now rewrite (next_netuid_shaped args S).
    + reflexivity.
  - reflexivity.
Qed.

(** C7.  Tag extraction returns the value of the argument named "netuid"
    when the call has one (the first, should there be several) and absent
    ([VNone]) when no argument bears that name; the arguments
    [{name:"amount",value:5},{name:"netuid",value:12}] yield 12. *)
Theorem extract_netuid (extrinsic_value : pyval) :
  (call_shaped extrinsic_value = true ->
   exists extrinsic_type tag,
     extract_extrinsic_details extrinsic_value = Ok (extrinsic_type, tag)
     /\ (forall a,
           find (fun a => py_eq_str (argument_name a) "netuid")
                (call_arguments extrinsic_value) = Some a ->
           tag = argument_value a)
     /\ ((forall a, In a (call_arguments extrinsic_value) ->
                    argument_name a <> VStr "netuid") ->
         tag = VNone))
  /\ (forall extrinsic_type tag,
        extract_extrinsic_details
          (VDict [("call",
                   VDict [("call_args",
                           VList [VDict [("name", VStr "amount"); ("value", VInt 5)];
                                  VDict [("name", VStr "netuid"); ("value", VInt 12)]])])])
        = Ok (extrinsic_type, tag) ->
        tag = VInt 12).
Proof.
  split.
  - intro S. rewrite (extract_extrinsic_details_shaped _ S).
    eexists _, _. split; [reflexivity|]. unfold netuid_of. split.
    + intros a ->. reflexivity.
    + intro N.
      destruct (find _ (call_arguments extrinsic_value)) as [a|] eqn:F;
        [|reflexivity].
      apply find_some in F. destruct F as [I E].
      apply py_eq_str_true in E. now apply N in I.
  - intros ty tag H. vm_compute in H. now injection H as _ <-.
Qed.

Lemma extract_netuid_witness :
  call_shaped (getattr_value (sample_extrinsic "0xab" (VStr "0x0702"))) = true
  /\ exists extrinsic_type,
       extract_extrinsic_details (getattr_value (sample_extrinsic "0xab" (VStr "0x0702")))
       = Ok (extrinsic_type, VInt 12).
Proof.
  split; [reflexivity|].
  destruct (proj1 (extract_netuid
                     (getattr_value (sample_extrinsic "0xab" (VStr "0x0702"))))
                  eq_refl) as (ty & tag & E & P & _).
  exists ty. rewrite E. f_equal. f_equal. exact (P _ eq_refl).
Defined.

(** ** Binary64 arithmetic of the timestamp conversion *)

Lemma rhe_div_bound p q : 0 < q -> 2 * Z.abs (rhe_div p q * q - p) <= q.
Proof.
  intros Hq. unfold rhe_div.
  pose proof (Z.div_mod p q ltac:(lia)) as E.
  pose proof (Z.mod_pos_bound p q Hq) as B.
  set (d := p / q) in *. set (r := p mod q) in *.
  assert (E' : p = d * q + r) by lia.
  destruct (2 * r <? q) eqn:L1; [apply Z.ltb_lt in L1|apply Z.ltb_ge in L1].
  - replace (d * q - p) with (- r) by lia. lia.
  - assert (F : (d + 1) * q - p = q - r) by lia.
    destruct (q <? 2 * r) eqn:L2; [apply Z.ltb_lt in L2|apply Z.ltb_ge in L2].
    + rewrite F. lia.
    + destruct (Z.even d).
      * replace (d * q - p) with (- r) by lia. lia.
      * rewrite F. lia.
Qed.

Lemma rhe_div_unique p q n :
  0 < q -> 2 * Z.abs (n * q - p) < q -> rhe_div p q = n.
Proof.
  intros Hq Hn. pose proof (rhe_div_bound p q Hq) as Hm.
  set (m := rhe_div p q) in *.
  assert (D : (m - n) * q = (m * q - p) - (n * q - p)) by ring.
  assert (A : 2 * Z.abs ((m - n) * q) < 2 * q) by lia.
  destruct (Z.eq_dec m n) as [|Ne]; [assumption|exfalso].
  assert (C : 1 <= Z.abs (m - n)) by lia.
  rewrite Z.abs_mul in A. rewrite (Z.abs_eq q) in A by lia.
  assert (q <= Z.abs (m - n) * q) by nia. lia.
Qed.

Lemma floor_log2_ratio_below a b p :
  0 < a -> 0 < b -> 0 <= p -> a < b * 2 ^ p -> floor_log2_ratio a b <= p - 1.
Proof.
  intros Ha Hb Hp Hlt. unfold floor_log2_ratio.
  set (k := Z.log2 a - Z.log2 b).
  assert (K : k <= p).
  { destruct (Z.log2_spec a Ha) as [La _]. destruct (Z.log2_spec b Hb) as [_ Lb].
    pose proof (Z.log2_nonneg a) as Na. pose proof (Z.log2_nonneg b) as Nb.
    assert (P : 2 ^ Z.log2 a < 2 ^ (Z.succ (Z.log2 b) + p)).
    { rewrite Z.pow_add_r by lia.
      assert (0 < 2 ^ p) by (apply Z.pow_pos_nonneg; lia). nia. }
    apply Z.pow_lt_mono_r_iff in P; lia. }
  destruct (0 <=? k) eqn:Hk.
  - apply Z.leb_le in Hk.
    destruct (b * 2 ^ k <=? a) eqn:C; [|lia].
    apply Z.leb_le in C.
    assert (P : 2 ^ k < 2 ^ p) by nia.
    apply Z.pow_lt_mono_r_iff in P; lia.
  - apply Z.leb_gt in Hk. destruct (b <=? a * 2 ^ (- k)); lia.
Qed.

(** Where the quotient is below [2^p] for a [p <= 52], rounding keeps
    [52 - p] bits or more behind the binary point. *)
Lemma binary64_round_fine a b p :
  0 < a -> 0 < b -> 0 <= p <= 52 -> a < b * 2 ^ p ->
  exists n s, binary64_round a b = (n, s) /\ 53 - p <= s
              /\ 2 * Z.abs (n * b - a * 2 ^ s) <= b.
Proof.
  intros Ha Hb Hp Hlt. unfold binary64_round.
  destruct (a =? 0) eqn:E; [apply Z.eqb_eq in E; lia|].
  pose proof (floor_log2_ratio_below a b p Ha Hb ltac:(lia) Hlt) as L.
  set (l := floor_log2_ratio a b) in *.
  destruct (0 <=? l - 52) eqn:E2; [apply Z.leb_le in E2; lia|].
  eexists _, _. split; [reflexivity|]. split; [lia|].
  apply rhe_div_bound. assumption.
Qed.

Lemma timestamp_micros_nonneg_exact ms :
  0 <= ms < exact_millis_bound -> timestamp_micros_nonneg ms = ms * 1000.
Proof.
  intros [H0 Hb]. unfold exact_millis_bound in Hb.
  destruct (Z.eq_dec ms 0) as [->|Hne]; [reflexivity|].
  unfold timestamp_micros_nonneg.
  destruct (binary64_round_fine ms 1000 33 ltac:(lia) ltac:(lia) ltac:(lia) ltac:(lia))
    as (n & s & -> & Hs & Hn).
  set (P := 2 ^ s) in *.
  assert (HP : 2 ^ 20 <= P) by (apply Z.pow_le_mono_r; lia).
  change (2 ^ 20) with 1048576 in HP.
  pose proof (Z.div_mod ms 1000 ltac:(lia)) as Ems.
  pose proof (Z.mod_pos_bound ms 1000 ltac:(lia)) as Bk.
  set (sec := ms / 1000) in *. set (k := ms mod 1000) in *.
  assert (Hn' : 2 * Z.abs (1000 * n - (1000 * (sec * P) + k * P)) <= 1000).
  { replace (1000 * n - (1000 * (sec * P) + k * P)) with (n * 1000 - ms * P); [exact Hn|].
    rewrite Ems. ring. }
  assert (KP : 0 <= k * P <= 999 * P) by nia.
  assert (KP' : k = 0 \/ P <= k * P) by nia.
  assert (Hw : n / P = sec).
  { symmetry. apply (Z.div_unique n P sec (n - sec * P)); [|ring].
    left. lia. }
  rewrite Hw.
  set (f := n - sec * P) in *.
  assert (Hf : 0 <= f < P) by (unfold f; lia).
  assert (Hfk : 2 * Z.abs (1000 * f - k * P) <= 1000) by (unfold f; lia).
  destruct (Z.eq_dec f 0) as [F0|Fne].
  - rewrite F0. assert (k = 0) by lia.
    cbn [Z.mul]. unfold binary64_round. cbn [Z.eqb]. cbv beta iota.
    change (rhe_div 0 (2 ^ 0)) with 0. lia.
  - destruct (binary64_round_fine (f * 10 ^ 6) P 20 ltac:(lia) ltac:(lia) ltac:(lia))
      as (n' & s' & -> & Hs' & Hn'').
    { change (2 ^ 20) with 1048576. change (10 ^ 6) with 1000000. nia. }
    set (P' := 2 ^ s') in *.
    assert (HP' : 2 ^ 33 <= P') by (apply Z.pow_le_mono_r; lia).
    change (2 ^ 33) with 8589934592 in HP'.
    change (10 ^ 6) with 1000000 in *.
    assert (U : rhe_div n' P' = 1000 * k).
    { apply rhe_div_unique; [lia|].
      (* A = n' P, B = f 10^6 P', C = 1000 k P P' *)
      assert (B1 : 2 * Z.abs (1000 * f * P' - k * P * P') <= 1000 * P').
      { replace (1000 * f * P' - k * P * P') with ((1000 * f - k * P) * P') by ring.
        rewrite Z.abs_mul, (Z.abs_eq P') by lia. nia. }
      assert (B2 : 2 * Z.abs (n' * P - 1000 * k * P * P') <= P + 1000000 * P').
      { replace (n' * P - 1000 * k * P * P')
          with ((n' * P - f * 1000000 * P') + 1000 * (1000 * f * P' - k * P * P')) by ring.
        lia. }
      assert (B3 : P + 1000000 * P' < P * P') by nia.
      assert (B4 : 2 * Z.abs ((1000 * k * P' - n') * P) < P' * P).
      { replace ((1000 * k * P' - n') * P) with (- (n' * P - 1000 * k * P * P')) by ring.
        rewrite Z.abs_opp. lia. }
      rewrite Z.abs_mul, (Z.abs_eq P) in B4 by lia.
      nia. }
    rewrite U, Ems. ring.
Qed.

Lemma timestamp_micros_exact ms :
  Z.abs ms < exact_millis_bound -> timestamp_micros ms = ms * 1000.
Proof.
  intros H. unfold timestamp_micros.
  destruct (0 <=? ms) eqn:E; [apply Z.leb_le in E|apply Z.leb_gt in E].
  - apply timestamp_micros_nonneg_exact. lia.
  - rewrite timestamp_micros_nonneg_exact by lia. ring.
Qed.

(** ** Timestamp extraction *)

Lemma fromtimestamp_millis_exact ms :
  Z.abs ms < exact_millis_bound ->
  fromtimestamp_millis ms = Ok (UTC (ms * 1000)).
Proof.
  intro B. unfold fromtimestamp_millis. rewrite (timestamp_micros_exact ms B).
  unfold exact_millis_bound in B.
  unfold datetime_min_micros, datetime_max_micros, datetime_min_millis, datetime_max_millis.
  destruct (_ <=? _) eqn:E1; [|apply Z.leb_gt in E1; lia].
  destruct (ms * 1000 <=? _) eqn:E2; [|apply Z.leb_gt in E2; lia].
  reflexivity.
Qed.

(** The scan passes over an extrinsic that is not a "Timestamp.set" call. *)
Lemma extract_block_timestamp_skip x rest :
  extrinsic_shaped x = true ->
  is_timestamp_set x = false ->
  extract_block_timestamp (x :: rest) = extract_block_timestamp rest.
Proof.
  unfold extrinsic_shaped, is_timestamp_set, call_of. intros S N. simpl.
  destruct (truthy (getattr_value x)) eqn:T; [|reflexivity].
  destruct (getattr_value x) as [| | | | |d|] eqn:V;
    cbv beta iota in S; try (rewrite T in S; discriminate).
  simpl. destruct (dict_lookup "call" d) as [call|] eqn:C; [|reflexivity].
  destruct call as [| | | | |c|]; try discriminate. simpl.
  destruct (dict_lookup "call_function" c) as [f|]; [|discriminate].
  destruct (dict_lookup "call_module" c) as [m|]; [|discriminate].
  simpl. destruct (py_eq_str f "set"); [|reflexivity].
  simpl in N. simpl. now rewrite N.
Qed.

(** The scan stops at a "Timestamp.set" call and converts its first
    argument. *)
Lemma extract_block_timestamp_hit x rest ms :
  is_timestamp_set x = true ->
  first_argument x = Some (VInt ms) ->
  extract_block_timestamp (x :: rest)
  = rbind (fromtimestamp_millis ms) (fun t => Ok (Some t)).
Proof.
  unfold is_timestamp_set, first_argument, call_of. intros N A. simpl.
  destruct (getattr_value x) as [| | | | |d|] eqn:V; try discriminate.
  destruct (dict_lookup "call" d) as [call|] eqn:C; [|discriminate].
  destruct call as [| | | | |c|]; try discriminate.
  destruct (dict_lookup "call_function" c) as [f|] eqn:F; [|discriminate].
  destruct (dict_lookup "call_module" c) as [m|] eqn:Md; [|discriminate].
  apply andb_true_iff in N. destruct N as [N1 N2].
  destruct (dict_lookup "call_args" c) as [args|] eqn:Ar; [|discriminate].
  destruct args as [| | | |[|[| | | | |a|] args]| |]; try discriminate.
  assert (T : truthy (VDict d) = true) by (destruct d; [discriminate|reflexivity]).
  rewrite T. simpl. rewrite C. simpl. rewrite F. simpl. rewrite N1.
  rewrite Md. simpl. rewrite N2. rewrite Ar. simpl. rewrite A. reflexivity.
Qed.

(** C2, as stated, fails: the script divides the argument by 1000 in
    binary64, and 2^33 seconds or more away from the epoch the quotient is
    too coarse for the microsecond.  The argument 8589934592001 gives the
    instant 8589934592.000999 s, a microsecond before the one it names. *)
Lemma timestamp_off_by_a_microsecond :
  forallb extrinsic_shaped [sample_timestamp_set "0x01" 8589934592001] = true
  /\ find is_timestamp_set [sample_timestamp_set "0x01" 8589934592001]
     = Some (sample_timestamp_set "0x01" 8589934592001)
  /\ first_argument (sample_timestamp_set "0x01" 8589934592001)
     = Some (VInt 8589934592001)
  /\ extract_block_timestamp [sample_timestamp_set "0x01" 8589934592001]
     = Ok (Some (UTC 8589934592000999))
  /\ UTC 8589934592000999 <> UTC (8589934592001 * 1000).
Proof.
  repeat split; try reflexivity. intros [= H].
Qed.

(** C2 (as the code has it).  Over an ordered sequence of extrinsics as
    the chain client decodes them, timestamp extraction returns the UTC
    instant that lies as many milliseconds after the Unix epoch as the
    first positional argument of the first extrinsic whose call module is
    "Timestamp" and call function is "set" says, provided that instant is
    less than 2^33 seconds away from the epoch, and returns absent when the
    sequence has no such extrinsic; the argument 1700000000000 gives the
    instant at epoch second 1700000000. *)
Theorem extract_block_timestamp_first_set (extrinsics : list pyval) :
  (forallb extrinsic_shaped extrinsics = true ->
   match find is_timestamp_set extrinsics with
   | None => extract_block_timestamp extrinsics = Ok None
   | Some x =>
       forall ms,
         first_argument x = Some (VInt ms) ->
         Z.abs ms < exact_millis_bound ->
         extract_block_timestamp extrinsics = Ok (Some (UTC (ms * 1000)))
   end)
  /\ (exists t,
        extract_block_timestamp [sample_timestamp_set "0x01" 1700000000000]
        = Ok (Some t)
        /\ epoch_second t = 1700000000
        /\ epoch_micros t = 1700000000 * 1000000).
Proof.
  split.
  - induction extrinsics as [|x rest IH]; intro S; [reflexivity|].
    simpl in S. apply andb_true_iff in S. destruct S as [S1 S2].
    simpl find. destruct (is_timestamp_set x) eqn:N.
    + intros ms A R.
      rewrite (extract_block_timestamp_hit x rest ms N A).
      now rewrite (fromtimestamp_millis_exact ms R).
    + rewrite (extract_block_timestamp_skip x rest S1 N). exact (IH S2).
  - eexists. split; [reflexivity|]. split; reflexivity.
Qed.

Lemma extract_block_timestamp_first_set_witness :
  forallb extrinsic_shaped
    [VObj None; sample_extrinsic "0xaa" (VStr "0x0702");
     sample_timestamp_set "0x01" 1712345678901;
     sample_timestamp_set "0x02" 1700000000000] = true
  /\ extract_block_timestamp
       [VObj None; sample_extrinsic "0xaa" (VStr "0x0702");
        sample_timestamp_set "0x01" 1712345678901;
        sample_timestamp_set "0x02" 1700000000000]
     = Ok (Some (UTC (1712345678901 * 1000))).
Proof.
  split; [reflexivity|].
  apply (proj1 (extract_block_timestamp_first_set
                  [VObj None; sample_extrinsic "0xaa" (VStr "0x0702");
                   sample_timestamp_set "0x01" 1712345678901;
                   sample_timestamp_set "0x02" 1700000000000]) eq_refl).
  - reflexivity.
  - reflexivity.
Defined.

(* ================================================================= *)
(** ** Database computations *)

Lemma mbind_inv {A B} (m : M A) (k : A -> M B) db db' out :
  mbind m k db = (db', out) ->
  (exists db1 a, m db = (db1, Ok a) /\ k a db1 = (db', out))
  \/ (exists e, m db = (db', Raise e) /\ out = Raise e).
Proof.
  unfold mbind. destruct (m db) as [db1 [a|e]]; intro H.
  - left. eauto.
  - right. injection H as <- <-. eauto.
Qed.

Lemma mbind_lift {A B} (r : result A) (k : A -> M B) db :
  mbind (lift r) k db
  = match r with Ok a => k a db | Raise e => (db, Raise e) end.
Proof. unfold mbind, lift. now destruct r. Qed.

Lemma grows_refl db : grows db db.
Proof.
  repeat split; try (exists []; now rewrite List.app_nil_r). auto.
Qed.

Lemma grows_trans db1 db2 db3 : grows db1 db2 -> grows db2 db3 -> grows db1 db3.
Proof.
  intros ((b1 & B1) & (e1 & E1) & C1) ((b2 & B2) & (e2 & E2) & C2).
  repeat split.
  - exists (b1 ++ b2). now rewrite B2, B1, List.app_assoc.
  - exists (e1 ++ e2). now rewrite E2, E1, List.app_assoc.
  - auto.
Qed.

Lemma count_call_add_call s db c :
  count_call s (add_call db c)
  = (count_call s db + if (Call.call_index c =? s)%string then 1 else 0)%nat.
Proof.
  unfold count_call, add_call; simpl. rewrite filter_app, List.length_app.
  simpl. now destruct (Call.call_index c =? s)%string.
Qed.

Lemma has_call_index_count s db :
  has_call_index db s = false <-> count_call s db = 0%nat.
Proof.
  unfold has_call_index, count_call.
  induction (calls db) as [|c l IH]; simpl; [tauto|].
  destruct (Call.call_index c =? s)%string; simpl; [|exact IH].
  split; discriminate.
Qed.

Lemma grows_add_call db c :
  has_call_index db (Call.call_index c) = false -> grows db (add_call db c).
Proof.
  intro F. repeat split; try (exists []; simpl; now rewrite List.app_nil_r).
  intros s C. rewrite count_call_add_call.
  destruct (Call.call_index c =? s)%string eqn:E; [|lia].
  apply String.eqb_eq in E. subst s.
  apply has_call_index_count in F. lia.
Qed.

Lemma grows_add_extrinsic db r : grows db (add_extrinsic db r).
Proof.
  repeat split; simpl.
  - exists []. now rewrite List.app_nil_r.
  - now exists [r].
  - auto.
Qed.

(** *** The Call table *)

Lemma Call_row_inv db ci cf cm row :
  Call_row db ci cf cm = Ok row ->
  to_char ci = Ok (Some (Call.call_index row))
  /\ to_char cf = Ok (Call.call_function row)
  /\ to_char cm = Ok (Call.call_module row)
  /\ has_call_index db (Call.call_index row) = false.
Proof.
  unfold Call_row. intro H.
  destruct (to_char ci) as [[s|]|]; simpl in H; try discriminate;
    destruct (to_char cf) as [f|]; simpl in H; try discriminate;
    destruct (to_char cm) as [m|]; simpl in H; try discriminate.
  destruct (has_call_index db s) eqn:U; simpl in H; [discriminate|].
  injection H as <-. simpl. auto.
Qed.

Lemma Call_objects_create_spec ci cf cm db :
  Call_objects_create ci cf cm db
  = match Call_row db ci cf cm with
    | Ok row => (add_call db row, Ok row)
    | Raise e => (db, Raise e)
    end.
Proof. reflexivity. Qed.

Lemma Call_objects_get_inv ci db db' c :
  Call_objects_get ci db = (db', Ok c) ->
  db' = db
  /\ to_char ci = Ok (Some (Call.call_index c))
  /\ count_call (Call.call_index c) db = 1%nat
  /\ has_call_index db (Call.call_index c) = true.
Proof.
  unfold Call_objects_get. intro H.
  destruct (to_char ci) as [[s|]|]; try (injection H as _ H; discriminate).
  destruct (filter _ (calls db)) as [|c0 [|c1 l]] eqn:F;
    try (injection H as _ H; discriminate).
  injection H as <- <-.
  assert (I : In c0 (filter (fun c => (Call.call_index c =? s)%string) (calls db)))
    by (rewrite F; now left).
  apply filter_In in I. destruct I as [I E]. apply String.eqb_eq in E. subst s.
  repeat split; auto.
  - unfold count_call. now rewrite F.
  - unfold has_call_index. apply existsb_exists. exists c0. split; [assumption|].
    apply String.eqb_refl.
Qed.

Lemma Call_objects_get_state ci db db' out :
  Call_objects_get ci db = (db', out) -> db' = db.
Proof.
  unfold Call_objects_get. intro H.
  destruct (to_char ci) as [[s|]|]; try (now injection H as <- _).
  destruct (filter _ (calls db)) as [|c0 [|c1 l]]; now injection H as <- _.
Qed.

(** The membership test of line 106 on a string identifier is the
    uniqueness test of the table. *)
Lemma identifier_in_call_type s db :
  existsb (fun t => py_eq_str (VStr s) t) (Call_objects_values_list db)
  = has_call_index db s.
Proof.
  unfold Call_objects_values_list, has_call_index.
  induction (calls db) as [|c l IH]; [reflexivity|].
  cbn [map existsb]. rewrite IH. unfold py_eq_str.
  now rewrite String.eqb_sym.
Qed.

Lemma call_index_instance_for_falsy ci cf cm db :
  truthy ci = false -> call_index_instance_for (ci, cf, cm) db = (db, Ok None).
Proof. unfold call_index_instance_for. now intros ->. Qed.

(** The lookup-or-create step touches the Call table only, and only by
    appending a row whose identifier was not there. *)
Lemma call_index_instance_for_state ty db db' out :
  call_index_instance_for ty db = (db', out) ->
  db' = db
  \/ exists row, db' = add_call db row
                 /\ has_call_index db (Call.call_index row) = false.
Proof.
  destruct ty as [[ci cf] cm]. unfold call_index_instance_for.
  destruct (truthy ci); [|intro H; left; now injection H as <- _].
  intro H. apply mbind_inv in H.
  destruct H as [(db1 & l & V & H) | (e & V & _)]; [|discriminate V].
  injection V as <- _.
  assert (S1 : forall db2 (o : result unit),
             (if negb (existsb (fun s => py_eq_str ci s) l)
              then mbind (Call_objects_create ci cf cm) (fun _ => ret tt)
              else ret tt) db = (db2, o) ->
             db2 = db
             \/ exists row, db2 = add_call db row
                            /\ has_call_index db (Call.call_index row) = false).
  { intros db2 o. destruct (negb _); [|intro K; left; now injection K as <- _].
    unfold mbind. rewrite Call_objects_create_spec.
    destruct (Call_row db ci cf cm) as [row|e] eqn:R; intro K.
    - injection K as <- _. right. exists row. split; [reflexivity|].
      now apply Call_row_inv in R.
    - injection K as <- _. now left. }
  apply mbind_inv in H.
  destruct H as [(db2 & u & C & H) | (e & C & _)]; [|now apply S1 in C].
  apply S1 in C. apply mbind_inv in H.
  destruct H as [(db3 & c & G & H) | (e & G & _)].
  - apply Call_objects_get_state in G. injection H as <- _. now subst db3.
  - apply Call_objects_get_state in G. now subst db'.
Qed.

Lemma call_index_instance_for_grows ty db db' out :
  call_index_instance_for ty db = (db', out) ->
  grows db db' /\ blocks db' = blocks db /\ extrinsics db' = extrinsics db.
Proof.
  intro H. apply call_index_instance_for_state in H.
  destruct H as [-> | (row & -> & F)].
  - split; [apply grows_refl | auto].
  - split; [now apply grows_add_call | auto].
Qed.

(** What the step returns: no row exactly when the identifier is falsy,
    otherwise the one row of the table that carries the identifier. *)
Lemma call_index_instance_for_result ci cf cm db db' o :
  call_index_instance_for (ci, cf, cm) db = (db', Ok o) ->
  match o with
  | None => truthy ci = false /\ db' = db
  | Some c =>
      truthy ci = true
      /\ to_char ci = Ok (Some (Call.call_index c))
      /\ count_call (Call.call_index c) db' = 1%nat
      /\ has_call_index db' (Call.call_index c) = true
  end.
Proof.
  unfold call_index_instance_for.
  destruct (truthy ci); [|intro H; injection H as <- <-; auto].
  intro H. apply mbind_inv in H.
  destruct H as [(db1 & l & _ & H) | (e & _ & E)]; [|discriminate].
  apply mbind_inv in H.
  destruct H as [(db2 & u & _ & H) | (e & _ & E)]; [|discriminate].
  apply mbind_inv in H.
  destruct H as [(db3 & c & G & H) | (e & _ & E)]; [|discriminate].
  injection H as <- <-.
  apply Call_objects_get_inv in G. destruct G as (-> & G1 & G2 & G3). auto.
Qed.

(** First sight of a string identifier creates its row; a later sight
    finds the row that is there. *)
Lemma call_index_instance_for_string s cf cm f m db :
  s <> EmptyString ->
  to_char cf = Ok f ->
  to_char cm = Ok m ->
  (count_call s db <= 1)%nat ->
  exists c,
    call_index_instance_for (VStr s, cf, cm) db
    = ((if has_call_index db s then db else add_call db (Call.mk s f m)),
       Ok (Some c))
    /\ Call.call_index c = s
    /\ (has_call_index db s = false -> c = Call.mk s f m).
Proof.
  intros N F Md U. unfold call_index_instance_for.
  assert (T : truthy (VStr s) = true).
  { simpl. destruct (String.eqb_spec s EmptyString); [contradiction|reflexivity]. }
  rewrite T.
  assert (C : has_call_index db s = true -> count_call s db = 1%nat).
  { intro H. destruct (count_call s db) as [|[|k]] eqn:K; [|reflexivity|lia].
    apply has_call_index_count in K. congruence. }
  assert (G : forall db1 c,
             filter (fun c => (Call.call_index c =? s)%string) (calls db1) = [c] ->
             Call_objects_get (VStr s) db1 = (db1, Ok c)).
  { intros db1 c Fl. unfold Call_objects_get. cbn [to_char]. now rewrite Fl. }
  unfold mbind, values_list. rewrite identifier_in_call_type.
  destruct (has_call_index db s) eqn:H; cbn [negb]; unfold ret.
  - specialize (C eq_refl). unfold count_call in C.
    destruct (filter _ (calls db)) as [|c [|c1 l]] eqn:Fl; try discriminate.
    rewrite (G db c Fl).
    exists c. split; [reflexivity|]. split; [|discriminate].
    assert (I : In c (filter (fun c => (Call.call_index c =? s)%string) (calls db)))
      by (rewrite Fl; now left).
    apply filter_In in I. now apply String.eqb_eq.
  - rewrite Call_objects_create_spec.
    unfold Call_row. cbn [to_char rbind not_null]. rewrite F, Md. cbn [rbind].
    rewrite H. cbn [unique_check rbind].
    rewrite (G (add_call db (Call.mk s f m)) (Call.mk s f m)).
    + exists (Call.mk s f m). auto.
    + unfold add_call. cbn [calls]. rewrite filter_app.
      apply has_call_index_count in H. unfold count_call in H.
      apply List.length_zero_iff_nil in H. rewrite H.
      cbn [filter Call.call_index]. now rewrite String.eqb_refl.
Qed.

(** *** One extrinsic *)

Lemma extract_extrinsic_details_inv v ty tag :
  extract_extrinsic_details v = Ok (ty, tag) ->
  (exists d, v = VDict d)
  /\ (exists c, call_object v = VDict c)
  /\ ty = call_descriptor v.
Proof.
  unfold extract_extrinsic_details. intro H.
  destruct v as [| | | | |d|]; try discriminate H.
  change (py_get (VDict d) "call" (VDict [])) with (Ok (call_object (VDict d))) in H.
  cbn [rbind] in H. unfold call_descriptor.
  destruct (call_object (VDict d)) as [| | | | |c|]; try discriminate H.
  cbn [py_get rbind] in H.
  destruct (py_iter _) as [args|]; [|discriminate H]. cbn [rbind] in H.
  destruct (next_netuid args) as [t|]; [|discriminate H]. cbn [rbind] in H.
  injection H as <- <-. eauto.
Qed.

(** The body of the loop, read off as a cascade: decode the events, decode
    the call, look up or create the Call row, insert the Extrinsic row. *)
Lemma process_extrinsic_spec idx v events b n db :
  process_extrinsic idx v events b n db
  = match extract_extrinsic_events events (Z.of_nat idx) with
    | Raise e => (db, Raise e)
    | Ok (evs, ok) =>
        match extract_extrinsic_details v with
        | Raise e => (db, Raise e)
        | Ok (ty, tag) =>
            match call_index_instance_for ty db with
            | (db1, Raise e) => (db1, Raise e)
            | (db1, Ok ci) =>
                match row_for db1 v tag b n idx ci ok evs with
                | Raise e => (db1, Raise e)
                | Ok r => (add_extrinsic db1 r, Ok tt)
                end
            end
        end
    end.
Proof.
  unfold process_extrinsic. rewrite mbind_lift.
  destruct (extract_extrinsic_events events (Z.of_nat idx)) as [[evs ok]|e];
    [|reflexivity].
  rewrite mbind_lift.
  destruct (extract_extrinsic_details v) as [[ty tag]|e] eqn:D; [|reflexivity].
  apply extract_extrinsic_details_inv in D. destruct D as ((d & ->) & (c & C) & _).
  unfold mbind at 1.
  destruct (call_index_instance_for ty db) as [db1 [ci|e]]; [|reflexivity].
  unfold row_for. rewrite C.
  change (py_get (VDict d) "call" (VDict [])) with (Ok (call_object (VDict d))).
  rewrite C. unfold mbind, lift, py_get, dict_field, Extrinsic_objects_create, ret.
  now destruct (Extrinsic_row _ _ _ _ _ _ _ _ _ _ _ _ _ _).
Qed.

Lemma db_integer_inv z z' : db_integer z = Ok z' -> z' = z.
Proof.
  unfold db_integer. destruct (_ && _); [|discriminate]. now intros [= <-].
Qed.

Lemma db_integer_opt_inv o o' : db_integer_opt o = Ok o' -> o' = o.
Proof.
  destruct o as [z|]; cbn [db_integer_opt]; [|now intros [= <-]].
  destruct (db_integer z) as [z'|] eqn:D; [|discriminate].
  apply db_integer_inv in D. subst z'. now intros [= <-].
Qed.

Lemma row_for_inv db v tag b n idx ci ok evs r :
  row_for db v tag b n idx ci ok evs = Ok r ->
  Extrinsic.idx r = Some (position_id n idx)
  /\ Extrinsic.block r = Block.block_id b
  /\ Extrinsic.events r = VList evs
  /\ Extrinsic.result r = Some (if ok then "success" else "failed")%string
  /\ to_integer tag = Ok (Extrinsic.netuid r)
  /\ Extrinsic.call_args r = dict_field (call_object v) "call_args"
  /\ exists c, ci = Some c /\ Extrinsic.call_index r = Call.call_index c.
Proof.
  unfold row_for, Extrinsic_row. intro H.
  destruct (to_integer tag) as [nu|]; [|discriminate H]. cbn [rbind] in H.
  destruct (to_char (dict_field v "extrinsic_hash")) as [h|]; [|discriminate H].
  cbn [rbind] in H.
  destruct (to_char (dict_field v "address")) as [ad|]; [|discriminate H].
  cbn [rbind] in H.
  destruct (to_json (dict_field v "signature")) as [sg|]; [|discriminate H].
  cbn [rbind] in H.
  destruct (to_integer (dict_field v "tip")) as [tp|]; [|discriminate H].
  cbn [rbind] in H.
  destruct (to_integer (dict_field v "nonce")) as [nc|]; [|discriminate H].
  cbn [rbind] in H.
  destruct (to_char (dict_field v "era")) as [er|]; [|discriminate H].
  cbn [rbind] in H.
  destruct (to_json (dict_field (call_object v) "call_args")) as [ca|] eqn:J;
    [|discriminate H].
  cbn [rbind] in H.
  destruct (to_json (VList evs)) as [ev|] eqn:J2; [|discriminate H].
  cbn [rbind] in H.
  destruct (db_integer_opt nu) as [nu'|] eqn:D1; [|discriminate H].
  apply db_integer_opt_inv in D1. subst nu'. cbn [rbind] in H.
  destruct (db_integer_opt tp) as [tp'|] eqn:D2; [|discriminate H].
  apply db_integer_opt_inv in D2. subst tp'. cbn [rbind] in H.
  destruct (db_integer_opt nc) as [nc'|] eqn:D3; [|discriminate H].
  apply db_integer_opt_inv in D3. subst nc'. cbn [rbind] in H.
  destruct (not_null h) as [h'|]; [|discriminate H]. cbn [rbind] in H.
  destruct ci as [c|]; [|discriminate H]. cbn [option_map not_null rbind] in H.
  destruct (unique_check _); [|discriminate H]. cbn [rbind] in H.
  destruct (references_check _); [|discriminate H]. cbn [rbind] in H.
  destruct (references_check _); [|discriminate H]. cbn [rbind] in H.
  injection H as <-. cbn.
  unfold to_json in J, J2.
  destruct (json_serializable (dict_field (call_object v) "call_args"));
    [|discriminate J].
  destruct (json_serializable (VList evs)); [|discriminate J2].
  injection J as <-. injection J2 as <-.
  repeat split; eauto.
Qed.

(** What one turn of the loop leaves behind.  On success one Extrinsic row
    is appended: it carries the position identifier, the correlated events
    and the derived result, and it references the one Call row of its
    identifier.  On an exception no Extrinsic row is written. *)
Lemma process_extrinsic_step idx v events b n db db' out :
  process_extrinsic idx v events b n db = (db', out) ->
  grows db db' /\ blocks db' = blocks db
  /\ match out with
     | Ok _ =>
         exists r,
           extrinsics db' = extrinsics db ++ [r]
           /\ row_of_position events b n idx r
           /\ truthy (dict_field (call_object v) "call_index") = true
           /\ to_char (dict_field (call_object v) "call_index")
              = Ok (Some (Extrinsic.call_index r))
           /\ count_call (Extrinsic.call_index r) db' = 1%nat
     | Raise _ => extrinsics db' = extrinsics db
     end.
Proof.
  rewrite process_extrinsic_spec.
  destruct (extract_extrinsic_events events (Z.of_nat idx)) as [[evs ok]|e] eqn:E.
  2:{ intro H. injection H as <- <-. split; [apply grows_refl | auto]. }
  destruct (extract_extrinsic_details v) as [[ty tag]|e] eqn:D.
  2:{ intro H. injection H as <- <-. split; [apply grows_refl | auto]. }
  destruct (call_index_instance_for ty db) as [db1 [ci|e]] eqn:C.
  2:{ intro H. injection H as <- <-.
      apply call_index_instance_for_grows in C. tauto. }
  pose proof (call_index_instance_for_grows _ _ _ _ C) as (G & B & X).
  destruct (row_for db1 v tag b n idx ci ok evs) as [r|e] eqn:R.
  2:{ intro H. injection H as <- <-. auto. }
  intro H. injection H as <- <-.
  split; [exact (grows_trans _ _ _ G (grows_add_extrinsic db1 r))|].
  split; [exact B|].
  exists r. cbn [add_extrinsic extrinsics]. rewrite X. split; [reflexivity|].
  apply row_for_inv in R.
  destruct R as (R1 & R2 & R3 & R4 & _ & _ & c & -> & R5).
  unfold extract_extrinsic_events in E.
  apply extract_events_loop_sound in E. cbn [app orb] in E. destruct E as [-> ->].
  split; [now repeat split|].
  apply extract_extrinsic_details_inv in D. destruct D as (_ & _ & ->).
  unfold call_descriptor in C.
  apply call_index_instance_for_result in C. destruct C as (T & Ch & Cn & _).
  rewrite R5. auto.
Qed.

(** Without a truthy identifier nothing is written at all. *)
Lemma process_extrinsic_no_identifier idx v events b n db db' out :
  truthy (dict_field (call_object v) "call_index") = false ->
  process_extrinsic idx v events b n db = (db', out) ->
  db' = db /\ exists e, out = Raise e.
Proof.
  intros T H.
  destruct out as [u|e].
  - apply process_extrinsic_step in H. destruct H as (_ & _ & r & _ & _ & T' & _).
    congruence.
  - split; [|eauto]. revert H. rewrite process_extrinsic_spec.
    destruct (extract_extrinsic_events events (Z.of_nat idx)) as [[evs ok]|e0];
      [|now intros [= <- _]].
    destruct (extract_extrinsic_details v) as [[ty tag]|e0] eqn:D;
      [|now intros [= <- _]].
    apply extract_extrinsic_details_inv in D. destruct D as (_ & _ & ->).
    unfold call_descriptor. rewrite (call_index_instance_for_falsy _ _ _ db T).
    destruct (row_for _ _ _ _ _ _ _ _ _); now intros [= <- _].
Qed.

(** *** The loop *)

Lemma persisted_positions_from_bounds exts :
  forall k i, In i (persisted_positions_from k exts) ->
              (k <= i < k + List.length exts)%nat
              /\ truthy (getattr_value (nth (i - k) exts VNone)) = true.
Proof.
  induction exts as [|x rest IH]; intros k i I; simpl in I; [contradiction|].
  assert (Tl : In i (persisted_positions_from (S k) rest) ->
               (k <= i < k + List.length (x :: rest))%nat
               /\ truthy (getattr_value (nth (i - k) (x :: rest) VNone)) = true).
  { intro J. apply IH in J. destruct J as [J1 J2]. simpl List.length.
    split; [lia|]. replace (i - k)%nat with (S (i - S k)) by lia. exact J2. }
  destruct (truthy (getattr_value x)) eqn:T; [|auto].
  destruct I as [<- | I]; [|auto].
  simpl List.length. split; [lia|]. now rewrite Nat.sub_diag.
Qed.

(** The rows a run of the loop appends follow the positions that pass the
    guard, in order; a run that returns has written all of them. *)
Lemma process_extrinsics_from_rows exts events b n :
  forall k db db' out,
    process_extrinsics_from k exts events b n db = (db', out) ->
    grows db db' /\ blocks db' = blocks db
    /\ exists done todo new,
         persisted_positions_from k exts = done ++ todo
         /\ extrinsics db' = extrinsics db ++ new
         /\ Forall2 (row_of_position events b n) done new
         /\ (out = Ok tt -> todo = []).
Proof.
  induction exts as [|x rest IH]; intros k db db' out H; simpl in H.
  - injection H as <- <-. split; [apply grows_refl|]. split; [reflexivity|].
    exists [], [], []. simpl. rewrite List.app_nil_r. auto.
  - simpl persisted_positions_from.
    destruct (truthy (getattr_value x)) eqn:T; cbn [negb] in H; [|now apply IH].
    apply mbind_inv in H. destruct H as [(db1 & u & S1 & H) | (e & S1 & ->)].
    + apply process_extrinsic_step in S1.
      destruct S1 as (G1 & B1 & r & X1 & R1 & _).
      apply IH in H.
      destruct H as (G2 & B2 & done & todo & new & P & X2 & F & O).
      split; [exact (grows_trans _ _ _ G1 G2)|]. split; [congruence|].
      exists (k :: done), todo, (r :: new). rewrite P, X2, X1.
      rewrite <- List.app_assoc. repeat split; auto.
    + apply process_extrinsic_step in S1. destruct S1 as (G1 & B1 & X1).
      split; [exact G1|]. split; [exact B1|].
      exists [], (k :: persisted_positions_from (S k) rest), [].
      rewrite X1, List.app_nil_r. repeat split; auto. discriminate.
Qed.

(* ================================================================= *)
(** ** Position identifiers *)

Lemma digits_value_str_of_nat i : digits_value (str_of_nat i) = Some i.
Proof.
  unfold digits_value, str_of_nat, DecimalString.NilZero.string_of_uint.
  pose proof (DecimalNat.Unsigned.of_to i) as V.
  destruct (Nat.to_uint i) eqn:U;
    try (rewrite DecimalString.NilEmpty.usu; cbn [option_map]; now rewrite V).
  simpl in *. now rewrite <- V.
Qed.

Lemma digits_value_zeros k s :
  digits_value (zeros k ++ s)%string = digits_value s.
Proof.
  unfold digits_value. induction k as [|k IH]; [reflexivity|].
  cbn [zeros String.append DecimalString.NilEmpty.uint_of_string].
  rewrite <- IH.
  destruct (DecimalString.NilEmpty.uint_of_string (zeros k ++ s)) as [d|];
    reflexivity.
Qed.

Lemma pad04_injective i j : pad04 i = pad04 j -> i = j.
Proof.
  unfold pad04. intro H. apply (f_equal digits_value) in H.
  rewrite !digits_value_zeros, !digits_value_str_of_nat in H. congruence.
Qed.

Lemma append_cancel_l (a b c : string) : (a ++ b = a ++ c)%string -> b = c.
Proof.
  induction a as [|ch a IH]; simpl; intro H; [assumption|].
  injection H as H. auto.
Qed.

Example position_id_sample : position_id 3593992 7 = "3593992-0007"%string.
Proof. reflexivity. Qed.

(** Within a block, distinct positions have distinct identifiers. *)
Lemma position_id_injective n i j : position_id n i = position_id n j -> i = j.
Proof.
  unfold position_id. intro H.
  apply append_cancel_l in H. apply append_cancel_l in H.
  now apply pad04_injective.
Qed.


(* ================================================================= *)
(** ** The persisted rows *)

Lemma contains_success_iff evs :
  contains_success evs = true
  <-> exists e, In e evs /\ event_identifier e = VStr "ExtrinsicSuccess".
Proof.
  unfold contains_success. rewrite existsb_exists.
  split; intros (e & I & E); exists e; split; auto; now apply py_eq_str_true.
Qed.

(** C1.  Every Extrinsic row the loop persists has result "success" if and
    only if the events correlated to its position contain one whose
    identifier is "ExtrinsicSuccess", and "failed" otherwise; the row's
    event list is that correlated list. *)
Theorem persisted_result_from_events
    (exts events : list pyval) (block_instance : Block.t) (block_number : Z)
    (db db' : DB) (out : result unit) :
  process_extrinsics exts events block_instance block_number db = (db', out) ->
  exists positions new,
    extrinsics db' = extrinsics db ++ new
    /\ Forall2
         (fun i r =>
            let evs := correlated events (Z.of_nat i) in
            Extrinsic.idx r = Some (position_id block_number i)
            /\ Extrinsic.events r = VList evs
            /\ (Extrinsic.result r = Some "success"%string
                <-> exists e, In e evs /\ event_identifier e = VStr "ExtrinsicSuccess")
            /\ (Extrinsic.result r = Some "failed"%string
                <-> ~ exists e, In e evs /\ event_identifier e = VStr "ExtrinsicSuccess"))
         positions new.
Proof.
  intro H. apply process_extrinsics_from_rows in H.
  destruct H as (_ & _ & done & todo & new & _ & X & F & _).
  exists done, new. split; [exact X|].
  revert F. apply Forall2_impl. intros i r (R1 & _ & R3 & R4).
  cbv zeta. rewrite <- contains_success_iff, R4.
  split; [exact R1|]. split; [exact R3|].
  destruct (contains_success (correlated events (Z.of_nat i))).
  - split; [tauto|]. split; [discriminate | intro N; now contradiction N].
  - split; [split; discriminate|]. split; [discriminate | reflexivity].
Qed.

Lemma persisted_result_from_events_witness :
  exists new,
    extrinsics (fst (process_extrinsics sample_extrinsics sample_events
                       sample_block_row 7 sample_db))
    = extrinsics sample_db ++ new
    /\ map Extrinsic.result new
       = [Some "failed"; Some "success"; Some "failed"]%string.
Proof.
  destruct (persisted_result_from_events sample_extrinsics sample_events
              sample_block_row 7 sample_db _ _ eq_refl)
    as (positions & new & X & F).
  exists new. split; [exact X|].
  vm_compute in X. rewrite <- X. reflexivity.
Defined.

Lemma persisted_positions_from_all exts :
  forall k,
    forallb (fun x => truthy (getattr_value x)) exts = true ->
    persisted_positions_from k exts = seq k (List.length exts).
Proof.
  induction exts as [|x rest IH]; intros k A; [reflexivity|].
  simpl in A. apply andb_true_iff in A. destruct A as [A1 A2].
  simpl. rewrite A1. f_equal. now apply IH.
Qed.

Lemma persisted_positions_from_NoDup exts :
  forall k, NoDup (persisted_positions_from k exts).
Proof.
  induction exts as [|x rest IH]; intro k; simpl; [constructor|].
  destruct (truthy (getattr_value x)); [|apply IH].
  constructor; [|apply IH].
  intro I. apply persisted_positions_from_bounds in I. lia.
Qed.

Lemma position_ids_NoDup n l :
  NoDup l -> NoDup (map (fun i => Some (position_id n i)) l).
Proof.
  induction 1 as [|i l N D IH]; simpl; constructor; [|exact IH].
  intro I. apply in_map_iff in I. destruct I as (j & E & J).
  injection E as E. apply position_id_injective in E. now subst j.
Qed.

Lemma rows_idx events b n done new :
  Forall2 (row_of_position events b n) done new ->
  map Extrinsic.idx new = map (fun i => Some (position_id n i)) done.
Proof.
  induction 1 as [|i r done new R F IH]; [reflexivity|].
  simpl. destruct R as (-> & _). now rewrite IH.
Qed.

(** C4 (as the code has it).  When the loop over a block's extrinsics
    returns, the position identifiers of the rows it persisted are
    [{B}-{i:04}] for exactly the positions [i] whose extrinsic has a decoded
    value, in ascending order and without repetition; they are the
    contiguous range 0 .. N-1 when every extrinsic of the sequence has a
    decoded value. *)
Theorem position_identifiers_of_block
    (exts events : list pyval) (block_instance : Block.t) (block_number : Z)
    (db db' : DB) :
  process_extrinsics exts events block_instance block_number db = (db', Ok tt) ->
  exists new,
    extrinsics db' = extrinsics db ++ new
    /\ map Extrinsic.idx new
       = map (fun i => Some (position_id block_number i)) (persisted_positions exts)
    /\ NoDup (map Extrinsic.idx new)
    /\ (forallb (fun x => truthy (getattr_value x)) exts = true ->
        map Extrinsic.idx new
        = map (fun i => Some (position_id block_number i)) (seq 0 (List.length exts))).
Proof.
  intro H. apply process_extrinsics_from_rows in H.
  destruct H as (_ & _ & done & todo & new & P & X & F & O).
  rewrite (O eq_refl), List.app_nil_r in P.
  exists new. split; [exact X|].
  apply rows_idx in F. unfold persisted_positions. rewrite F. subst done.
  split; [reflexivity|]. split.
  - apply position_ids_NoDup, persisted_positions_from_NoDup.
  - intro A. now rewrite (persisted_positions_from_all exts 0 A).
Qed.

Lemma position_identifiers_of_block_witness :
  exists new,
    extrinsics (fst (process_extrinsics sample_extrinsics sample_events
                       sample_block_row 7 sample_db))
    = extrinsics sample_db ++ new
    /\ map Extrinsic.idx new = [Some "7-0000"; Some "7-0001"; Some "7-0002"]%string.
Proof.
  destruct (position_identifiers_of_block sample_extrinsics sample_events
              sample_block_row 7 sample_db _ eq_refl)
    as (new & X & I & _).
  exists new. split; [exact X | exact I].
Defined.

(** C4, as stated, fails: of the two extrinsics of this block the first has
    no decoded value; the run returns and the only identifier persisted is
    7-0001, so the identifiers are not 7-0000 .. 7-0001. *)
Lemma position_identifiers_gap :
  process_extrinsics [VObj None; sample_extrinsic "0xa1" (VStr "0x0702")]
    sample_events sample_block_row 7 sample_db
  = (mkDB (blocks sample_db)
       [Call.mk "0x0702" (Some "add_stake") (Some "SubtensorModule")]
       [Extrinsic.mk (Some 12) "0xa1" (Some "5FHneW46") 7 (Some "7-0001") VNone
          (Some 0) (Some 4) None "0x0702" (VList sample_args) (Some "success")
          (VList (correlated sample_events 1))],
     Ok tt)
  /\ ~ In (Some (position_id 7 0))
         (map Extrinsic.idx
            (extrinsics
               (fst (process_extrinsics
                       [VObj None; sample_extrinsic "0xa1" (VStr "0x0702")]
                       sample_events sample_block_row 7 sample_db)))).
Proof.
  split; [reflexivity|].
  vm_compute. intros [H|[]]. discriminate H.
Qed.

(** C10.  An extrinsic whose decoded value is absent or falsy is passed
    over: the loop goes on with the next position as if the extrinsic were
    not there, and no row with the identifier of its position is written. *)
Theorem falsy_extrinsic_skipped
    (pre post events : list pyval) (x : pyval)
    (block_instance : Block.t) (block_number : Z) :
  truthy (getattr_value x) = false ->
  (forall k db,
     process_extrinsics_from k (x :: post) events block_instance block_number db
     = process_extrinsics_from (S k) post events block_instance block_number db)
  /\ (forall db db' out,
        process_extrinsics (pre ++ x :: post) events block_instance block_number db
        = (db', out) ->
        exists new,
          extrinsics db' = extrinsics db ++ new
          /\ forall r, In r new ->
                       Extrinsic.idx r
                       <> Some (position_id block_number (List.length pre))).
Proof.
  intro T. split.
  - intros k db. simpl. now rewrite T.
  - intros db db' out H. apply process_extrinsics_from_rows in H.
    destruct H as (_ & _ & done & todo & new & P & X & F & _).
    exists new. split; [exact X|]. intros r I E.
    apply rows_idx in F.
    assert (J : In (Some (position_id block_number (List.length pre)))
                  (map (fun i => Some (position_id block_number i)) done)).
    { rewrite <- F, <- E. now apply in_map. }
    apply in_map_iff in J. destruct J as (j & Ej & J).
    injection Ej as Ej. apply position_id_injective in Ej. subst j.
    assert (K : In (List.length pre) (persisted_positions_from 0 (pre ++ x :: post)))
      by (rewrite P; apply in_or_app; now left).
    apply persisted_positions_from_bounds in K. destruct K as [_ K].
    rewrite Nat.sub_0_r, app_nth2, Nat.sub_diag in K; [|lia].
    simpl in K. congruence.
Qed.

Lemma falsy_extrinsic_skipped_witness :
  process_extrinsics_from 0
    (VObj None :: [sample_extrinsic "0xa1" (VStr "0x0702")])
    sample_events sample_block_row 7 sample_db
  = process_extrinsics_from 1 [sample_extrinsic "0xa1" (VStr "0x0702")]
      sample_events sample_block_row 7 sample_db.
Proof.
  exact (proj1 (falsy_extrinsic_skipped [] [sample_extrinsic "0xa1" (VStr "0x0702")]
                  sample_events (VObj None) sample_block_row 7 eq_refl)
               0%nat sample_db).
Defined.

(* ================================================================= *)
(** ** The Block table and whole ingestions *)

Lemma has_block_id_app db n row :
  has_block_id (mkDB (blocks db ++ [row]) (calls db) (extrinsics db)) n
  = has_block_id db n || (Block.block_id row =? n).
Proof.
  unfold has_block_id. cbn [blocks]. rewrite existsb_app. simpl.
  now rewrite orb_false_r.
Qed.


Lemma Block_row_id db n bh ph sr er ts row :
  Block_row db n bh ph sr er ts = Ok row -> Block.block_id row = n.
Proof.
  unfold Block_row. intro H.
  destruct (to_char bh) as [obh|]; [|discriminate H]. cbn [rbind] in H.
  destruct (to_char ph) as [oph|]; [|discriminate H]. cbn [rbind] in H.
  destruct (to_char sr) as [osr|]; [|discriminate H]. cbn [rbind] in H.
  destruct (to_char er) as [oer|]; [|discriminate H]. cbn [rbind] in H.
  destruct (db_integer n) as [n'|] eqn:DI; [|discriminate H].
  apply db_integer_inv in DI. subst n'. cbn [rbind] in H.
  destruct obh; [|discriminate H]. destruct oph; [|discriminate H].
  destruct osr; [|discriminate H]. destruct oer; [|discriminate H].
  cbn in H.
  destruct (has_block_id db n); [discriminate H|]. cbn in H.
  destruct (has_block_hash db _); [discriminate H|]. cbn in H.
  now injection H as <-.
Qed.

(** A number that is taken is refused, whatever else is offered. *)
Lemma Block_row_taken db n bh ph sr er ts :
  has_block_id db n = true ->
  exists e, Block_row db n bh ph sr er ts = Raise e.
Proof.
  intro T. unfold Block_row.
  destruct (to_char bh) as [obh|]; cbn [rbind]; [|eauto].
  destruct (to_char ph) as [oph|]; cbn [rbind]; [|eauto].
  destruct (to_char sr) as [osr|]; cbn [rbind]; [|eauto].
  destruct (to_char er) as [oer|]; cbn [rbind]; [|eauto].
  destruct (db_integer n) as [n'|] eqn:DI; [|cbn; eauto].
  apply db_integer_inv in DI. subst n'. cbn [rbind].
  destruct obh; cbn [not_null rbind]; [|eauto].
  destruct oph; cbn [not_null rbind]; [|eauto].
  destruct osr; cbn [not_null rbind]; [|eauto].
  destruct oer; cbn [not_null rbind]; [|eauto].
  rewrite T. cbn. eauto.
Qed.

(** A header that was accepted once meets the uniqueness conflict once its
    number is taken. *)
Lemma Block_row_conflict db db' n bh ph sr er ts row :
  Block_row db n bh ph sr er ts = Ok row ->
  has_block_id db' n = true ->
  Block_row db' n bh ph sr er ts = Raise IntegrityError.
Proof.
  unfold Block_row. intros H T.
  destruct (to_char bh) as [obh|]; [|discriminate H]. cbn [rbind] in H |- *.
  destruct (to_char ph) as [oph|]; [|discriminate H]. cbn [rbind] in H |- *.
  destruct (to_char sr) as [osr|]; [|discriminate H]. cbn [rbind] in H |- *.
  destruct (to_char er) as [oer|]; [|discriminate H]. cbn [rbind] in H |- *.
  destruct (db_integer n) as [n'|] eqn:DI; [|discriminate H].
  apply db_integer_inv in DI. subst n'. cbn [rbind] in H |- *.
  destruct obh; [|discriminate H]. destruct oph; [|discriminate H].
  destruct osr; [|discriminate H]. destruct oer; [|discriminate H].
  cbn. now rewrite T.
Qed.

(** [create_block_record] reads the header and hands it to the table. *)
Lemma create_block_record_spec n block bh ts db :
  create_block_record n block bh ts db
  = match py_item block "header" with
    | Raise e => (db, Raise e)
    | Ok header =>
        match py_item header "parentHash", py_item header "stateRoot",
              py_item header "extrinsicsRoot" with
        | Ok ph, Ok sr, Ok er => Block_objects_create n bh ph sr er ts db
        | Raise e, _, _ => (db, Raise e)
        | Ok _, Raise e, _ => (db, Raise e)
        | Ok _, Ok _, Raise e => (db, Raise e)
        end
    end.
Proof.
  unfold create_block_record. rewrite mbind_lift.
  destruct (py_item block "header") as [header|e]; [|reflexivity].
  rewrite mbind_lift.
  destruct (py_item header "parentHash") as [ph|e]; [|reflexivity].
  rewrite mbind_lift, mbind_lift.
  destruct (py_item header "stateRoot") as [sr|e]; [|reflexivity].
  rewrite mbind_lift, mbind_lift.
  now destruct (py_item header "extrinsicsRoot") as [er|e].
Qed.

Lemma create_block_record_state n block bh ts db db' out :
  create_block_record n block bh ts db = (db', out) ->
  match out with
  | Ok row =>
      db' = mkDB (blocks db ++ [row]) (calls db) (extrinsics db)
      /\ Block.block_id row = n
  | Raise _ => db' = db
  end.
Proof.
  rewrite create_block_record_spec.
  destruct (py_item block "header") as [header|e]; [|now intros [= <- <-]].
  destruct (py_item header "parentHash") as [ph|e]; [|now intros [= <- <-]].
  destruct (py_item header "stateRoot") as [sr|e]; [|now intros [= <- <-]].
  destruct (py_item header "extrinsicsRoot") as [er|e]; [|now intros [= <- <-]].
  unfold Block_objects_create.
  destruct (Block_row db n bh ph sr er ts) as [row|e] eqn:R; intros [= <- <-];
    [|reflexivity].
  split; [reflexivity|]. now apply Block_row_id in R.
Qed.

Lemma create_block_record_taken n block bh ts db :
  has_block_id db n = true ->
  exists e, create_block_record n block bh ts db = (db, Raise e).
Proof.
  intro T. rewrite create_block_record_spec.
  destruct (py_item block "header") as [header|e]; [|eauto].
  destruct (py_item header "parentHash") as [ph|e]; [|eauto].
  destruct (py_item header "stateRoot") as [sr|e]; [|eauto].
  destruct (py_item header "extrinsicsRoot") as [er|e]; [|eauto].
  unfold Block_objects_create.
  destruct (Block_row_taken db n bh ph sr er ts T) as (e & ->). eauto.
Qed.

Lemma create_block_record_conflict n block bh ts db db0 db1 row :
  create_block_record n block bh ts db = (db0, Ok row) ->
  has_block_id db1 n = true ->
  create_block_record n block bh ts db1 = (db1, Raise IntegrityError).
Proof.
  rewrite !create_block_record_spec.
  destruct (py_item block "header") as [header|e]; [|discriminate].
  destruct (py_item header "parentHash") as [ph|e]; [|discriminate].
  destruct (py_item header "stateRoot") as [sr|e]; [|discriminate].
  destruct (py_item header "extrinsicsRoot") as [er|e]; [|discriminate].
  unfold Block_objects_create.
  destruct (Block_row db n bh ph sr er ts) as [r|e] eqn:R; [|discriminate].
  intros _ T. now rewrite (Block_row_conflict _ _ _ _ _ _ _ _ _ R T).
Qed.

(** The stages of an ingestion that returned. *)
Lemma ingest_ok_inv n block events bh db db1 :
  ingest n block events bh db = (db1, Ok tt) ->
  exists xv exts ts db0 bi,
    py_item block "extrinsics" = Ok xv
    /\ py_iter xv = Ok exts
    /\ extract_block_timestamp exts = Ok ts
    /\ create_block_record n block bh ts db = (db0, Ok bi)
    /\ process_extrinsics exts events bi n db0 = (db1, Ok tt).
Proof.
  unfold ingest. rewrite mbind_lift.
  destruct (py_item block "extrinsics") as [xv|e] eqn:X; [|discriminate].
  rewrite mbind_lift. destruct (py_iter xv) as [exts|e] eqn:I; [|discriminate].
  rewrite mbind_lift.
  destruct (extract_block_timestamp exts) as [ts|e] eqn:Ts; [|discriminate].
  intro H. apply mbind_inv in H.
  destruct H as [(db0 & bi & C & H) | (e & _ & E)]; [|discriminate].
  exists xv, exts, ts, db0, bi. repeat split; auto.
Qed.

Lemma has_block_id_grows db db' n :
  grows db db' -> has_block_id db n = true -> has_block_id db' n = true.
Proof.
  intros ((nb & B) & _) H. unfold has_block_id in *. rewrite B, existsb_app, H.
  reflexivity.
Qed.

(** An ingestion under a number that is taken writes nothing and fails. *)
Lemma ingest_taken n block events bh db :
  has_block_id db n = true ->
  exists e, ingest n block events bh db = (db, Raise e).
Proof.
  intro T. unfold ingest. rewrite mbind_lift.
  destruct (py_item block "extrinsics") as [xv|e]; [|eauto].
  rewrite mbind_lift. destruct (py_iter xv) as [exts|e]; [|eauto].
  rewrite mbind_lift.
  destruct (extract_block_timestamp exts) as [ts|e]; [|eauto].
  unfold mbind.
  destruct (create_block_record_taken n block bh ts db T) as (e & ->). eauto.
Qed.

(* ================================================================= *)
(** ** Call rows are shared *)

Lemma call_identifier_truthy x s :
  call_identifier x = VStr s -> truthy (getattr_value x) = true.
Proof.
  unfold call_identifier, call_object.
  destruct (getattr_value x) as [| | | | |d|]; try discriminate.
  destruct d; [discriminate | reflexivity].
Qed.

Lemma count_call_grows db db' s :
  grows db db' -> count_call s db = 1%nat -> count_call s db' = 1%nat.
Proof. intros (_ & _ & C). apply C. Qed.

Lemma In_grows db db' r :
  grows db db' -> In r (extrinsics db) -> In r (extrinsics db').
Proof. intros (_ & (ne & E) & _) I. rewrite E. apply in_or_app. now left. Qed.

(** In a run of the loop that returns, an extrinsic with a non-empty
    string identifier has got its row, which references the one Call row of
    that identifier. *)
Lemma process_extrinsics_from_call exts events b n :
  forall k db db',
    process_extrinsics_from k exts events b n db = (db', Ok tt) ->
    forall i x s,
      nth_error exts i = Some x ->
      call_identifier x = VStr s ->
      count_call s db' = 1%nat
      /\ exists r, In r (extrinsics db')
                   /\ row_of_position events b n (k + i) r
                   /\ Extrinsic.call_index r = s.
Proof.
  induction exts as [|x0 rest IH]; intros k db db' H i x s N C.
  - destruct i; discriminate N.
  - simpl in H. destruct i as [|i]; simpl in N.
    + injection N as ->.
      rewrite (call_identifier_truthy x s C) in H. cbn [negb] in H.
      apply mbind_inv in H.
      destruct H as [(db1 & u & S1 & H) | (e & _ & E)]; [|discriminate].
      apply process_extrinsic_step in S1.
      destruct S1 as (_ & _ & r & X & R & _ & Ch & Cn).
      unfold call_identifier in C. rewrite C in Ch. injection Ch as Ch.
      rewrite <- Ch in Cn.
      apply process_extrinsics_from_rows in H. destruct H as (G & _).
      split; [exact (count_call_grows _ _ _ G Cn)|].
      exists r. rewrite Nat.add_0_r. split; [|auto].
      apply (In_grows _ _ _ G). rewrite X. apply in_or_app. right. now left.
    + replace (k + S i)%nat with (S k + i)%nat by lia.
      destruct (truthy (getattr_value x0)); cbn [negb] in H.
      * apply mbind_inv in H.
        destruct H as [(db1 & u & _ & H) | (e & _ & E)]; [|discriminate].
        exact (IH _ _ _ H i x s N C).
      * exact (IH _ _ _ H i x s N C).
Qed.

(** A run of the loop that returns has met no extrinsic with a decoded
    value and a falsy identifier. *)
Lemma process_extrinsics_positive exts events b n :
  forall k db db',
    process_extrinsics_from k exts events b n db = (db', Ok tt) ->
    forall i x,
      nth_error exts i = Some x ->
      call_identifier x <> VStr EmptyString.
Proof.
  intros k db db' H i x N C. revert i k db H N.
  induction exts as [|x0 rest IH]; intros i k db H N; [destruct i; discriminate N|].
  simpl in H. destruct i as [|i]; simpl in N.
  - injection N as ->.
    rewrite (call_identifier_truthy x EmptyString C) in H. cbn [negb] in H.
    apply mbind_inv in H.
    destruct H as [(db1 & u & S1 & H) | (e & _ & E)]; [|discriminate].
    apply process_extrinsic_step in S1.
    destruct S1 as (_ & _ & r' & _ & _ & T & _).
    unfold call_identifier in C. rewrite C in T. discriminate T.
  - destruct (truthy (getattr_value x0)); cbn [negb] in H.
    + apply mbind_inv in H.
      destruct H as [(db1 & u & _ & H) | (e & _ & E)]; [|discriminate].
      exact (IH _ _ _ H N).
    + exact (IH _ _ _ H N).
Qed.

Lemma run_grows a db db' out : run a db = (db', out) -> grows db db'.
Proof.
  unfold run, ingest. rewrite mbind_lift.
  destruct (py_item _ "extrinsics") as [xv|e];
    [|intros [= <- _]; apply grows_refl].
  rewrite mbind_lift.
  destruct (py_iter xv) as [exts|e]; [|intros [= <- _]; apply grows_refl].
  rewrite mbind_lift.
  destruct (extract_block_timestamp exts) as [ts|e];
    [|intros [= <- _]; apply grows_refl].
  intro H. apply mbind_inv in H.
  destruct H as [(db0 & bi & C & H) | (e & C & _)].
  - apply create_block_record_state in C. destruct C as [-> _].
    apply process_extrinsics_from_rows in H. destruct H as (G & _).
    refine (grows_trans _ _ _ _ G).
    repeat split; cbn; eauto. exists []. now rewrite List.app_nil_r.
  - apply create_block_record_state in C. subst db'. apply grows_refl.
Qed.

Lemma run_all_grows l : forall db, grows db (run_all l db).
Proof.
  induction l as [|a l IH]; intro db; [apply grows_refl|].
  simpl. refine (grows_trans _ _ _ _ (IH _)).
  apply (run_grows a db _ (snd (run a db))). now destruct (run a db).
Qed.

(** C9.  Once a block number has been ingested, ingesting it again, at once
    or after any number of other ingestions, fails with the uniqueness
    conflict of the Block table and leaves the database exactly as it was:
    no Block or Extrinsic row is overwritten or duplicated.  With any other
    data fetched under the same number the run fails as well and writes
    nothing. *)
Theorem reingest_conflict (n : Z) (block : pyval) (events : list pyval)
    (block_hash : pyval) (db db1 : DB) (later : list ingestion) :
  ingest n block events block_hash db = (db1, Ok tt) ->
  (forall events',
     ingest n block events' block_hash (run_all later db1)
     = (run_all later db1, Raise IntegrityError))
  /\ (forall block' events' block_hash',
        exists e, ingest n block' events' block_hash' (run_all later db1)
                  = (run_all later db1, Raise e)).
Proof.
  intro H. apply ingest_ok_inv in H.
  destruct H as (xv & exts & ts & db0 & bi & X & I & Ts & C & P).
  assert (T : has_block_id (run_all later db1) n = true).
  { apply (has_block_id_grows _ _ _ (run_all_grows later db1)).
    pose proof (create_block_record_state _ _ _ _ _ _ _ C) as [-> B].
    apply process_extrinsics_from_rows in P. destruct P as (G & _).
    apply (has_block_id_grows _ _ _ G).
    rewrite has_block_id_app, B, Z.eqb_refl. apply orb_true_r. }
  split.
  - intro events'. unfold ingest. rewrite X, mbind_lift, I, mbind_lift, Ts, mbind_lift.
    unfold mbind. now rewrite (create_block_record_conflict _ _ _ _ _ _ _ _ C T).
  - intros. now apply ingest_taken.
Qed.

Lemma reingest_conflict_witness :
  run (sample_ingestion 7 "0xb7" sample_extrinsics) empty_db
  = (sample_ingested, Ok tt)
  /\ run (sample_ingestion 7 "0xb7" sample_extrinsics) (run_all sample_later sample_ingested)
     = (run_all sample_later sample_ingested, Raise IntegrityError).
Proof.
  split; [reflexivity|].
  exact (proj1 (reingest_conflict 7 (sample_block sample_extrinsics) sample_events
                  (VStr "0xb7") empty_db sample_ingested sample_later eq_refl)
               sample_events).
Defined.

(** What a returned ingestion has done for an extrinsic with a non-empty
    string identifier. *)
Lemma run_ok_reference a db db1 i x s :
  run a db = (db1, Ok tt) ->
  extrinsic_at (fetched_block a) i = Some x ->
  call_identifier x = VStr s ->
  count_call s db1 = 1%nat /\ references db1 (number a) i s.
Proof.
  unfold run, extrinsic_at. intros H A C. apply ingest_ok_inv in H.
  destruct H as (xv & exts & ts & db0 & bi & X & I & _ & Cr & P).
  rewrite X, I in A.
  apply create_block_record_state in Cr. destruct Cr as [_ B].
  destruct (process_extrinsics_from_call _ _ _ _ _ _ _ P i x s A C)
    as (Cn & r & In_r & (R1 & R2 & _) & Rc).
  split; [exact Cn|]. exists r. rewrite R2, B. auto.
Qed.

Lemma references_grows db db' n i s :
  grows db db' -> references db n i s -> references db' n i s.
Proof.
  intros G (r & I & R). exists r. split; [exact (In_grows _ _ _ G I) | exact R].
Qed.

(** C3.  Two ingested extrinsics whose call descriptors share a non-empty
    identifier leave exactly one Call row with that identifier, and the
    Extrinsic rows of both reference it, whether the two extrinsics sit in
    two blocks ingested one after the other or at two positions of one
    block, and whatever is ingested in between or afterwards.  (An
    ingestion that returns has met no empty identifier, so the identifier
    shared is non-empty.) *)
Theorem shared_call_row (s : string) (a : ingestion) (i : nat) (x : pyval)
    (db db1 : DB) :
  extrinsic_at (fetched_block a) i = Some x ->
  call_identifier x = VStr s ->
  run a db = (db1, Ok tt) ->
  s <> EmptyString
  /\ (forall (b : ingestion) (mid post : list ingestion) (j : nat) (y : pyval)
             (db2 : DB),
        extrinsic_at (fetched_block b) j = Some y ->
        call_identifier y = VStr s ->
        run b (run_all mid db1) = (db2, Ok tt) ->
        count_call s (run_all post db2) = 1%nat
        /\ references (run_all post db2) (number a) i s
        /\ references (run_all post db2) (number b) j s)
  /\ (forall (post : list ingestion) (j : nat) (y : pyval),
        extrinsic_at (fetched_block a) j = Some y ->
        call_identifier y = VStr s ->
        count_call s (run_all post db1) = 1%nat
        /\ references (run_all post db1) (number a) i s
        /\ references (run_all post db1) (number a) j s).
Proof.
  intros Ax Cx Ra.
  destruct (run_ok_reference a db db1 i x s Ra Ax Cx) as (C1 & R1).
  split; [|split].
  - intros ->. unfold run, extrinsic_at in *. apply ingest_ok_inv in Ra.
    destruct Ra as (xv & exts & ts & db0 & bi & X & I & _ & _ & P).
    rewrite X, I in Ax.
    apply (process_extrinsics_positive _ _ _ _ _ _ _ P i x Ax).
    exact Cx.
  - intros b mid post j y db2 By Cy Rb.
    destruct (run_ok_reference b _ db2 j y s Rb By Cy) as (C2 & R2).
    pose proof (run_all_grows post db2) as Gp.
    pose proof (run_grows _ _ _ _ Rb) as Gb.
    pose proof (run_all_grows mid db1) as Gm.
    split; [exact (count_call_grows _ _ _ Gp C2)|]. split.
    + apply (references_grows _ _ _ _ _ Gp), (references_grows _ _ _ _ _ Gb).
      exact (references_grows _ _ _ _ _ Gm R1).
    + exact (references_grows _ _ _ _ _ Gp R2).
  - intros post j y Ay Cy.
    destruct (run_ok_reference a db db1 j y s Ra Ay Cy) as (_ & R2).
    pose proof (run_all_grows post db1) as Gp.
    split; [exact (count_call_grows _ _ _ Gp C1)|]. split.
    + exact (references_grows _ _ _ _ _ Gp R1).
    + exact (references_grows _ _ _ _ _ Gp R2).
Qed.

Lemma shared_call_row_witness :
  (count_call "0x0702"
     (fst (run (sample_ingestion 8 "0xb8" [sample_extrinsic "0xc0" (VStr "0x0702")])
             sample_ingested)) = 1%nat
   /\ references
        (fst (run (sample_ingestion 8 "0xb8" [sample_extrinsic "0xc0" (VStr "0x0702")])
                sample_ingested)) 7 1 "0x0702"
   /\ references
        (fst (run (sample_ingestion 8 "0xb8" [sample_extrinsic "0xc0" (VStr "0x0702")])
                sample_ingested)) 8 0 "0x0702")
  /\ (count_call "0x0702" sample_ingested = 1%nat
      /\ references sample_ingested 7 1 "0x0702"
      /\ references sample_ingested 7 0 "0x0702").
Proof.
  destruct (shared_call_row "0x0702" (sample_ingestion 7 "0xb7" sample_extrinsics)
              1 (sample_extrinsic "0xa1" (VStr "0x0702")) empty_db sample_ingested
              eq_refl eq_refl eq_refl) as (_ & Two & One).
  split.
  - exact (Two (sample_ingestion 8 "0xb8" [sample_extrinsic "0xc0" (VStr "0x0702")])
             [] [] 0%nat (sample_extrinsic "0xc0" (VStr "0x0702")) _
             eq_refl eq_refl eq_refl).
  - exact (One [] 0%nat (sample_extrinsic "0xa0" (VStr "0x0702")) eq_refl eq_refl).
Defined.

(* ================================================================= *)
(** ** Missing identifiers and other anomalies *)

(** C5.  An extrinsic whose call descriptor has no identifier, or an empty
    one, gets no Call row; its Extrinsic row is refused by the Extrinsic
    table, whose [call_index] column is declared without [null=True]: the
    loop stops with [IntegrityError] and nothing is written. *)
Theorem absent_identifier_not_persisted :
  process_extrinsics [sample_no_identifier] sample_events sample_block_row 7 sample_db
  = (sample_db, Raise IntegrityError)
  /\ process_extrinsics [sample_extrinsic "0xd1" (VStr EmptyString)] sample_events
       sample_block_row 7 sample_db
     = (sample_db, Raise IntegrityError).
Proof. split; reflexivity. Qed.




(* ================================================================= *)
(** * Further properties of the script *)

(** ** Timestamp extraction: what is read and what is not *)

(** At a "Timestamp.set" call the scan ends: the rest of the sequence has
    no part in the result. *)
Lemma extract_block_timestamp_stop x rest :
  is_timestamp_set x = true ->
  extract_block_timestamp (x :: rest) = extract_block_timestamp [x].
Proof.
  unfold is_timestamp_set, call_of. intro N. simpl.
  destruct (getattr_value x) as [| | | | |d|] eqn:V; try discriminate.
  destruct (dict_lookup "call" d) as [call|] eqn:C; [|discriminate].
  destruct call as [| | | | |c|]; try discriminate.
  destruct (dict_lookup "call_function" c) as [f|] eqn:F; [|discriminate].
  destruct (dict_lookup "call_module" c) as [m|] eqn:Md; [|discriminate].
  apply andb_true_iff in N. destruct N as [N1 N2].
  assert (T : truthy (VDict d) = true) by (destruct d; [discriminate|reflexivity]).
  rewrite T. simpl. rewrite C. simpl. rewrite F. simpl. rewrite N1.
  rewrite Md. simpl. rewrite N2.
  destruct (dict_lookup "call_args" c) as [args|]; [|reflexivity]. simpl.
  destruct (py_item0 args) as [a0|]; [|reflexivity]. simpl.
  destruct (py_item a0 "value") as [v|]; [|reflexivity]. simpl.
  destruct (py_millis v) as [ms|]; [|reflexivity]. simpl.
  now destruct (fromtimestamp_millis ms).
Qed.

Lemma extract_block_timestamp_pass pre rest :
  forallb extrinsic_shaped pre = true ->
  forallb (fun x => negb (is_timestamp_set x)) pre = true ->
  extract_block_timestamp (pre ++ rest) = extract_block_timestamp rest.
Proof.
  induction pre as [|p pre IH]; intros S N; [reflexivity|].
  simpl in S, N. apply andb_true_iff in S. apply andb_true_iff in N.
  destruct S as [S1 S2]. destruct N as [N1 N2]. apply negb_true_iff in N1.
  simpl app. rewrite (extract_block_timestamp_skip p _ S1 N1). auto.
Qed.

(** The block timestamp is decided by the first "Timestamp.set" extrinsic
    alone: the extrinsics after it are never read, whatever their shape,
    and the ones before it, being other calls, do not matter. *)
Theorem timestamp_decided_by_first_set (pre post : list pyval) (x : pyval) :
  forallb extrinsic_shaped pre = true ->
  forallb (fun p => negb (is_timestamp_set p)) pre = true ->
  is_timestamp_set x = true ->
  extract_block_timestamp (pre ++ x :: post) = extract_block_timestamp [x].
Proof.
  intros S N T. rewrite (extract_block_timestamp_pass pre _ S N).
  now apply extract_block_timestamp_stop.
Qed.

Lemma timestamp_decided_by_first_set_witness :
  extract_block_timestamp
    ([VObj None; sample_extrinsic "0xaa" (VStr "0x0702")]
       ++ sample_timestamp_set "0x01" 1712345678901
       :: [VObj (Some (VStr "call")); VInt 3])
  = extract_block_timestamp [sample_timestamp_set "0x01" 1712345678901].
Proof.
  exact (timestamp_decided_by_first_set
           [VObj None; sample_extrinsic "0xaa" (VStr "0x0702")]
           [VObj (Some (VStr "call")); VInt 3]
           (sample_timestamp_set "0x01" 1712345678901)
           eq_refl eq_refl eq_refl).
Defined.

(** A "Timestamp.set" call whose argument cannot be read stops the scan
    with the exception of the failing access: no argument list is a
    [KeyError], an empty one an [IndexError], a first argument without
    value a [KeyError], a value that is no number a [TypeError]. *)
Theorem timestamp_set_unreadable (x : pyval) (rest : list pyval)
    (c : list (string * pyval)) :
  is_timestamp_set x = true ->
  call_of x = Some c ->
  (dict_lookup "call_args" c = None ->
   extract_block_timestamp (x :: rest) = Raise KeyError)
  /\ (dict_lookup "call_args" c = Some (VList []) ->
      extract_block_timestamp (x :: rest) = Raise IndexError)
  /\ (forall a args,
        dict_lookup "call_args" c = Some (VList (VDict a :: args)) ->
        dict_lookup "value" a = None ->
        extract_block_timestamp (x :: rest) = Raise KeyError)
  /\ (forall v,
        first_argument x = Some v ->
        py_millis v = Raise TypeError ->
        extract_block_timestamp (x :: rest) = Raise TypeError).
Proof.
  intros N Cx. rewrite (extract_block_timestamp_stop x rest N).
  unfold first_argument. rewrite Cx.
  unfold is_timestamp_set in N. rewrite Cx in N. unfold call_of in Cx.
  simpl.
  destruct (getattr_value x) as [| | | | |d|] eqn:V; try discriminate.
  destruct (dict_lookup "call" d) as [call|] eqn:C; [|discriminate].
  destruct call as [| | | | |c0|]; try discriminate. injection Cx as ->.
  destruct (dict_lookup "call_function" c) as [f|] eqn:F; [|discriminate].
  destruct (dict_lookup "call_module" c) as [m|] eqn:Md; [|discriminate].
  apply andb_true_iff in N. destruct N as [N1 N2].
  assert (T : truthy (VDict d) = true) by (destruct d; [discriminate|reflexivity]).
  rewrite T. simpl. rewrite C. simpl. rewrite F. simpl. rewrite N1.
  rewrite Md. simpl. rewrite N2.
  repeat split.
  - now intros ->.
  - now intros ->.
  - intros a args -> A. simpl. now rewrite A.
  - intros v A P. destruct (dict_lookup "call_args" c) as [args|]; [|discriminate].
    destruct args as [| | | |[|[| | | | |a|] args]| |]; try discriminate.
    simpl. rewrite A. simpl. now rewrite P.
Qed.

Lemma timestamp_set_unreadable_witness :
  extract_block_timestamp
    [VObj (Some (VDict [("call",
                         VDict [("call_function", VStr "set");
                                ("call_module", VStr "Timestamp");
                                ("call_args", VList [])])]));
     sample_timestamp_set "0x01" 1700000000000]
  = Raise IndexError.
Proof.
  exact (proj1 (proj2
    (timestamp_set_unreadable
       (VObj (Some (VDict [("call",
                            VDict [("call_function", VStr "set");
                                   ("call_module", VStr "Timestamp");
                                   ("call_args", VList [])])])))
       [sample_timestamp_set "0x01" 1700000000000]
       [("call_function", VStr "set"); ("call_module", VStr "Timestamp");
        ("call_args", VList [])]
       eq_refl eq_refl)) eq_refl).
Defined.

(** The scan subscripts the call directly.  A call without [call_function]
    stops it with [KeyError], also when a "Timestamp.set" follows.  The
    module is read only when the function is "set": any other call is
    passed over without its module, and a "set" without module is a
    [KeyError]. *)
Theorem timestamp_scan_keys (x : pyval) (rest : list pyval)
    (d c : list (string * pyval)) :
  getattr_value x = VDict d ->
  dict_lookup "call" d = Some (VDict c) ->
  (dict_lookup "call_function" c = None ->
   extract_block_timestamp (x :: rest) = Raise KeyError)
  /\ (forall f,
        dict_lookup "call_function" c = Some f ->
        py_eq_str f "set" = false ->
        extract_block_timestamp (x :: rest) = extract_block_timestamp rest)
  /\ (dict_lookup "call_function" c = Some (VStr "set") ->
      dict_lookup "call_module" c = None ->
      extract_block_timestamp (x :: rest) = Raise KeyError).
Proof.
  intros V C. simpl. rewrite V.
  assert (T : truthy (VDict d) = true) by (destruct d; [discriminate|reflexivity]).
  rewrite T. simpl. rewrite C. simpl. repeat split.
  - now intros ->.
  - intros f -> E. simpl. now rewrite E.
  - intros -> ->. reflexivity.
Qed.

Lemma timestamp_scan_keys_witness :
  extract_block_timestamp
    [VObj (Some (VDict [("call", VDict [("call_function", VStr "transfer")])]));
     sample_timestamp_set "0x01" 1700000000000]
  = extract_block_timestamp [sample_timestamp_set "0x01" 1700000000000].
Proof.
  exact (proj1 (proj2
    (timestamp_scan_keys
       (VObj (Some (VDict [("call", VDict [("call_function", VStr "transfer")])])))
       [sample_timestamp_set "0x01" 1700000000000]
       [("call", VDict [("call_function", VStr "transfer")])]
       [("call_function", VStr "transfer")] eq_refl eq_refl))
    (VStr "transfer") eq_refl eq_refl).
Defined.

(** ** Event correlation: when it returns, and how it composes *)

Lemma extract_events_loop_cases idx event rest acc succ :
  (event_decodable idx event = true
   /\ exists acc' succ',
        extract_events_loop (event :: rest) idx acc succ
        = extract_events_loop rest idx acc' succ')
  \/ (event_decodable idx event = false
      /\ (extract_events_loop (event :: rest) idx acc succ = Raise KeyError
          \/ extract_events_loop (event :: rest) idx acc succ = Raise AttributeError)).
Proof.
  unfold event_decodable. cbn [extract_events_loop]. cbv zeta.
  destruct (truthy (getattr_value event)) eqn:T; [|left; eauto].
  destruct (getattr_value event) as [| | | | |d|] eqn:V;
    try (right; split; [reflexivity | right; reflexivity]).
  change (py_get (VDict d) "extrinsic_idx" VNone)
    with (Ok (event_position (VDict d))).
  cbn [rbind].
  destruct (py_eq_int (event_position (VDict d)) idx); [|left; eauto].
  unfold py_item.
  destruct (dict_lookup "event_id" d) as [eid|]; cbn [rbind].
  - left. split; [reflexivity|]. eauto.
  - right. split; [reflexivity | left; reflexivity].
Qed.

Lemma extract_events_loop_decodable idx events :
  forall acc succ,
    if forallb (event_decodable idx) events
    then exists r, extract_events_loop events idx acc succ = Ok r
    else extract_events_loop events idx acc succ = Raise KeyError
         \/ extract_events_loop events idx acc succ = Raise AttributeError.
Proof.
  induction events as [|event rest IH]; intros acc succ; [simpl; eauto|].
  cbn [forallb].
  destruct (extract_events_loop_cases idx event rest acc succ)
    as [(D & acc' & succ' & E) | (D & E)]; rewrite D; cbn [andb].
  - rewrite E. apply IH.
  - exact E.
Qed.

(** Event correlation returns exactly when every event is without decoded
    value or is a dictionary that has its identifier if it is of the
    position asked for.  An event of another position may lack its
    identifier.  Otherwise the first event in the way raises: [KeyError]
    for the missing identifier, [AttributeError] for a decoded value that
    is no dictionary. *)
Theorem extract_extrinsic_events_outcome (events : list pyval) (idx : Z) :
  if forallb (event_decodable idx) events
  then extract_extrinsic_events events idx
       = Ok (correlated events idx, contains_success (correlated events idx))
  else extract_extrinsic_events events idx = Raise KeyError
       \/ extract_extrinsic_events events idx = Raise AttributeError.
Proof.
  unfold extract_extrinsic_events.
  pose proof (extract_events_loop_decodable idx events [] false) as H.
  destruct (forallb (event_decodable idx) events); [|exact H].
  destruct H as ([evs ok] & H). rewrite H.
  apply extract_events_loop_sound in H. destruct H as [-> ->]. reflexivity.
Qed.

Lemma extract_events_loop_app idx e1 :
  forall e2 acc succ,
    extract_events_loop (e1 ++ e2) idx acc succ
    = rbind (extract_events_loop e1 idx acc succ)
            (fun r => extract_events_loop e2 idx (fst r) (snd r)).
Proof.
  induction e1 as [|event rest IH]; intros e2 acc succ; [reflexivity|].
  cbn [app extract_events_loop]. cbv zeta.
  destruct (truthy (getattr_value event)); [|apply IH].
  destruct (py_get (getattr_value event) "extrinsic_idx" VNone) as [pos|];
    [|reflexivity].
  cbn [rbind]. destruct (py_eq_int pos idx); [|apply IH].
  destruct (py_item (getattr_value event) "event_id") as [eid|]; [|reflexivity].
  cbn [rbind]. apply IH.
Qed.

(** The accumulators the loop starts from are carried through. *)
Lemma extract_events_loop_shift idx events :
  forall acc succ,
    extract_events_loop events idx acc succ
    = match extract_events_loop events idx [] false with
      | Ok (l, s) => Ok (acc ++ l, succ || s)
      | Raise e => Raise e
      end.
Proof.
  induction events as [|event rest IH]; intros acc succ.
  - simpl. now rewrite List.app_nil_r, orb_false_r.
  - cbn [extract_events_loop]. cbv zeta.
    destruct (truthy (getattr_value event)); [|apply IH].
    destruct (py_get (getattr_value event) "extrinsic_idx" VNone) as [pos|];
      [|reflexivity].
    cbn [rbind]. destruct (py_eq_int pos idx); [|apply IH].
    destruct (py_item (getattr_value event) "event_id") as [eid|]; [|reflexivity].
    cbn [rbind]. rewrite IH. rewrite (IH ([] ++ [getattr_value event])).
    destruct (extract_events_loop rest idx [] false) as [[l s]|e]; [|reflexivity].
    rewrite <- List.app_assoc. cbn [app]. f_equal. f_equal.
    destruct (py_eq_str eid "ExtrinsicSuccess"); cbn [orb];
      [now rewrite orb_true_r | reflexivity].
Qed.

(** Correlating over two event lists one after the other is correlating
    over each: the event lists are concatenated and the success flags
    joined; an exception in the first list, else in the second, is the
    outcome. *)
Theorem extract_extrinsic_events_app (e1 e2 : list pyval) (idx : Z) :
  extract_extrinsic_events (e1 ++ e2) idx
  = match extract_extrinsic_events e1 idx with
    | Raise e => Raise e
    | Ok (l1, s1) =>
        match extract_extrinsic_events e2 idx with
        | Raise e => Raise e
        | Ok (l2, s2) => Ok (l1 ++ l2, s1 || s2)
        end
    end.
Proof.
  unfold extract_extrinsic_events. rewrite extract_events_loop_app.
  destruct (extract_events_loop e1 idx [] false) as [[l1 s1]|e]; [|reflexivity].
  cbn [rbind fst snd]. apply extract_events_loop_shift.
Qed.

(** An event is attributed to one position at most: what two correlations
    over the same events return for different positions is disjoint. *)
Theorem correlated_positions_disjoint (events : list pyval) (i j : Z)
    (li lj : list pyval) (si sj : bool) (v : pyval) :
  extract_extrinsic_events events i = Ok (li, si) ->
  extract_extrinsic_events events j = Ok (lj, sj) ->
  i <> j ->
  In v li -> ~ In v lj.
Proof.
  unfold extract_extrinsic_events. intros Hi Hj N Ii Ij.
  apply extract_events_loop_sound in Hi. apply extract_events_loop_sound in Hj.
  destruct Hi as [-> _]. destruct Hj as [-> _]. cbn [app] in Ii, Ij.
  apply correlated_In in Ii. apply correlated_In in Ij.
  destruct Ii as (_ & _ & Pi). destruct Ij as (_ & _ & Pj).
  unfold py_eq_int in Pi, Pj.
  destruct (event_position v); try discriminate;
    apply Z.eqb_eq in Pi; apply Z.eqb_eq in Pj; congruence.
Qed.

Lemma correlated_positions_disjoint_witness :
  ~ In (VDict [("extrinsic_idx", VInt 1); ("event_id", VStr "Transfer")])
       (correlated sample_events 0).
Proof.
  apply (correlated_positions_disjoint sample_events 1 0
           (correlated sample_events 1) (correlated sample_events 0) true false
           (VDict [("extrinsic_idx", VInt 1); ("event_id", VStr "Transfer")])
           eq_refl eq_refl).
  - discriminate.
  - simpl. auto.
Defined.

(** ** Call details: missing parts and the scan for the tag *)

(** The edges of call decoding.  Whenever it returns, the descriptor is
    what the call holds under its three keys, whatever the arguments are.
    An extrinsic value without call yields an all-absent descriptor and
    tag; so does, for the tag, a call without argument list.  A value or
    a call that is no dictionary is an [AttributeError], an argument list
    that is [None] a [TypeError]. *)
Theorem extract_extrinsic_details_edges (v : pyval) :
  (forall ty tag, extract_extrinsic_details v = Ok (ty, tag) -> ty = call_descriptor v)
  /\ (forall d, v = VDict d -> dict_lookup "call" d = None ->
                extract_extrinsic_details v = Ok ((VNone, VNone, VNone), VNone))
  /\ (forall d c, v = VDict d -> dict_lookup "call" d = Some (VDict c) ->
                  dict_lookup "call_args" c = None ->
                  extract_extrinsic_details v = Ok (call_descriptor v, VNone))
  /\ ((forall d, v <> VDict d) -> extract_extrinsic_details v = Raise AttributeError)
  /\ (forall d c, v = VDict d -> dict_lookup "call" d = Some c ->
                  (forall d', c <> VDict d') ->
                  extract_extrinsic_details v = Raise AttributeError)
  /\ (forall d c, v = VDict d -> dict_lookup "call" d = Some (VDict c) ->
                  dict_lookup "call_args" c = Some VNone ->
                  extract_extrinsic_details v = Raise TypeError).
Proof.
  split; [|split; [|split; [|split; [|split]]]].
  - intros ty tag H. now apply extract_extrinsic_details_inv in H.
  - intros d -> C. unfold extract_extrinsic_details. cbn [py_get]. now rewrite C.
  - intros d c -> C A. unfold extract_extrinsic_details, call_descriptor, call_object.
    cbn [py_get]. rewrite C. cbn [rbind py_get]. rewrite A. reflexivity.
  - intro N. destruct v; try reflexivity. now contradiction (N d).
  - intros d c -> C N. unfold extract_extrinsic_details. cbn [py_get]. rewrite C.
    cbn [rbind]. destruct c; try reflexivity. now contradiction (N d0).
  - intros d c -> C A. unfold extract_extrinsic_details. cbn [py_get]. rewrite C.
    cbn [rbind py_get]. now rewrite A.
Qed.

Lemma extract_extrinsic_details_edges_witness :
  extract_extrinsic_details (VDict [("extrinsic_hash", VStr "0xd4")])
  = Ok ((VNone, VNone, VNone), VNone)
  /\ extract_extrinsic_details (VStr "0xd4") = Raise AttributeError.
Proof.
  split.
  - exact (proj1 (proj2 (extract_extrinsic_details_edges
                           (VDict [("extrinsic_hash", VStr "0xd4")])))
                 _ eq_refl eq_refl).
  - apply (proj1 (proj2 (proj2 (proj2
             (extract_extrinsic_details_edges (VStr "0xd4")))))).
    intros d H. discriminate H.
Defined.

Lemma next_netuid_scan pre a post :
  forallb other_argument pre = true ->
  dict_lookup "name" a = Some (VStr "netuid") ->
  next_netuid (pre ++ VDict a :: post)
  = match dict_lookup "value" a with Some x => Ok x | None => Raise KeyError end.
Proof.
  intros P N. induction pre as [|p pre IH].
  - cbn [app next_netuid py_item]. rewrite N. reflexivity.
  - simpl in P. apply andb_true_iff in P. destruct P as [P1 P2].
    cbn [app next_netuid]. unfold other_argument in P1.
    destruct p as [| | | | |dp|]; try discriminate. cbn [py_item].
    destruct (dict_lookup "name" dp) as [name|]; [|discriminate].
    cbn [rbind]. apply negb_true_iff in P1. rewrite P1. auto.
Qed.

(** The tag is taken at the first argument named "netuid": the arguments
    after it are never read, whatever their shape; the arguments before it
    need a name, not a value.  If that argument has no value the outcome is
    a [KeyError]; so it is if an argument before it has no name. *)
Theorem netuid_scan_stops (d c a : list (string * pyval)) (pre post : list pyval) :
  dict_lookup "call" d = Some (VDict c) ->
  dict_lookup "call_args" c = Some (VList (pre ++ VDict a :: post)) ->
  forallb other_argument pre = true ->
  (dict_lookup "name" a = Some (VStr "netuid") ->
   extract_extrinsic_details (VDict d)
   = match dict_lookup "value" a with
     | Some x => Ok (call_descriptor (VDict d), x)
     | None => Raise KeyError
     end)
  /\ (dict_lookup "name" a = None ->
      extract_extrinsic_details (VDict d) = Raise KeyError).
Proof.
  intros C A P.
  unfold extract_extrinsic_details, call_descriptor, call_object.
  cbn [py_get]. rewrite C. cbn [rbind py_get]. rewrite A. cbn [rbind py_iter].
  split; intro N.
  - rewrite (next_netuid_scan pre a post P N).
    now destruct (dict_lookup "value" a).
  - assert (E : next_netuid (pre ++ VDict a :: post) = Raise KeyError).
    { clear A. induction pre as [|p pre IH].
      - cbn [app next_netuid py_item]. now rewrite N.
      - simpl in P. apply andb_true_iff in P. destruct P as [P1 P2].
        cbn [app next_netuid]. unfold other_argument in P1.
        destruct p as [| | | | |dp|]; try discriminate. cbn [py_item].
        destruct (dict_lookup "name" dp) as [name|]; [|discriminate].
        cbn [rbind]. apply negb_true_iff in P1. rewrite P1. auto. }
    now rewrite E.
Qed.

Lemma netuid_scan_stops_witness :
  extract_extrinsic_details
    (VDict [("call",
             VDict [("call_index", VStr "0x0702");
                    ("call_args",
                     VList ([VDict [("name", VStr "hotkey")]]
                              ++ VDict [("name", VStr "netuid"); ("value", VInt 9)]
                              :: [VInt 0; VDict [("name", VStr "netuid");
                                                 ("value", VInt 1)]]))])])
  = Ok ((VStr "0x0702", VNone, VNone), VInt 9).
Proof.
  exact (proj1 (netuid_scan_stops
    [("call",
      VDict [("call_index", VStr "0x0702");
             ("call_args",
              VList ([VDict [("name", VStr "hotkey")]]
                       ++ VDict [("name", VStr "netuid"); ("value", VInt 9)]
                       :: [VInt 0; VDict [("name", VStr "netuid");
                                          ("value", VInt 1)]]))])]
    [("call_index", VStr "0x0702");
     ("call_args",
      VList ([VDict [("name", VStr "hotkey")]]
               ++ VDict [("name", VStr "netuid"); ("value", VInt 9)]
               :: [VInt 0; VDict [("name", VStr "netuid"); ("value", VInt 1)]]))]
    [("name", VStr "netuid"); ("value", VInt 9)]
    [VDict [("name", VStr "hotkey")]]
    [VInt 0; VDict [("name", VStr "netuid"); ("value", VInt 1)]]
    eq_refl eq_refl eq_refl) eq_refl).
Defined.

(** ** The Call table: rows are created once and never updated *)




(** An identifier that is an integer is stored as its decimal string but
    tested against the stored strings as it is: its first sight creates
    the row, every later sight tries to create it again and meets the
    uniqueness conflict. *)
Theorem integer_identifier_conflict (z : Z) (cf cm : pyval) (f m : option string)
    (db : DB) :
  z <> 0 ->
  to_char cf = Ok f ->
  to_char cm = Ok m ->
  call_index_instance_for (VInt z, cf, cm) db
  = if has_call_index db (str_of_Z z)
    then (db, Raise IntegrityError)
    else (add_call db (Call.mk (str_of_Z z) f m),
          Ok (Some (Call.mk (str_of_Z z) f m))).
Proof.
  intros N F Md. unfold call_index_instance_for.
  assert (T : truthy (VInt z) = true).
  { simpl. destruct (Z.eqb_spec z 0); [contradiction | reflexivity]. }
  rewrite T.
  assert (E : forall l, existsb (fun s => py_eq_str (VInt z) s) l = false)
    by (induction l; auto).
  unfold mbind, values_list. rewrite E. cbn [negb]. unfold ret.
  rewrite Call_objects_create_spec.
  unfold Call_row. cbn [to_char rbind not_null]. rewrite F, Md. cbn [rbind].
  destruct (has_call_index db (str_of_Z z)) eqn:H; cbn [unique_check rbind];
    [reflexivity|].
  unfold Call_objects_get. cbn [to_char].
  unfold add_call at 1. cbn [calls]. rewrite filter_app.
  apply has_call_index_count in H. unfold count_call in H.
  apply List.length_zero_iff_nil in H. rewrite H.
  cbn [filter Call.call_index]. rewrite String.eqb_refl. reflexivity.
Qed.

Lemma integer_identifier_conflict_witness :
  call_index_instance_for (VInt 7, VStr "set", VStr "Timestamp")
    (add_call sample_db (Call.mk "7" (Some "set") (Some "Timestamp")))
  = (add_call sample_db (Call.mk "7" (Some "set") (Some "Timestamp")),
     Raise IntegrityError).
Proof.
  exact (integer_identifier_conflict 7 (VStr "set") (VStr "Timestamp")
           (Some "set") (Some "Timestamp")
           (add_call sample_db (Call.mk "7" (Some "set") (Some "Timestamp")))
           ltac:(discriminate) eq_refl eq_refl).
Defined.

(** ** The loop: composition, abortion, refused rows *)

Lemma mbind_assoc {A B C} (m : M A) (f : A -> M B) (g : B -> M C) db :
  mbind (mbind m f) g db = mbind m (fun x => mbind (f x) g) db.
Proof.
  unfold mbind. destruct (m db) as [db1 [a|e]]; reflexivity.
Qed.

Lemma process_extrinsics_from_app l1 l2 events b n :
  forall k db,
    process_extrinsics_from k (l1 ++ l2) events b n db
    = mbind (process_extrinsics_from k l1 events b n)
            (fun _ => process_extrinsics_from (k + List.length l1) l2 events b n) db.
Proof.
  induction l1 as [|x l1 IH]; intros k db.
  - cbn [app process_extrinsics_from List.length]. rewrite Nat.add_0_r. reflexivity.
  - cbn [app process_extrinsics_from List.length].
    replace (k + S (List.length l1))%nat with (S k + List.length l1)%nat by lia.
    destruct (negb (truthy (getattr_value x))); [apply IH|].
    rewrite mbind_assoc. unfold mbind at 1 2.
    destruct (process_extrinsic k (getattr_value x) events b n db) as [db1 [u|e]];
      [apply IH | reflexivity].
Qed.

(** Processing two runs of extrinsics one after the other is processing
    the first and, if that returns, the second with the positions counted
    on; if the first raises, the second is not touched. *)
Theorem process_extrinsics_app (l1 l2 events : list pyval) (b : Block.t) (n : Z)
    (db : DB) :
  process_extrinsics (l1 ++ l2) events b n db
  = match process_extrinsics l1 events b n db with
    | (db1, Ok _) => process_extrinsics_from (List.length l1) l2 events b n db1
    | (db1, Raise e) => (db1, Raise e)
    end.
Proof.
  unfold process_extrinsics. rewrite process_extrinsics_from_app. reflexivity.
Qed.

(** An exception at one extrinsic ends the loop: the extrinsics after it
    are not processed, and the rows written for the extrinsics before it
    stay in the database, one for each that has a decoded value. *)
Theorem loop_aborts_without_rollback
    (pre post events : list pyval) (x : pyval) (b : Block.t) (n : Z)
    (db db1 db2 : DB) (e : exn) :
  process_extrinsics pre events b n db = (db1, Ok tt) ->
  truthy (getattr_value x) = true ->
  process_extrinsic (List.length pre) (getattr_value x) events b n db1
  = (db2, Raise e) ->
  process_extrinsics (pre ++ x :: post) events b n db = (db2, Raise e)
  /\ exists new,
       extrinsics db2 = extrinsics db ++ new
       /\ List.length new = List.length (persisted_positions pre).
Proof.
  intros P T S. split.
  - rewrite process_extrinsics_app, P. cbn [process_extrinsics_from].
    rewrite T. cbn [negb]. unfold mbind. now rewrite S.
  - apply process_extrinsic_step in S. destruct S as (_ & _ & X2).
    apply process_extrinsics_from_rows in P.
    destruct P as (_ & _ & done & todo & new & Pp & X1 & F & O).
    rewrite (O eq_refl), List.app_nil_r in Pp.
    exists new. rewrite X2. split; [exact X1|].
    unfold persisted_positions. rewrite Pp. symmetry.
    exact (Forall2_length F).
Qed.

Lemma loop_aborts_without_rollback_witness :
  process_extrinsics
    ([sample_extrinsic "0xa0" (VStr "0x0702")]
       ++ sample_no_identifier :: [sample_extrinsic "0xa2" (VStr "0x0600")])
    sample_events sample_block_row 7 sample_db
  = (fst (process_extrinsics [sample_extrinsic "0xa0" (VStr "0x0702")]
            sample_events sample_block_row 7 sample_db),
     Raise IntegrityError).
Proof.
  exact (proj1 (loop_aborts_without_rollback
                  [sample_extrinsic "0xa0" (VStr "0x0702")]
                  [sample_extrinsic "0xa2" (VStr "0x0600")] sample_events
                  sample_no_identifier sample_block_row 7 sample_db _ _
                  IntegrityError eq_refl eq_refl eq_refl)).
Defined.

Lemma row_for_hash db v tag b n idx ci ok evs r :
  row_for db v tag b n idx ci ok evs = Ok r ->
  to_char (dict_field v "extrinsic_hash") = Ok (Some (Extrinsic.hash r))
  /\ has_extrinsic_hash db (Extrinsic.hash r) = false
  /\ has_block_id db (Extrinsic.block r) = true
  /\ has_call_index db (Extrinsic.call_index r) = true.
Proof.
  unfold row_for, Extrinsic_row. intro H.
  destruct (to_integer tag) as [nu|]; [|discriminate H]. cbn [rbind] in H.
  destruct (to_char (dict_field v "extrinsic_hash")) as [h|]; [|discriminate H].
  cbn [rbind] in H.
  destruct (to_char (dict_field v "address")) as [ad|]; [|discriminate H].
  cbn [rbind] in H.
  destruct (to_json (dict_field v "signature")) as [sg|]; [|discriminate H].
  cbn [rbind] in H.
  destruct (to_integer (dict_field v "tip")) as [tp|]; [|discriminate H].
  cbn [rbind] in H.
  destruct (to_integer (dict_field v "nonce")) as [nc|]; [|discriminate H].
  cbn [rbind] in H.
  destruct (to_char (dict_field v "era")) as [er|]; [|discriminate H].
  cbn [rbind] in H.
  destruct (to_json (dict_field (call_object v) "call_args")) as [ca|];
    [|discriminate H].
  cbn [rbind] in H.
  destruct (to_json (VList evs)) as [ev|]; [|discriminate H].
  cbn [rbind] in H.
  destruct (db_integer_opt nu) as [nu'|] eqn:D1; [|discriminate H].
  apply db_integer_opt_inv in D1. subst nu'. cbn [rbind] in H.
  destruct (db_integer_opt tp) as [tp'|] eqn:D2; [|discriminate H].
  apply db_integer_opt_inv in D2. subst tp'. cbn [rbind] in H.
  destruct (db_integer_opt nc) as [nc'|] eqn:D3; [|discriminate H].
  apply db_integer_opt_inv in D3. subst nc'. cbn [rbind] in H.
  destruct h as [h|]; [|discriminate H]. cbn [not_null rbind] in H.
  destruct ci as [c|]; [|discriminate H]. cbn [option_map not_null rbind] in H.
  destruct (has_extrinsic_hash db h) eqn:U; [discriminate H|].
  cbn [unique_check rbind] in H.
  destruct (has_block_id db (Block.block_id b)) eqn:Rb; [|discriminate H].
  cbn [references_check rbind] in H.
  destruct (has_call_index db (Call.call_index c)) eqn:Rc; [|discriminate H].
  cbn [references_check rbind] in H.
  injection H as <-. cbn. auto.
Qed.

(** One turn of the loop that returned, taken apart. *)
Lemma process_extrinsic_ok_inv idx v events b n db db' :
  process_extrinsic idx v events b n db = (db', Ok tt) ->
  exists evs ok ty tag db1 ci r,
    extract_extrinsic_events events (Z.of_nat idx) = Ok (evs, ok)
    /\ extract_extrinsic_details v = Ok (ty, tag)
    /\ call_index_instance_for ty db = (db1, Ok ci)
    /\ row_for db1 v tag b n idx ci ok evs = Ok r
    /\ db' = add_extrinsic db1 r.
Proof.
  rewrite process_extrinsic_spec.
  destruct (extract_extrinsic_events events (Z.of_nat idx)) as [[evs ok]|e];
    [|discriminate].
  destruct (extract_extrinsic_details v) as [[ty tag]|e]; [|discriminate].
  destruct (call_index_instance_for ty db) as [db1 [ci|e]] eqn:C; [|discriminate].
  destruct (row_for db1 v tag b n idx ci ok evs) as [r|e] eqn:R; [|discriminate].
  intros [= <-]. exists evs, ok, ty, tag, db1, ci, r. auto 6.
Qed.

(** The hash column of the Extrinsic table takes no [None] and no value
    twice: an extrinsic whose hash is absent (as for an unsigned
    extrinsic), or is the hash of a row already there, is not persisted and
    its exception ends the loop. *)
Theorem extrinsic_hash_required_and_unique
    (idx : nat) (v : pyval) (events : list pyval) (b : Block.t) (n : Z)
    (db db' : DB) (out : result unit) :
  dict_field v "extrinsic_hash" = VNone
  \/ (exists h, dict_field v "extrinsic_hash" = VStr h
                /\ has_extrinsic_hash db h = true) ->
  process_extrinsic idx v events b n db = (db', out) ->
  (exists e, out = Raise e) /\ extrinsics db' = extrinsics db.
Proof.
  intros Hh H. destruct out as [[]|e].
  - exfalso. apply process_extrinsic_ok_inv in H.
    destruct H as (evs & ok & ty & tag & db1 & ci & r & _ & _ & C & R & _).
    apply call_index_instance_for_grows in C. destruct C as (_ & _ & X).
    apply row_for_hash in R. destruct R as (Ch & U & _).
    destruct Hh as [Hn | (h & Hs & Ht)].
    + rewrite Hn in Ch. discriminate Ch.
    + rewrite Hs in Ch. injection Ch as ->.
      unfold has_extrinsic_hash in *. rewrite X in U. congruence.
  - split; [eauto|]. apply process_extrinsic_step in H. tauto.
Qed.

Lemma extrinsic_hash_required_and_unique_witness :
  process_extrinsic 0 (getattr_value sample_unsigned) sample_events
    sample_block_row 7 sample_db
  = (add_call sample_db
       (Call.mk "0x0900" (Some "add_stake") (Some "SubtensorModule")),
     Raise IntegrityError)
  /\ extrinsics
       (add_call sample_db
          (Call.mk "0x0900" (Some "add_stake") (Some "SubtensorModule")))
     = extrinsics sample_db.
Proof.
  split; [reflexivity|].
  exact (proj2 (extrinsic_hash_required_and_unique 0 (getattr_value sample_unsigned)
                  sample_events sample_block_row 7 sample_db _ _
                  (or_introl eq_refl) eq_refl)).
Defined.

(** The Call row is written before the Extrinsic row and is not taken
    back: when the Extrinsic row of a first-seen identifier is refused, the
    exception leaves the new Call row in the database. *)
Theorem call_row_outlives_refusal
    (d c : list (string * pyval)) (s : string) (f m : option string)
    (idx : nat) (events : list pyval) (b : Block.t) (n : Z) (db : DB)
    (evs : list pyval) (ok : bool) (e : exn) :
  dict_lookup "call" d = Some (VDict c) ->
  dict_lookup "call_index" c = Some (VStr s) ->
  s <> EmptyString ->
  has_call_index db s = false ->
  call_shaped (VDict d) = true ->
  to_char (dict_field (VDict c) "call_function") = Ok f ->
  to_char (dict_field (VDict c) "call_module") = Ok m ->
  extract_extrinsic_events events (Z.of_nat idx) = Ok (evs, ok) ->
  row_for (add_call db (Call.mk s f m)) (VDict d)
    (netuid_of (call_arguments (VDict d))) b n idx (Some (Call.mk s f m)) ok evs
  = Raise e ->
  process_extrinsic idx (VDict d) events b n db
  = (add_call db (Call.mk s f m), Raise e).
Proof.
  intros Hc Hi Hs Hn Hshape Hf Hm He Hr.
  pose proof (extract_extrinsic_details_shaped _ Hshape) as D.
  assert (O : call_object (VDict d) = VDict c)
    by (unfold call_object; now rewrite Hc).
  assert (Dsc : call_descriptor (VDict d)
                = (VStr s, dict_field (VDict c) "call_function",
                   dict_field (VDict c) "call_module")).
  { unfold call_descriptor. rewrite O. unfold dict_field at 1. now rewrite Hi. }
  rewrite process_extrinsic_spec, He, D, Dsc.
  assert (U : (count_call s db <= 1)%nat)
    by (apply has_call_index_count in Hn; lia).
  destruct (call_index_instance_for_string s _ _ f m db Hs Hf Hm U)
    as (c0 & -> & E0 & New).
  rewrite Hn. rewrite (New Hn). now rewrite Hr.
Qed.

Lemma call_row_outlives_refusal_witness :
  process_extrinsic 0 (getattr_value sample_unsigned) sample_events
    sample_block_row 7 sample_db
  = (add_call sample_db
       (Call.mk "0x0900" (Some "add_stake") (Some "SubtensorModule")),
     Raise IntegrityError).
Proof.
  exact (call_row_outlives_refusal
           [("extrinsic_hash", VNone); ("call", sample_call (VStr "0x0900") [])]
           [("call_index", VStr "0x0900"); ("call_function", VStr "add_stake");
            ("call_module", VStr "SubtensorModule"); ("call_args", VList [])]
           "0x0900" (Some "add_stake") (Some "SubtensorModule") 0 sample_events
           sample_block_row 7 sample_db (correlated sample_events 0) false
           IntegrityError eq_refl eq_refl ltac:(discriminate) eq_refl eq_refl
           eq_refl eq_refl eq_refl eq_refl).
Defined.

(* ================================================================= *)
(** ** The constraints of the tables are kept *)

Lemma NoDup_snoc {A} (l : list A) (x : A) :
  NoDup l -> ~ In x l -> NoDup (l ++ [x]).
Proof.
  intros N I. apply NoDup_app; [exact N | repeat constructor; intros [] | ].
  intros a Ia [<- | []]. contradiction.
Qed.

Lemma existsb_key_false {A} (key : A -> string) (l : list A) (s : string) :
  existsb (fun a => (key a =? s)%string) l = false -> ~ In s (map key l).
Proof.
  intros E I. apply in_map_iff in I. destruct I as (a & <- & Ia).
  assert (T : existsb (fun a0 => (key a0 =? key a)%string) l = true).
  { apply existsb_exists. exists a. split; [exact Ia | apply String.eqb_refl]. }
  congruence.
Qed.

Lemma has_block_id_false db n :
  has_block_id db n = false -> ~ In n (map Block.block_id (blocks db)).
Proof.
  unfold has_block_id. intros E I. apply in_map_iff in I.
  destruct I as (a & <- & Ia).
  assert (T : existsb (fun b => Block.block_id b =? Block.block_id a) (blocks db) = true).
  { apply existsb_exists. exists a. split; [exact Ia | apply Z.eqb_refl]. }
  congruence.
Qed.

Lemma Block_row_inv db n bh ph sr er ts row :
  Block_row db n bh ph sr er ts = Ok row ->
  Block.block_id row = n
  /\ Block.timestamp row = ts
  /\ to_char bh = Ok (Some (Block.block_hash row))
  /\ has_block_id db n = false
  /\ has_block_hash db (Block.block_hash row) = false.
Proof.
  unfold Block_row. intro H.
  destruct (to_char bh) as [obh|]; [|discriminate H]. cbn [rbind] in H.
  destruct (to_char ph) as [oph|]; [|discriminate H]. cbn [rbind] in H.
  destruct (to_char sr) as [osr|]; [|discriminate H]. cbn [rbind] in H.
  destruct (to_char er) as [oer|]; [|discriminate H]. cbn [rbind] in H.
  destruct (db_integer n) as [n'|] eqn:DI; [|discriminate H].
  apply db_integer_inv in DI. subst n'. cbn [rbind] in H.
  destruct obh as [h|]; [|discriminate H]. destruct oph; [|discriminate H].
  destruct osr; [|discriminate H]. destruct oer; [|discriminate H].
  cbn [rbind not_null] in H.
  destruct (has_block_id db n) eqn:U1; [discriminate H|].
  cbn [unique_check rbind] in H.
  destruct (has_block_hash db h) eqn:U2; [discriminate H|].
  cbn [unique_check rbind] in H.
  injection H as <-. cbn. auto.
Qed.

Lemma wf_db_add_block db b :
  wf_db db ->
  has_block_id db (Block.block_id b) = false ->
  has_block_hash db (Block.block_hash b) = false ->
  wf_db (add_block db b).
Proof.
  intros (W1 & W2 & W3 & W4 & W5) U1 U2. unfold wf_db, add_block. cbn [blocks calls extrinsics].
  rewrite !map_app. cbn [map].
  split; [apply NoDup_snoc; [exact W1 | now apply has_block_id_false]|].
  split; [apply NoDup_snoc; [exact W2 | now apply existsb_key_false]|].
  split; [exact W3|]. split; [exact W4|].
  intros r I. destruct (W5 r I) as [F1 F2]. split; [|exact F2].
  unfold has_block_id in *. cbn [blocks]. rewrite existsb_app, F1. reflexivity.
Qed.

Lemma wf_db_add_call db c :
  wf_db db ->
  has_call_index db (Call.call_index c) = false ->
  wf_db (add_call db c).
Proof.
  intros (W1 & W2 & W3 & W4 & W5) U. unfold wf_db, add_call. cbn [blocks calls extrinsics].
  rewrite map_app. cbn [map].
  split; [exact W1|]. split; [exact W2|].
  split; [apply NoDup_snoc; [exact W3 | now apply existsb_key_false]|].
  split; [exact W4|].
  intros r I. destruct (W5 r I) as [F1 F2]. split; [exact F1|].
  unfold has_call_index in *. cbn [calls]. rewrite existsb_app, F2. reflexivity.
Qed.

Lemma wf_db_add_extrinsic db r :
  wf_db db ->
  has_extrinsic_hash db (Extrinsic.hash r) = false ->
  has_block_id db (Extrinsic.block r) = true ->
  has_call_index db (Extrinsic.call_index r) = true ->
  wf_db (add_extrinsic db r).
Proof.
  intros (W1 & W2 & W3 & W4 & W5) U F1 F2. unfold wf_db, add_extrinsic.
  cbn [blocks calls extrinsics]. rewrite map_app. cbn [map].
  split; [exact W1|]. split; [exact W2|]. split; [exact W3|].
  split; [apply NoDup_snoc; [exact W4 | now apply existsb_key_false]|].
  intros r' I. apply in_app_or in I. destruct I as [I | [<- | []]].
  - exact (W5 r' I).
  - split; assumption.
Qed.

Lemma call_index_instance_for_wf ty db db' out :
  wf_db db -> call_index_instance_for ty db = (db', out) -> wf_db db'.
Proof.
  intros W H. apply call_index_instance_for_state in H.
  destruct H as [-> | (row & -> & U)]; [exact W | now apply wf_db_add_call].
Qed.

Lemma process_extrinsic_wf idx v events b n db db' out :
  wf_db db -> process_extrinsic idx v events b n db = (db', out) -> wf_db db'.
Proof.
  intro W. rewrite process_extrinsic_spec.
  destruct (extract_extrinsic_events events (Z.of_nat idx)) as [[evs ok]|e];
    [|now intros [= <- _]].
  destruct (extract_extrinsic_details v) as [[ty tag]|e]; [|now intros [= <- _]].
  destruct (call_index_instance_for ty db) as [db1 [ci|e]] eqn:C.
  - pose proof (call_index_instance_for_wf _ _ _ _ W C) as W1.
    destruct (row_for db1 v tag b n idx ci ok evs) as [r|e] eqn:R;
      [|now intros [= <- _]].
    intros [= <- _]. apply row_for_hash in R. destruct R as (_ & U & F1 & F2).
    now apply wf_db_add_extrinsic.
  - intros [= <- _]. exact (call_index_instance_for_wf _ _ _ _ W C).
Qed.

Lemma process_extrinsics_from_wf exts events b n :
  forall k db db' out,
    wf_db db ->
    process_extrinsics_from k exts events b n db = (db', out) -> wf_db db'.
Proof.
  induction exts as [|x rest IH]; intros k db db' out W H; simpl in H.
  - now injection H as <- _.
  - destruct (negb (truthy (getattr_value x))); [exact (IH _ _ _ _ W H)|].
    apply mbind_inv in H. destruct H as [(db1 & u & S1 & H) | (e & S1 & _)].
    + exact (IH _ _ _ _ (process_extrinsic_wf _ _ _ _ _ _ _ _ W S1) H).
    + exact (process_extrinsic_wf _ _ _ _ _ _ _ _ W S1).
Qed.

Lemma create_block_record_wf n block bh ts db db' out :
  wf_db db -> create_block_record n block bh ts db = (db', out) -> wf_db db'.
Proof.
  intro W. rewrite create_block_record_spec.
  destruct (py_item block "header") as [header|e]; [|now intros [= <- _]].
  destruct (py_item header "parentHash") as [ph|e]; [|now intros [= <- _]].
  destruct (py_item header "stateRoot") as [sr|e]; [|now intros [= <- _]].
  destruct (py_item header "extrinsicsRoot") as [er|e]; [|now intros [= <- _]].
  unfold Block_objects_create.
  destruct (Block_row db n bh ph sr er ts) as [row|e] eqn:R; intros [= <- _];
    [|exact W].
  apply Block_row_inv in R. destruct R as (<- & _ & _ & U1 & U2).
  now apply (wf_db_add_block db row).
Qed.

Lemma run_wf a db db' out : wf_db db -> run a db = (db', out) -> wf_db db'.
Proof.
  intro W. unfold run, ingest. rewrite mbind_lift.
  destruct (py_item _ "extrinsics") as [xv|e]; [|now intros [= <- _]].
  rewrite mbind_lift. destruct (py_iter xv) as [exts|e]; [|now intros [= <- _]].
  rewrite mbind_lift.
  destruct (extract_block_timestamp exts) as [ts|e]; [|now intros [= <- _]].
  intro H. apply mbind_inv in H.
  destruct H as [(db0 & bi & C & H) | (e & C & _)].
  - exact (process_extrinsics_from_wf _ _ _ _ _ _ _ _
             (create_block_record_wf _ _ _ _ _ _ _ W C) H).
  - exact (create_block_record_wf _ _ _ _ _ _ _ W C).
Qed.

(** Whatever is ingested, and whether the ingestions return or raise, the
    database keeps the constraints of the schema: block numbers, block
    hashes, call identifiers and extrinsic hashes are unique, and every
    Extrinsic row references a Block row and a Call row that exist. *)
Theorem constraints_kept (history : list ingestion) (db : DB) :
  wf_db db -> wf_db (run_all history db).
Proof.
  revert db. induction history as [|a l IH]; intros db W; [exact W|].
  cbn [run_all fold_left]. apply IH.
  apply (run_wf a db _ (snd (run a db)) W). now destruct (run a db).
Qed.

Lemma constraints_kept_witness :
  wf_db empty_db
  /\ wf_db (run_all [sample_ingestion 7 "0xb7" sample_extrinsics;
                     sample_ingestion 7 "0xb7" sample_extrinsics;
                     sample_ingestion 8 "0xb8" [sample_no_identifier]]
              empty_db).
Proof.
  assert (W : wf_db empty_db).
  { unfold wf_db, empty_db. cbn. repeat split; try constructor; contradiction. }
  split; [exact W | exact (constraints_kept _ empty_db W)].
Defined.

(* ================================================================= *)
(** ** The Block row and whole ingestions *)

Lemma has_block_hash_add db b h :
  has_block_hash (add_block db b) h
  = has_block_hash db h || (Block.block_hash b =? h)%string.
Proof.
  unfold has_block_hash, add_block. cbn [blocks]. rewrite existsb_app. simpl.
  now rewrite orb_false_r.
Qed.

(** A header of strings is stored as it is, under the number and hash
    given, unless the number or the hash is that of a Block row already
    there: then nothing is written and the outcome is the uniqueness
    conflict.  The row written is found under its number and its hash
    afterwards. *)
Theorem create_block_record_outcome
    (n : Z) (bd hd : list (string * pyval)) (h ph sr er : string)
    (ts : option datetime) (db : DB) :
  - 2 ^ 63 <= n < 2 ^ 63 ->
  dict_lookup "header" bd = Some (VDict hd) ->
  dict_lookup "parentHash" hd = Some (VStr ph) ->
  dict_lookup "stateRoot" hd = Some (VStr sr) ->
  dict_lookup "extrinsicsRoot" hd = Some (VStr er) ->
  create_block_record n (VDict bd) (VStr h) ts db
  = (if has_block_id db n || has_block_hash db h
     then (db, Raise IntegrityError)
     else (add_block db (Block.mk n h ph sr er ts), Ok (Block.mk n h ph sr er ts)))
  /\ has_block_id (add_block db (Block.mk n h ph sr er ts)) n = true
  /\ has_block_hash (add_block db (Block.mk n h ph sr er ts)) h = true.
Proof.
  intros R Hh Hp Hs He. split; [|split].
  - rewrite create_block_record_spec. cbn [py_item]. rewrite Hh. cbn [py_item].
    rewrite Hp, Hs, He. unfold Block_objects_create, Block_row, db_integer.
    assert (Rb : (- 2 ^ 63 <=? n) && (n <? 2 ^ 63) = true).
    { apply andb_true_iff. split; [apply Z.leb_le | apply Z.ltb_lt]; lia. }
    rewrite Rb. cbn [rbind to_char not_null].
    destruct (has_block_id db n); cbn [unique_check rbind orb]; [reflexivity|].
    destruct (has_block_hash db h); reflexivity.
  - unfold add_block. rewrite has_block_id_app. cbn [Block.block_id].
    rewrite Z.eqb_refl. apply orb_true_r.
  - rewrite has_block_hash_add. cbn [Block.block_hash].
    rewrite String.eqb_refl. apply orb_true_r.
Qed.

Lemma create_block_record_outcome_witness :
  create_block_record 8 (sample_block []) (VStr "0xb7") None sample_db
  = (sample_db, Raise IntegrityError).
Proof.
  exact (proj1 (create_block_record_outcome 8
                  [("header",
                    VDict [("parentHash", VStr "0x51"); ("stateRoot", VStr "0x7a");
                           ("extrinsicsRoot", VStr "0x3c")]);
                   ("extrinsics", VList [])]
                  [("parentHash", VStr "0x51"); ("stateRoot", VStr "0x7a");
                   ("extrinsicsRoot", VStr "0x3c")]
                  "0xb7" "0x51" "0x7a" "0x3c" None sample_db
                  ltac:(split; [vm_compute; discriminate | reflexivity])
                  eq_refl eq_refl eq_refl eq_refl)).
Defined.

(** What [create_block_record] refuses leaves the database as it is: a
    block without header or a header without one of its three roots is a
    [KeyError], a block that is no dictionary a [TypeError], and a block
    hash that is [None] (the chain knows no such block) is refused by the
    table. *)
Theorem create_block_record_refusals (n : Z) (block block_hash : pyval)
    (ts : option datetime) (db : DB) :
  (forall db' e, create_block_record n block block_hash ts db = (db', Raise e) ->
                 db' = db)
  /\ ((forall d, block <> VDict d) ->
      create_block_record n block block_hash ts db = (db, Raise TypeError))
  /\ (forall bd, block = VDict bd -> dict_lookup "header" bd = None ->
                 create_block_record n block block_hash ts db = (db, Raise KeyError))
  /\ (forall bd hd, block = VDict bd -> dict_lookup "header" bd = Some (VDict hd) ->
                    dict_lookup "parentHash" hd = None
                    \/ dict_lookup "stateRoot" hd = None
                    \/ dict_lookup "extrinsicsRoot" hd = None ->
                    create_block_record n block block_hash ts db = (db, Raise KeyError))
  /\ (forall bd hd ph sr er,
        - 2 ^ 63 <= n < 2 ^ 63 ->
        block = VDict bd -> dict_lookup "header" bd = Some (VDict hd) ->
        dict_lookup "parentHash" hd = Some (VStr ph) ->
        dict_lookup "stateRoot" hd = Some (VStr sr) ->
        dict_lookup "extrinsicsRoot" hd = Some (VStr er) ->
        block_hash = VNone ->
        create_block_record n block block_hash ts db = (db, Raise IntegrityError)).
Proof.
  split; [|split; [|split; [|split]]].
  - intros db' e H. now apply create_block_record_state in H.
  - intro N. rewrite create_block_record_spec.
    destruct block; try reflexivity. now contradiction (N d).
  - intros bd -> H. rewrite create_block_record_spec. cbn [py_item]. now rewrite H.
  - intros bd hd -> H M. rewrite create_block_record_spec. cbn [py_item].
    rewrite H. cbn [py_item].
    destruct (dict_lookup "parentHash" hd) as [ph|] eqn:P; [|reflexivity].
    destruct (dict_lookup "stateRoot" hd) as [sr|] eqn:S; [|reflexivity].
    destruct (dict_lookup "extrinsicsRoot" hd) as [er|] eqn:E; [|reflexivity].
    destruct M as [M | [M | M]]; discriminate M.
  - intros bd hd ph sr er R -> Hh Hp Hs He ->.
    rewrite create_block_record_spec. cbn [py_item]. rewrite Hh. cbn [py_item].
    rewrite Hp, Hs, He. unfold Block_objects_create, Block_row, db_integer.
    assert (Rb : (- 2 ^ 63 <=? n) && (n <? 2 ^ 63) = true).
    { apply andb_true_iff. split; [apply Z.leb_le | apply Z.ltb_lt]; lia. }
    rewrite Rb. reflexivity.
Qed.

Lemma create_block_record_refusals_witness :
  create_block_record 9 (VDict [("extrinsics", VList [])]) (VStr "0xb9") None sample_db
  = (sample_db, Raise KeyError).
Proof.
  exact (proj1 (proj2 (proj2
           (create_block_record_refusals 9 (VDict [("extrinsics", VList [])])
              (VStr "0xb9") None sample_db)))
           [("extrinsics", VList [])] eq_refl eq_refl).
Defined.

Lemma count_block_zero db n : has_block_id db n = false -> count_block n db = 0%nat.
Proof.
  unfold has_block_id, count_block.
  induction (blocks db) as [|b l IH]; simpl; [reflexivity|].
  destruct (Block.block_id b =? n); simpl; [discriminate | exact IH].
Qed.

(** The stages of an ingestion, down to the Block row. *)
Lemma ingest_block_stage n block events bh db db' out :
  ingest n block events bh db = (db', out) ->
  (db' = db /\ exists e, out = Raise e)
  \/ exists exts ts row,
       extrinsic_list block = Ok exts
       /\ extract_block_timestamp exts = Ok ts
       /\ Block.block_id row = n
       /\ Block.timestamp row = ts
       /\ has_block_id db n = false
       /\ process_extrinsics exts events row n (add_block db row) = (db', out).
Proof.
  unfold ingest, extrinsic_list. rewrite mbind_lift.
  destruct (py_item block "extrinsics") as [xv|e];
    [|intros [= <- <-]; left; eauto].
  rewrite mbind_lift. cbn [rbind].
  destruct (py_iter xv) as [exts|e]; [|intros [= <- <-]; left; eauto].
  rewrite mbind_lift.
  destruct (extract_block_timestamp exts) as [ts|e] eqn:Ts;
    [|intros [= <- <-]; left; eauto].
  intro H. apply mbind_inv in H.
  destruct H as [(db0 & bi & C & H) | (e & C & ->)].
  - right. exists exts, ts, bi.
    rewrite create_block_record_spec in C.
    destruct (py_item block "header") as [header|e]; [|discriminate C].
    destruct (py_item header "parentHash") as [ph|e]; [|discriminate C].
    destruct (py_item header "stateRoot") as [sr|e]; [|discriminate C].
    destruct (py_item header "extrinsicsRoot") as [er|e]; [|discriminate C].
    unfold Block_objects_create in C.
    destruct (Block_row db n bh ph sr er ts) as [row|e] eqn:R; [|discriminate C].
    injection C as <- <-. apply Block_row_inv in R.
    destruct R as (R1 & R2 & _ & R3 & _). repeat split; auto.
  - left. apply create_block_record_state in C. eauto.
Qed.

(** An ingestion writes the Block row before anything else.  So whatever
    its outcome, either the database is untouched or the Block row of the
    number is in it; in that case, also after a failure half-way, every
    ingestion under the number from then on, whatever has been ingested
    in between, raises and writes nothing. *)
Theorem ingest_nothing_or_block (n : Z) (block : pyval) (events : list pyval)
    (block_hash : pyval) (db db' : DB) (out : result unit) :
  ingest n block events block_hash db = (db', out) ->
  (db' = db /\ exists e, out = Raise e)
  \/ (has_block_id db' n = true
      /\ forall (later : list ingestion) block' events' block_hash',
           exists e, ingest n block' events' block_hash' (run_all later db')
                     = (run_all later db', Raise e)).
Proof.
  intro H. apply ingest_block_stage in H.
  destruct H as [H | (exts & ts & row & _ & _ & B & _ & _ & P)]; [now left|].
  right.
  assert (T : has_block_id db' n = true).
  { apply process_extrinsics_from_rows in P. destruct P as (G & _).
    apply (has_block_id_grows _ _ _ G). unfold add_block.
    rewrite has_block_id_app, B, Z.eqb_refl. apply orb_true_r. }
  split; [exact T|]. intros. apply ingest_taken.
  exact (has_block_id_grows _ _ _ (run_all_grows later db') T).
Qed.

Lemma ingest_nothing_or_block_witness :
  exists e,
    ingest 8 (sample_block [sample_extrinsic "0xe0" (VStr "0x0702")]) sample_events
      (VStr "0xb8")
      (run_all [sample_ingestion 7 "0xb7" sample_extrinsics]
         (fst (ingest 8 (sample_block [sample_no_identifier]) sample_events
                 (VStr "0xb8") empty_db)))
    = (run_all [sample_ingestion 7 "0xb7" sample_extrinsics]
         (fst (ingest 8 (sample_block [sample_no_identifier]) sample_events
                 (VStr "0xb8") empty_db)),
       Raise e).
Proof.
  destruct (ingest_nothing_or_block 8 (sample_block [sample_no_identifier])
              sample_events (VStr "0xb8") empty_db _ _ eq_refl)
    as [(E & _) | (_ & Retry)].
  - discriminate E.
  - exact (Retry [sample_ingestion 7 "0xb7" sample_extrinsics]
             (sample_block [sample_extrinsic "0xe0" (VStr "0x0702")])
             sample_events (VStr "0xb8")).
Defined.

(** An ingestion that returns has written exactly one Block row, under a
    number that had none, with the timestamp extracted from the fetched
    extrinsics, and one Extrinsic row for each extrinsic that has a
    decoded value. *)
Theorem ingest_returns (n : Z) (block : pyval) (events : list pyval)
    (block_hash : pyval) (db db' : DB) :
  ingest n block events block_hash db = (db', Ok tt) ->
  exists exts row new,
    extrinsic_list block = Ok exts
    /\ blocks db' = blocks db ++ [row]
    /\ Block.block_id row = n
    /\ extract_block_timestamp exts = Ok (Block.timestamp row)
    /\ count_block n db = 0%nat
    /\ count_block n db' = 1%nat
    /\ extrinsics db' = extrinsics db ++ new
    /\ List.length new = List.length (persisted_positions exts)
    /\ Forall (fun r => Extrinsic.block r = n) new.
Proof.
  intro H. apply ingest_block_stage in H.
  destruct H as [(_ & e & E) | (exts & ts & row & X & Ts & B & Tr & U & P)];
    [discriminate E|].
  apply process_extrinsics_from_rows in P.
  destruct P as (_ & Bl & done & todo & new & Pp & Xn & F & O).
  rewrite (O eq_refl), List.app_nil_r in Pp.
  exists exts, row, new. cbn [add_block blocks extrinsics] in Bl, Xn.
  pose proof (count_block_zero _ _ U) as Z0.
  repeat split; auto.
  - now rewrite Tr.
  - unfold count_block in *. rewrite Bl, filter_app, List.length_app, Z0.
    cbn [filter]. rewrite B, Z.eqb_refl. reflexivity.
  - unfold persisted_positions. rewrite Pp. symmetry. exact (Forall2_length F).
  - clear - F B. induction F as [|i r done new R F IH]; constructor; [|exact IH].
    destruct R as (_ & R & _). now rewrite R, B.
Qed.

Lemma ingest_returns_witness :
  count_block 7 sample_ingested = 1%nat
  /\ List.length (extrinsics sample_ingested) = 3%nat.
Proof.
  destruct (ingest_returns 7 (sample_block sample_extrinsics) sample_events
              (VStr "0xb7") empty_db sample_ingested eq_refl)
    as (exts & row & new & X & _ & _ & _ & _ & C & Xn & L & _).
  split; [exact C|]. rewrite Xn. cbn [empty_db extrinsics app]. rewrite L.
  vm_compute in X. injection X as <-. reflexivity.
Defined.

(** ** The chain client *)

(** The script fetches before it writes: when one of the three calls to
    the chain client fails, its exception is the outcome of [main] and the
    database is untouched; the events are fetched under the hash the block
    was fetched under.  When all three return, [main] is the ingestion of
    what they returned under the number 3593992. *)
Theorem main_fetches_first (substrate : SubstrateInterface) (db : DB) :
  (forall e, get_block_hash substrate 3593992 = Raise e ->
             main_with substrate db = (db, Raise e))
  /\ (forall h e, get_block_hash substrate 3593992 = Ok h ->
                  get_block substrate h = Raise e ->
                  main_with substrate db = (db, Raise e))
  /\ (forall h block e, get_block_hash substrate 3593992 = Ok h ->
                        get_block substrate h = Ok block ->
                        get_events substrate h = Raise e ->
                        main_with substrate db = (db, Raise e))
  /\ (forall h block events, get_block_hash substrate 3593992 = Ok h ->
                             get_block substrate h = Ok block ->
                             get_events substrate h = Ok events ->
                             main_with substrate db = main block events h db).
Proof.
  unfold main_with, get_block_data. repeat split.
  - intros e ->. reflexivity.
  - intros h e -> B. cbn [rbind]. now rewrite B.
  - intros h block e -> B E. cbn [rbind]. rewrite B. cbn [rbind]. now rewrite E.
  - intros h block events -> B E. cbn [rbind]. rewrite B. cbn [rbind]. rewrite E.
    reflexivity.
Qed.

Lemma main_fetches_first_witness :
  main_with failing_client sample_ingested = (sample_ingested, Raise ValueError)
  /\ main_with sample_client empty_db
     = main (sample_block sample_extrinsics) sample_events (VStr "0xb7") empty_db.
Proof.
  split.
  - exact (proj1 (proj2 (proj2 (main_fetches_first failing_client sample_ingested)))
             (VStr "0xb7") (sample_block sample_extrinsics) ValueError
             eq_refl eq_refl eq_refl).
  - exact (proj2 (proj2 (proj2 (main_fetches_first sample_client empty_db)))
             (VStr "0xb7") (sample_block sample_extrinsics) sample_events
             eq_refl eq_refl eq_refl).
Defined.

(* ================================================================= *)
(** ** Position identifiers across blocks *)

Lemma decimal_value_str_of_Z z : decimal_value (str_of_Z z) = Some z.
Proof.
  unfold decimal_value, str_of_Z.
  assert (G : forall d,
             option_map Z.of_int
               (DecimalString.NilZero.int_of_string
                  (DecimalString.NilZero.string_of_int d))
             = Some (Z.of_int d)).
  { intros [u|u]; destruct u; try reflexivity;
      rewrite DecimalString.NilZero.isi; try reflexivity; discriminate. }
  rewrite G. now rewrite DecimalZ.of_to.
Qed.

Lemma str_of_Z_injective n m : str_of_Z n = str_of_Z m -> n = m.
Proof.
  intro H. apply (f_equal decimal_value) in H.
  rewrite !decimal_value_str_of_Z in H. congruence.
Qed.

Lemma hyphen_free_append s t :
  hyphen_free (s ++ t)%string = hyphen_free s && hyphen_free t.
Proof.
  induction s as [|c s IH]; simpl; [reflexivity|].
  now rewrite IH, andb_assoc.
Qed.

Lemma hyphen_free_pad04 i : hyphen_free (pad04 i) = true.
Proof.
  unfold pad04. rewrite hyphen_free_append. apply andb_true_iff. split.
  - induction (4 - String.length (str_of_nat i))%nat; simpl; auto.
  - unfold str_of_nat, DecimalString.NilZero.string_of_uint.
    assert (G : forall d, hyphen_free (DecimalString.NilEmpty.string_of_uint d) = true)
      by (induction d; simpl; auto).
    destruct (Nat.to_uint i); try apply G. reflexivity.
Qed.

(** A string is cut in one way only at a hyphen that no hyphen follows. *)
Lemma hyphen_split a :
  forall b p q,
    (a ++ "-" ++ p = b ++ "-" ++ q)%string ->
    hyphen_free p = true -> hyphen_free q = true ->
    a = b /\ p = q.
Proof.
  assert (No : forall x y, hyphen_free (x ++ String "-" y)%string = false).
  { intros x y. rewrite hyphen_free_append. simpl. apply andb_false_r. }
  induction a as [|c a IH]; intros [|c' b] p q E Fp Fq; simpl in E.
  - injection E as E. auto.
  - injection E as _ E. rewrite E, No in Fp. discriminate.
  - injection E as _ E. rewrite <- E, No in Fq. discriminate.
  - injection E as -> E. destruct (IH _ _ _ E Fp Fq) as [-> ->]. auto.
Qed.

(** A position identifier names one block number and one position:
    extrinsics at different positions, or of blocks of different numbers,
    have different identifiers. *)
Theorem position_id_unique (n m : Z) (i j : nat) :
  (n, i) <> (m, j) -> position_id n i <> position_id m j.
Proof.
  unfold position_id. intros D H. apply D.
  apply hyphen_split in H; try apply hyphen_free_pad04.
  destruct H as [Hn Hi].
  apply str_of_Z_injective in Hn. apply pad04_injective in Hi. congruence.
Qed.

Lemma position_id_unique_witness : position_id 7 12 <> position_id 71 2.
Proof.
  apply (position_id_unique 7 71 12 2). discriminate.
Defined.

Lemma string_length_append s t :
  String.length (s ++ t)%string = (String.length s + String.length t)%nat.
Proof. induction s as [|c s IH]; simpl; [reflexivity | now rewrite IH]. Qed.

Lemma zeros_length k : String.length (zeros k) = k.
Proof. induction k as [|k IH]; simpl; [reflexivity | now rewrite IH]. Qed.

(** The position part of an identifier has four characters at least and
    as many as the position has digits beyond that; it has exactly four for
    every position below ten thousand. *)
Theorem pad04_width (i : nat) :
  String.length (pad04 i) = Nat.max 4 (String.length (str_of_nat i))
  /\ ((i < 100 * 100)%nat -> String.length (pad04 i) = 4%nat).
Proof.
  assert (L : String.length (pad04 i) = Nat.max 4 (String.length (str_of_nat i))).
  { unfold pad04. rewrite string_length_append, zeros_length. lia. }
  assert (Small : forallb (fun k => (String.length (str_of_nat k) <=? 4)%nat)
                    (seq 0 (100 * 100)) = true) by (vm_compute; reflexivity).
  split; [exact L|].
  intro B. rewrite L.
  rewrite forallb_forall in Small.
  assert (I : In i (seq 0 (100 * 100))) by (apply in_seq; lia).
  apply Small in I. apply Nat.leb_le in I. lia.
Qed.

Lemma pad04_width_witness : String.length (pad04 4999) = 4%nat.
Proof.
  apply (proj2 (pad04_width 4999)). vm_compute. lia.
Defined.

(* ================================================================= *)
(** ** What a persisted row holds *)

Lemma row_for_fields db v tag b n idx ci ok evs r :
  row_for db v tag b n idx ci ok evs = Ok r ->
  to_char (dict_field v "extrinsic_hash") = Ok (Some (Extrinsic.hash r))
  /\ to_integer tag = Ok (Extrinsic.netuid r)
  /\ to_char (dict_field v "address") = Ok (Extrinsic.address r)
  /\ Extrinsic.signature r = dict_field v "signature"
  /\ to_integer (dict_field v "tip") = Ok (Extrinsic.tip r)
  /\ to_integer (dict_field v "nonce") = Ok (Extrinsic.nonce r)
  /\ to_char (dict_field v "era") = Ok (Extrinsic.era r)
  /\ Extrinsic.call_args r = dict_field (call_object v) "call_args"
  /\ Extrinsic.block r = Block.block_id b.
Proof.
  unfold row_for, Extrinsic_row. intro H.
  destruct (to_integer tag) as [nu|]; [|discriminate H]. cbn [rbind] in H.
  destruct (to_char (dict_field v "extrinsic_hash")) as [h|]; [|discriminate H].
  cbn [rbind] in H.
  destruct (to_char (dict_field v "address")) as [ad|]; [|discriminate H].
  cbn [rbind] in H.
  destruct (to_json (dict_field v "signature")) as [sg|] eqn:J0; [|discriminate H].
  cbn [rbind] in H.
  destruct (to_integer (dict_field v "tip")) as [tp|]; [|discriminate H].
  cbn [rbind] in H.
  destruct (to_integer (dict_field v "nonce")) as [nc|]; [|discriminate H].
  cbn [rbind] in H.
  destruct (to_char (dict_field v "era")) as [er|]; [|discriminate H].
  cbn [rbind] in H.
  destruct (to_json (dict_field (call_object v) "call_args")) as [ca|] eqn:J1;
    [|discriminate H].
  cbn [rbind] in H.
  destruct (to_json (VList evs)) as [ev|]; [|discriminate H].
  cbn [rbind] in H.
  destruct (db_integer_opt nu) as [nu'|] eqn:D1; [|discriminate H].
  apply db_integer_opt_inv in D1. subst nu'. cbn [rbind] in H.
  destruct (db_integer_opt tp) as [tp'|] eqn:D2; [|discriminate H].
  apply db_integer_opt_inv in D2. subst tp'. cbn [rbind] in H.
  destruct (db_integer_opt nc) as [nc'|] eqn:D3; [|discriminate H].
  apply db_integer_opt_inv in D3. subst nc'. cbn [rbind] in H.
  destruct h as [h|]; [|discriminate H]. cbn [not_null rbind] in H.
  destruct ci as [c|]; [|discriminate H]. cbn [option_map not_null rbind] in H.
  destruct (unique_check _); [|discriminate H]. cbn [rbind] in H.
  destruct (references_check _); [|discriminate H]. cbn [rbind] in H.
  destruct (references_check _); [|discriminate H]. cbn [rbind] in H.
  injection H as <-. cbn.
  unfold to_json in J0, J1.
  destruct (json_serializable (dict_field v "signature")); [|discriminate J0].
  destruct (json_serializable (dict_field (call_object v) "call_args"));
    [|discriminate J1].
  injection J0 as <-. injection J1 as <-. repeat split; reflexivity.
Qed.

(** The row persisted for an extrinsic holds what the extrinsic carries:
    hash, address and era as their columns store them (a string as it is,
    [str()] of anything else, so a mortal era as the text of its list;
    [None] for address and era when missing), tip, nonce and the extracted
    tag as [int()] makes them, signature and call arguments unchanged, and
    the number of the block instance. *)
Theorem persisted_row_reflects_extrinsic
    (idx : nat) (v : pyval) (events : list pyval) (b : Block.t) (n : Z)
    (db db' : DB) :
  process_extrinsic idx v events b n db = (db', Ok tt) ->
  exists r ty tag,
    extrinsics db' = extrinsics db ++ [r]
    /\ extract_extrinsic_details v = Ok (ty, tag)
    /\ to_char (dict_field v "extrinsic_hash") = Ok (Some (Extrinsic.hash r))
    /\ to_integer tag = Ok (Extrinsic.netuid r)
    /\ to_char (dict_field v "address") = Ok (Extrinsic.address r)
    /\ Extrinsic.signature r = dict_field v "signature"
    /\ to_integer (dict_field v "tip") = Ok (Extrinsic.tip r)
    /\ to_integer (dict_field v "nonce") = Ok (Extrinsic.nonce r)
    /\ to_char (dict_field v "era") = Ok (Extrinsic.era r)
    /\ Extrinsic.call_args r = dict_field (call_object v) "call_args"
    /\ Extrinsic.block r = Block.block_id b.
Proof.
  intro H. apply process_extrinsic_ok_inv in H.
  destruct H as (evs & ok & ty & tag & db1 & ci & r & _ & D & C & R & ->).
  apply call_index_instance_for_grows in C. destruct C as (_ & _ & X).
  exists r, ty, tag. cbn [add_extrinsic extrinsics]. rewrite X.
  split; [reflexivity|]. split; [exact D|]. now apply row_for_fields in R.
Qed.

Lemma persisted_row_reflects_extrinsic_witness :
  exists r,
    extrinsics (fst (process_extrinsic 2 sample_mortal sample_events sample_block_row 7
                       sample_db))
    = extrinsics sample_db ++ [r]
    /\ Extrinsic.hash r = "0xd5"%string
    /\ Extrinsic.netuid r = Some 12
    /\ Extrinsic.tip r = Some 0
    /\ Extrinsic.era r = Some "[64, 5]"%string.
Proof.
  destruct (persisted_row_reflects_extrinsic 2 sample_mortal
              sample_events sample_block_row 7 sample_db _ eq_refl)
    as (r & ty & tag & X & _).
  exists r. split; [exact X|].
  vm_compute in X. injection X as <-. repeat split; reflexivity.
Defined.

(* ================================================================= *)
(** ** The string forms of the models *)

(** Both [__str__] methods read [self.block_number], an attribute neither
    model has (the number of a Block is [block_id], an Extrinsic has the
    key [block_id] of its block): printing a Block or an Extrinsic raises
    [AttributeError], whatever the row holds. *)
Theorem model_str_raises (b : Block.t) (x : Extrinsic.t) :
  Block_str b = Raise AttributeError /\ Extrinsic_str x = Raise AttributeError.
Proof. split; reflexivity. Qed.

(* ================================================================= *)
(** ** A call that lacks its module or its arguments *)





